(** * metric-gen: annotation resolution and generator assembly

    A shallow embedding of the metric generator of kube-state-metrics
    (exp/metric-gen): the JSONPath resolver, the marker types with their
    ToGenerator / ApplyToResource methods, the parser that walks the type
    graph (NeedMetricsGeneratorFor, generatorsFor, NeedResourceFor) and the
    comparison used to sort the resources of the final document.

    Go slices are lists, Go maps with string keys are [gmap]s, a nil pointer
    or nil map is [None].  A call that does not return normally ends in one
    of the other constructors of [outcome]. *)

From Stdlib Require Import Ascii.
From Stdlib Require OrderedTypeEx.
From stdpp Require Import base option list strings gmap.

Local Open Scope string_scope.
Local Open Scope list_scope.
Set Warnings "-register-all".

(** ** Errors and outcomes *)

(** jsonpath.NodeType of k8s.io/client-go/util/jsonpath. *)
Inductive NodeType :=
| NodeText | NodeArray | NodeList | NodeField | NodeIdentifier | NodeFilter
| NodeInt | NodeFloat | NodeWildcard | NodeRecursive | NodeUnion | NodeBool.

(** An argument of fmt.Errorf. *)
Inductive fmtArg :=
| ArgStr (s : string)        (* a string, for %q *)
| ArgInt (n : nat)           (* an int, for %d *)
| ArgErr (msg : string)      (* a wrapped library error, for %w *)
| ArgNodeType (t : NodeType) (* a jsonpath.NodeType, for %q *).

(** A Go error built by fmt.Errorf(format, args...): the format string and
    its arguments are kept apart, the rendering is not modelled. *)
Record error := Errorf { format : string; args : list fmtArg }.

Inductive outcome (A : Type) : Type :=
| Done (a : A)       (* the call returns [a] *)
| Fatal (e : error)  (* klog.Fatal: the message is logged and the process exits *)
| Panic              (* run-time panic: nil dereference, index out of range, failed type assertion *)
| OutOfFuel          (* the recursion budget of the model is spent *).
Arguments Done {A} a.
Arguments Fatal {A} e.
Arguments Panic {A}.
Arguments OutOfFuel {A}.

#[global] Instance outcome_ret : MRet outcome := fun A a => Done a.
#[global] Instance outcome_bind : MBind outcome := fun A B f m =>
  match m with
  | Done a => f a
  | Fatal e => Fatal e
  | Panic => Panic
  | OutOfFuel => OutOfFuel
  end.

(** Go's (value, error) result pair. *)
Inductive goresult (A : Type) : Type :=
| Value (a : A)
| Error (e : error).
Arguments Value {A} a.
Arguments Error {A} e.

(** [if err != nil { klog.Fatal(err) }] *)
Definition orFatal {A} (r : goresult A) : outcome A :=
  match r with
  | Value a => Done a
  | Error e => Fatal e
  end.

(** [for _, x := range l { acc = body(acc, x) }] with a body that may not return. *)
Fixpoint range_fold {A B} (body : B -> A -> outcome B) (l : list A) (acc : B) : outcome B :=
  match l with
  | [] => Done acc
  | x :: l' => acc' ← body acc x; range_fold body l' acc'
  end.

(** ** The jsonpath library (k8s.io/client-go/util/jsonpath) *)

(** The nodes of a parsed template.  [OtherNode t] stands for every node that
    is neither a *ListNode nor a *FieldNode; [t] is what its Type() returns. *)
Inductive Node :=
| ListNode (Nodes : list Node)
| FieldNode (Value : string)
| OtherNode (t : NodeType).

Definition Node_Type (n : Node) : NodeType :=
  match n with
  | ListNode _ => NodeList
  | FieldNode _ => NodeField
  | OtherNode t => t
  end.

(** jsonpath.Parser, of which only Root.Nodes is read. *)
Record Parser := { Root_Nodes : list Node }.

(** ** Package customresourcestate *)

(** Modelled from the spec: the types of package customresourcestate
    (MetricMeta, MetricGauge, MetricInfo, MetricStateSet, Metric, Generator,
    GroupVersionKind, Resource), whose declarations are not among the
    sources; the fields are those the generator's code reads and writes. *)
Record MetricMeta := {
  Path : list string;
  LabelsFromPath : gmap string (list string)
}.

Record MetricGauge := {
  Gauge_MetricMeta : MetricMeta;
  Gauge_NilIsZero : bool;
  Gauge_LabelFromKey : string;
  Gauge_ValueFrom : list string
}.

Record MetricInfo := {
  Info_MetricMeta : MetricMeta;
  Info_LabelFromKey : string
}.

Record MetricStateSet := {
  StateSet_MetricMeta : MetricMeta;
  StateSet_List : list string;
  StateSet_LabelName : string;
  StateSet_ValueFrom : list string
}.

(** metric.Type; [MetricTypeUnset] is any value other than the three constants. *)
Inductive MetricType := MetricTypeGauge | MetricTypeStateSet | MetricTypeInfo | MetricTypeUnset.

(** customresourcestate.Metric: a type tag and one pointer per payload. *)
Record Metric := {
  Type_ : MetricType;
  Gauge : option MetricGauge;
  StateSet : option MetricStateSet;
  Info : option MetricInfo
}.

Record Generator := {
  Name : string;
  Help : string;
  Each : Metric
}.

Record GroupVersionKind := {
  Group : string;
  Version : string;
  Kind : string
}.

Record Resource := {
  Resource_GroupVersionKind : GroupVersionKind;
  MetricNamePrefix : option string;                        (* *string *)
  Resource_LabelsFromPath : option (gmap string (list string)); (* nil or a map *)
  Metrics : list Generator
}.

(** The path stored in a generator's payload, when tag and payload agree. *)
Definition Generator_path (g : Generator) : option (list string) :=
  match Type_ (Each g) with
  | MetricTypeGauge => Path ∘ Gauge_MetricMeta <$> Gauge (Each g)
  | MetricTypeStateSet => Path ∘ StateSet_MetricMeta <$> StateSet (Each g)
  | MetricTypeInfo => Path ∘ Info_MetricMeta <$> Info (Each g)
  | MetricTypeUnset => None
  end.

Definition Generator_labelsFromPath (g : Generator) : option (gmap string (list string)) :=
  match Type_ (Each g) with
  | MetricTypeGauge => LabelsFromPath ∘ Gauge_MetricMeta <$> Gauge (Each g)
  | MetricTypeStateSet => LabelsFromPath ∘ StateSet_MetricMeta <$> StateSet (Each g)
  | MetricTypeInfo => LabelsFromPath ∘ Info_MetricMeta <$> Info (Each g)
  | MetricTypeUnset => None
  end.

(** The path stored under a label in a generator's payload. *)
Definition Generator_label (k : string) (g : Generator) : option (list string) :=
  Generator_labelsFromPath g ≫= (.!! k).

(** ** Markers *)

Definition JSONPath := string.

Record GaugeMarker := {
  GaugeMarker_Name : string;
  GaugeMarker_Help : string;
  GaugeMarker_JSONPath : JSONPath;
  GaugeMarker_LabelFromKey : string;
  GaugeMarker_LabelsFromPath : gmap string JSONPath;
  GaugeMarker_NilIsZero : bool;
  GaugeMarker_ValueFrom : option JSONPath                  (* *JSONPath *)
}.

Record InfoMarker := {
  InfoMarker_Name : string;
  InfoMarker_Help : string;
  InfoMarker_LabelsFromPath : gmap string JSONPath;
  InfoMarker_JSONPath : JSONPath;
  InfoMarker_LabelFromKey : string
}.

Record StateSetMarker := {
  StateSetMarker_Name : string;
  StateSetMarker_Help : string;
  StateSetMarker_LabelsFromPath : gmap string JSONPath;
  StateSetMarker_JSONPath : option JSONPath;               (* *JSONPath *)
  StateSetMarker_LabelName : string;
  StateSetMarker_List : list string
}.

Definition NamePrefixMarker := string.

Record LabelFromPathMarker := {
  LabelFromPathMarker_Name : string;
  LabelFromPathMarker_JSONPath : JSONPath
}.

(** The interfaces of the marker package. *)
Class LocalGeneratorMarker (T : Type) :=
  ToGenerator : T -> list string -> outcome Generator.

Class ResourceMarker (T : Type) :=
  ApplyToResource : T -> Resource -> outcome (Resource * option error).

Section Generator.

(** jsonpath.Parse(name, text): the template parser of the library, which is
    not part of this repository.  It returns an error message or a parser. *)
Variable jsonpath_Parse : string -> string -> string + Parser.

(** *** JSONPath.Parse *)

(** [for _, n := range list.Nodes]: every node must be a *FieldNode. *)
Fixpoint Parse_range (nodes : list Node) (ret : list string) : goresult (list string) :=
  match nodes with
  | [] => Value ret
  | FieldNode v :: nodes' => Parse_range nodes' (ret ++ [v])
  | _ :: _ => Error (Errorf "unable to typecast to jsonpath.NodeField" [])
  end.

Definition Parse (j : JSONPath) : outcome (goresult (list string)) :=
  let ret : list string := [] in
  match jsonpath_Parse "foo" ("{" +:+ j +:+ "}") with
  | inl err => Done (Error (Errorf "parse JSONPath: %w" [ArgErr err]))
  | inr jp =>
      if bool_decide (1 < length (Root_Nodes jp)) then
        Done (Error (Errorf "expected a single JSONPath, got %d" [ArgInt (length (Root_Nodes jp))]))
      else
        match Root_Nodes jp !! 0 with
        | None => Panic (* index out of range *)
        | Some n0 =>
            match Node_Type n0 with
            | NodeList =>
                match n0 with
                | ListNode nodes => Done (Parse_range nodes ret)
                | _ => Done (Error (Errorf "unable to typecast to jsonpath.ListNode" []))
                end
            | t => Done (Error (Errorf "unexcepted jsonpath node type: %q" [ArgNodeType t]))
            end
        end
  end.

(** [v, err := j.Parse(); if err != nil { klog.Fatal(err) }] *)
Definition Parse_orFatal (j : JSONPath) : outcome (list string) :=
  r ← Parse j; orFatal r.

(** *** ToGenerator *)

(** [for k, v := range m { path := entry(v); labelsFromPath[k] = path }].
    Go visits the keys of a map in no fixed order; here they are visited in
    the order of [map_to_list]. *)
Definition labelsFromPath_range (entry : JSONPath -> outcome (list string))
    (m : gmap string JSONPath) : outcome (gmap string (list string)) :=
  range_fold (fun labelsFromPath kv => path ← entry kv.2; mret (<[kv.1 := path]> labelsFromPath))
             (map_to_list m) ∅.

Definition GaugeMarker_ToGenerator (g : GaugeMarker) (basePath : list string) : outcome Generator :=
  additionalPath ← Parse_orFatal (GaugeMarker_JSONPath g);
  valueFrom ← match GaugeMarker_ValueFrom g with
              | Some vf => Parse_orFatal vf
              | None => mret []
              end;
  labelsFromPath ← labelsFromPath_range
      (fun v => if bool_decide (v ≠ ".") then Parse_orFatal v else mret [])
      (GaugeMarker_LabelsFromPath g);
  let path := basePath ++ additionalPath in
  mret {| Name := GaugeMarker_Name g;
          Help := GaugeMarker_Help g;
          Each := {| Type_ := MetricTypeGauge;
                     Gauge := Some {| Gauge_NilIsZero := GaugeMarker_NilIsZero g;
                                      Gauge_MetricMeta := {| Path := path; LabelsFromPath := labelsFromPath |};
                                      Gauge_LabelFromKey := GaugeMarker_LabelFromKey g;
                                      Gauge_ValueFrom := valueFrom |};
                     StateSet := None;
                     Info := None |} |}.

Definition InfoMarker_ToGenerator (i : InfoMarker) (basePath : list string) : outcome Generator :=
  let path := basePath in
  path ← (if bool_decide (InfoMarker_JSONPath i ≠ "") then
            valueFrom ← Parse_orFatal (InfoMarker_JSONPath i);
            if bool_decide (0 < length valueFrom) then mret (path ++ valueFrom) else mret path
          else mret path);
  labelsFromPath ← labelsFromPath_range
      (fun v => if bool_decide (v ≠ ".") then Parse_orFatal v else mret [])
      (InfoMarker_LabelsFromPath i);
  mret {| Name := InfoMarker_Name i;
          Help := InfoMarker_Help i;
          Each := {| Type_ := MetricTypeInfo;
                     Info := Some {| Info_MetricMeta := {| Path := path; LabelsFromPath := labelsFromPath |};
                                     Info_LabelFromKey := InfoMarker_LabelFromKey i |};
                     Gauge := None;
                     StateSet := None |} |}.

Definition StateSetMarker_ToGenerator (s : StateSetMarker) (basePath : list string) : outcome Generator :=
  let path := basePath in
  valueFrom ← match StateSetMarker_JSONPath s with
              | Some jp => Parse_orFatal jp
              | None => mret []
              end;
  labelsFromPath ← labelsFromPath_range (fun v => Parse_orFatal v) (StateSetMarker_LabelsFromPath s);
  mret {| Name := StateSetMarker_Name s;
          Help := StateSetMarker_Help s;
          Each := {| Type_ := MetricTypeStateSet;
                     StateSet := Some {| StateSet_MetricMeta := {| Path := path; LabelsFromPath := labelsFromPath |};
                                         StateSet_List := StateSetMarker_List s;
                                         StateSet_LabelName := StateSetMarker_LabelName s;
                                         StateSet_ValueFrom := valueFrom |};
                     Gauge := None;
                     Info := None |} |}.

#[local] Instance GaugeMarker_generator : LocalGeneratorMarker GaugeMarker := GaugeMarker_ToGenerator.
#[local] Instance InfoMarker_generator : LocalGeneratorMarker InfoMarker := InfoMarker_ToGenerator.
#[local] Instance StateSetMarker_generator : LocalGeneratorMarker StateSetMarker := StateSetMarker_ToGenerator.

(** *** ApplyToResource *)

Definition NamePrefixMarker_ApplyToResource (n : NamePrefixMarker) (resource : Resource)
    : outcome (Resource * option error) :=
  mret ({| Resource_GroupVersionKind := Resource_GroupVersionKind resource;
           MetricNamePrefix := Some n;
           Resource_LabelsFromPath := Resource_LabelsFromPath resource;
           Metrics := Metrics resource |}, None).

(** [for i, v := range jsonPath { if v != jsonPathElems[i] { return err } }]:
    whether the loop leaves through its return. *)
Fixpoint path_differs (jsonPathElems : list string) (i : nat) (jsonPath : list string) : outcome bool :=
  match jsonPath with
  | [] => Done false
  | v :: jsonPath' =>
      match jsonPathElems !! i with
      | None => Panic (* index out of range *)
      | Some w => if bool_decide (v ≠ w) then Done true else path_differs jsonPathElems (S i) jsonPath'
      end
  end.

Definition set_LabelsFromPath (resource : Resource) (m : gmap string (list string)) : Resource :=
  {| Resource_GroupVersionKind := Resource_GroupVersionKind resource;
     MetricNamePrefix := MetricNamePrefix resource;
     Resource_LabelsFromPath := Some m;
     Metrics := Metrics resource |}.

Definition duplicate_definition (name : string) : error :=
  Errorf "duplicate definition for label %q" [ArgStr name].

(** The resource is passed by pointer: the first component of the result is
    the resource as the call leaves it, the second the returned error. *)
Definition LabelFromPathMarker_ApplyToResource (n : LabelFromPathMarker) (resource : Resource)
    : outcome (Resource * option error) :=
  let labels := default ∅ (Resource_LabelsFromPath resource) in
  let resource := set_LabelsFromPath resource labels in
  r ← Parse (LabelFromPathMarker_JSONPath n);
  match r with
  | Error err => mret (resource, Some err)
  | Value jsonPathElems =>
      conflict ← match labels !! LabelFromPathMarker_Name n with
                 | Some jsonPath =>
                     if bool_decide (length jsonPathElems ≠ length jsonPath) then mret true
                     else path_differs jsonPathElems 0 jsonPath
                 | None => mret false
                 end;
      if conflict : bool then
        mret (resource, Some (duplicate_definition (LabelFromPathMarker_Name n)))
      else
        mret (set_LabelsFromPath resource (<[LabelFromPathMarker_Name n := jsonPathElems]> labels), None)
  end.

#[local] Instance NamePrefixMarker_resource : ResourceMarker NamePrefixMarker := NamePrefixMarker_ApplyToResource.
#[local] Instance LabelFromPathMarker_resource : ResourceMarker LabelFromPathMarker := LabelFromPathMarker_ApplyToResource.

(** ** The parser: walking the type graph *)

(** A value found in a MarkerValues map ([interface{}] in the source). *)
Inductive MarkerValue :=
| GaugeValue (g : GaugeMarker)
| InfoValue (i : InfoMarker)
| StateSetValue (s : StateSetMarker)
| NamePrefixValue (n : NamePrefixMarker)
| LabelFromPathValue (l : LabelFromPathMarker)
| OtherValue (* any other marker value, such as the one of the gvk marker *).

(** markers.MarkerValues, a map from marker name to the values collected for
    it, as the list of its entries in the order a range loop visits them. *)
Definition MarkerValues := list (string * list MarkerValue).

(** MarkerValues.Get of controller-tools: the first value of the marker, nil
    when there is none. *)
Definition MarkerValues_Get (m : MarkerValues) (name : string) : option MarkerValue :=
  match list_find (fun kv => kv.1 = name) m with
  | Some (_, (_, vals)) => head vals
  | None => None
  end.

(** [val.(markers.LocalGeneratorMarker)] *)
Definition asLocalGeneratorMarker (val : MarkerValue) : option (list string -> outcome Generator) :=
  match val with
  | GaugeValue g => Some (ToGenerator g)
  | InfoValue i => Some (ToGenerator i)
  | StateSetValue s => Some (ToGenerator s)
  | _ => None
  end.

(** [val.(markers.ResourceMarker)] *)
Definition asResourceMarker (val : MarkerValue) : option (Resource -> outcome (Resource * option error)) :=
  match val with
  | NamePrefixValue n => Some (ApplyToResource n)
  | LabelFromPathValue l => Some (ApplyToResource l)
  | _ => None
  end.

(** The identity of a *loader.Package. *)
Definition Package := string.

(** crd.TypeIdent{Package, Name}; the package pointer may be nil. *)
Definition TypeIdent := (option Package * string)%type.

(** The shapes of ast.Expr that generatorsFor tells apart. *)
Inductive Expr :=
| Ident (name : string)
| SelectorExpr (X : Expr) (Sel : string)
| ArrayType (Elt : Expr)
| MapType (Key Val : Expr)
| StarExpr (X : Expr)
| StructType
| OtherExpr (* interfaces and every other kind of expression *).

(** What pkg.TypesInfo.TypeOf answers for an identifier.  The package of
    a named type's object is given as the loader package of its non-vendor
    import path, the key under which Imports() holds it. *)
Inductive GoType :=
| Invalid                                 (* types.Typ[types.Invalid] *)
| Basic                                   (* a *types.Basic *)
| Named (pkg : Package) (name : string)   (* a *types.Named with its object's package and name *)
| OtherType                               (* any other type *).

Record FieldInfo := {
  Tag_json : option string;               (* f.Tag.Lookup("json") *)
  Field_Markers : MarkerValues;
  RawField_Type : Expr
}.

Record TypeInfo := {
  Type_Markers : MarkerValues;
  Fields : list FieldInfo
}.

Record GroupVersion := {
  GV_Group : string;
  GV_Version : string
}.

Definition GroupKind := (string * string)%type.

Record parser := {
  Types : gmap TypeIdent TypeInfo;
  GroupVersions : list (Package * GroupVersion);   (* in the order a range loop visits them *)
  PackageErrors : list (Package * error);          (* what pkg.AddError collected *)
  CustomResourceStates : gmap GroupKind Resource;
  FlattenedMetrics : gmap TypeIdent (list Metric)
}.

(** The type checker's answer for an identifier of a package, and the
    imports of a package by import path: data of the loader. *)
Variable TypesInfo_TypeOf : Package -> string -> GoType.
Variable Imports : Package -> gmap string Package.

(** markers.GVKMarkerName, declared outside the sources. *)
Variable GVKMarkerName : string.

(** sort.Slice of the Go library on a slice of generators. *)
Variable sort_Slice : (Generator -> Generator -> bool) -> list Generator -> list Generator.

(** Computations on the parser: the state is threaded through every call. *)
Definition parserM (A : Type) : Type := parser -> outcome (A * parser).

#[global] Instance parserM_ret : MRet parserM := fun A a p => Done (a, p).
#[global] Instance parserM_bind : MBind parserM := fun A B f m p =>
  match m p with
  | Done (a, p') => f a p'
  | Fatal e => Fatal e
  | Panic => Panic
  | OutOfFuel => OutOfFuel
  end.

Definition lift {A} (o : outcome A) : parserM A := fun p => a ← o; mret (a, p).
Definition get : parserM parser := fun p => Done (p, p).
Definition klog_Fatal {A} (e : error) : parserM A := fun _ => Fatal e.

Fixpoint range_foldM {A B} (body : B -> A -> parserM B) (l : list A) (acc : B) : parserM B :=
  match l with
  | [] => mret acc
  | x :: l' => acc' ← body acc x; range_foldM body l' acc'
  end.

(** The interface generatorRequester. *)
Record generatorContext := {
  ctx_pkg : Package;
  generatorRequester : TypeIdent -> parserM (list Generator)
}.

(** newGeneratorContext calls pkg.NeedTypesInfo(), a method of the pointer. *)
Definition newGeneratorContext (pkg : option Package) (req : TypeIdent -> parserM (list Generator))
    : parserM generatorContext :=
  match pkg with
  | None => fun _ => Panic
  | Some pkg => mret {| ctx_pkg := pkg; generatorRequester := req |}
  end.

Definition requestGenerator (c : generatorContext) (pkgPath typeName : string) : parserM (list Generator) :=
  let pkg := if bool_decide (pkgPath ≠ "") then Imports (ctx_pkg c) !! pkgPath else Some (ctx_pkg c) in
  generatorRequester c (pkg, typeName).

Definition generatorsFromMarkers (m : MarkerValues) (basePath : list string) : outcome (list Generator) :=
  range_fold (fun generators markerVals =>
      range_fold (fun generators val =>
          match asLocalGeneratorMarker val with
          | Some toGenerator => g ← toGenerator basePath; mret (generators ++ [g])
          | None => mret generators
          end) markerVals.2 generators)
    m [].

Definition set_Path (m : MetricMeta) (path : list string) : MetricMeta :=
  {| Path := path; LabelsFromPath := LabelsFromPath m |}.

Definition set_Each (generator : Generator) (each : Metric) : Generator :=
  {| Name := Name generator; Help := Help generator; Each := each |}.

(** The payloads are reached through pointers; a nil payload under its own
    tag is a nil dereference.  The write goes through the pointer of the
    generator handed in, which its caller does not use again; the result is
    the generator with the payload as written. *)
Definition prependPathOnGenerator (generator : Generator) (pathPrefix : string) : outcome Generator :=
  let each := Each generator in
  match Type_ each with
  | MetricTypeGauge =>
      match Gauge each with
      | None => Panic
      | Some g =>
          let g' := {| Gauge_MetricMeta := set_Path (Gauge_MetricMeta g) ([pathPrefix] ++ Path (Gauge_MetricMeta g));
                       Gauge_NilIsZero := Gauge_NilIsZero g;
                       Gauge_LabelFromKey := Gauge_LabelFromKey g;
                       Gauge_ValueFrom := Gauge_ValueFrom g |} in
          Done (set_Each generator {| Type_ := Type_ each; Gauge := Some g';
                                      StateSet := StateSet each; Info := Info each |})
      end
  | MetricTypeStateSet =>
      match StateSet each with
      | None => Panic
      | Some s =>
          let s' := {| StateSet_MetricMeta := set_Path (StateSet_MetricMeta s) ([pathPrefix] ++ Path (StateSet_MetricMeta s));
                       StateSet_List := StateSet_List s;
                       StateSet_LabelName := StateSet_LabelName s;
                       StateSet_ValueFrom := StateSet_ValueFrom s |} in
          Done (set_Each generator {| Type_ := Type_ each; Gauge := Gauge each;
                                      StateSet := Some s'; Info := Info each |})
      end
  | MetricTypeInfo =>
      match Info each with
      | None => Panic
      | Some i =>
          let i' := {| Info_MetricMeta := set_Path (Info_MetricMeta i) ([pathPrefix] ++ Path (Info_MetricMeta i));
                       Info_LabelFromKey := Info_LabelFromKey i |} in
          Done (set_Each generator {| Type_ := Type_ each; Gauge := Gauge each;
                                      StateSet := StateSet each; Info := Some i' |})
      end
  | MetricTypeUnset => Done generator
  end.

Definition localNamedToGenerators (ctx : generatorContext) (ident : string) : parserM (list Generator) :=
  match TypesInfo_TypeOf (ctx_pkg ctx) ident with
  | Invalid => mret []
  | Basic => mret []
  | Named pkg name =>
      let pkgPath := if bool_decide (pkg = ctx_pkg ctx) then "" else pkg in
      requestGenerator ctx pkgPath name
  | OtherType => fun _ => Panic (* the type assertion to a named type fails *)
  end.

(** The error of an unsupported expression; its operand, the expression
    itself, is left out. *)
Definition unsupported_AST_kind : error := Errorf "unsupported AST kind %T" [].

Fixpoint generatorsFor (ctx : generatorContext) (rawType : Expr) : parserM (list Generator) :=
  match rawType with
  | Ident name => localNamedToGenerators ctx name
  | SelectorExpr X _ => generatorsFor ctx X
  | ArrayType _ => mret []
  | MapType _ _ => mret []
  | StarExpr X => generatorsFor ctx X
  | StructType => klog_Fatal unsupported_AST_kind
  | OtherExpr => klog_Fatal unsupported_AST_kind
  end.

(** strings.Split(s, ","). *)
Fixpoint strings_Split_comma (s : string) : list string :=
  match s with
  | EmptyString => [EmptyString]
  | String c s' =>
      if Ascii.eqb c ","%char then EmptyString :: strings_Split_comma s'
      else match strings_Split_comma s' with
           | [] => [String c EmptyString]
           | h :: t => String c h :: t
           end
  end.

(** The message of the fatal exit for a type without info; its operand,
    the type, is left out. *)
Definition expected_info : error := Errorf "expected to get info for %v but does not exist" [].

(** The body of the loop over info.Fields in NeedMetricsGeneratorFor, with
    the receiver's method passed as [self]. *)
Definition NeedMetricsGeneratorFor_field (self : TypeIdent -> parserM (list Generator))
    (typ : TypeIdent) (generators : list Generator) (f : FieldInfo) : parserM (list Generator) :=
  match Tag_json f with
  | None => mret generators
  | Some jsonTag =>
      let jsonOpts := strings_Split_comma jsonTag in
      if bool_decide (length jsonOpts = 1) && bool_decide (jsonOpts !! 0 = Some "-") then mret generators
      else
        match jsonOpts !! 0 with
        | None => fun _ => Panic
        | Some jsonOpts0 =>
            fromMarkers ← lift (generatorsFromMarkers (Field_Markers f) [jsonOpts0]);
            let generators := generators ++ fromMarkers in
            generatorCtx ← newGeneratorContext typ.1 self;
            nested ← generatorsFor generatorCtx (RawField_Type f);
            lift (range_fold (fun generators generator =>
                      g ← prependPathOnGenerator generator jsonOpts0; mret (generators ++ [g]))
                    nested generators)
        end
  end.

Fixpoint NeedMetricsGeneratorFor (fuel : nat) (typ : TypeIdent) : parserM (list Generator) :=
  match fuel with
  | 0 => fun _ => OutOfFuel
  | S fuel' =>
      p ← get;
      if bool_decide (is_Some (FlattenedMetrics p !! typ)) then mret []
      else
        match Types p !! typ with
        | None => klog_Fatal expected_info
        | Some info =>
            generators ← lift (generatorsFromMarkers (Type_Markers info) []);
            range_foldM (NeedMetricsGeneratorFor_field (NeedMetricsGeneratorFor fuel') typ)
                        (Fields info) generators
        end
  end.

(** *** NeedResourceFor *)

Definition set_Metrics (resource : Resource) (metrics : list Generator) : Resource :=
  {| Resource_GroupVersionKind := Resource_GroupVersionKind resource;
     MetricNamePrefix := MetricNamePrefix resource;
     Resource_LabelsFromPath := Resource_LabelsFromPath resource;
     Metrics := metrics |}.

Definition set_Version (resource : Resource) (version : string) : Resource :=
  {| Resource_GroupVersionKind := {| Group := Group (Resource_GroupVersionKind resource);
                                     Version := version;
                                     Kind := Kind (Resource_GroupVersionKind resource) |};
     MetricNamePrefix := MetricNamePrefix resource;
     Resource_LabelsFromPath := Resource_LabelsFromPath resource;
     Metrics := Metrics resource |}.

(** [p.GroupVersions[pkg]], the zero value when the package has no entry. *)
Definition GroupVersions_lookup (p : parser) (pkg : Package) : GroupVersion :=
  match list_find (fun kv => kv.1 = pkg) (GroupVersions p) with
  | Some (_, (_, gv)) => gv
  | None => {| GV_Group := ""; GV_Version := "" |}
  end.

(** The packages of the group, collected by the loop over p.GroupVersions. *)
Definition NeedResourceFor_packages (p : parser) (groupKind : GroupKind) : list Package :=
  fst <$> filter (fun kv => GV_Group kv.2 = groupKind.1) (GroupVersions p).

(** pkg.AddError(loader.ErrFromNode(err, typeInfo.RawSpec)), without the position. *)
Definition AddError (pkg : Package) (err : error) : parserM unit := fun p =>
  Done (tt, {| Types := Types p;
               GroupVersions := GroupVersions p;
               PackageErrors := PackageErrors p ++ [(pkg, err)];
               CustomResourceStates := CustomResourceStates p;
               FlattenedMetrics := FlattenedMetrics p |}).

Definition set_CustomResourceState (groupKind : GroupKind) (resource : Resource) : parserM unit := fun p =>
  Done (tt, {| Types := Types p;
               GroupVersions := GroupVersions p;
               PackageErrors := PackageErrors p;
               CustomResourceStates := <[groupKind := resource]> (CustomResourceStates p);
               FlattenedMetrics := FlattenedMetrics p |}).

(** The message of the fatal exit; the logged operands are left out. *)
Definition version_already_set : error := Errorf "GroupVersionKind.Version is already set" [].

(** The body of the first loop over the packages: metrics and Version. *)
Definition NeedResourceFor_metrics (fuel : nat) (groupKind : GroupKind)
    (resource : Resource) (pkg : Package) : parserM Resource :=
  let typeIdent : TypeIdent := (Some pkg, groupKind.2) in
  p ← get;
  match Types p !! typeIdent with
  | None => mret resource
  | Some typeInfo =>
      match MarkerValues_Get (Type_Markers typeInfo) GVKMarkerName with
      | None => mret resource
      | Some _ =>
          metrics ← NeedMetricsGeneratorFor fuel typeIdent;
          let resource :=
            set_Metrics resource (sort_Slice (fun a b => String.ltb (Name a) (Name b)) metrics) in
          if bool_decide (Version (Resource_GroupVersionKind resource) ≠ "") then
            klog_Fatal version_already_set
          else
            p ← get;
            mret (set_Version resource (GV_Version (GroupVersions_lookup p pkg)))
      end
  end.

(** The body of the second loop over the packages: the resource markers. *)
Definition NeedResourceFor_markers (groupKind : GroupKind)
    (resource : Resource) (pkg : Package) : parserM Resource :=
  let typeIdent : TypeIdent := (Some pkg, groupKind.2) in
  p ← get;
  match Types p !! typeIdent with
  | None => mret resource
  | Some typeInfo =>
      range_foldM (fun resource markerVals =>
          range_foldM (fun resource val =>
              match asResourceMarker val with
              | Some applyToResource =>
                  r ← lift (applyToResource resource);
                  match r.2 with
                  | Some err => _ ← AddError pkg err; mret r.1
                  | None => mret r.1
                  end
              | None => mret resource
              end) markerVals.2 resource)
        (Type_Markers typeInfo) resource
  end.

(** The resource as it is before the loops. *)
Definition NeedResourceFor_resource (groupKind : GroupKind) : Resource :=
  {| Resource_GroupVersionKind := {| Group := groupKind.1; Version := ""; Kind := groupKind.2 |};
     MetricNamePrefix := None;
     Resource_LabelsFromPath := None;
     Metrics := [] |}.

(** The first loop over the packages, from the fresh resource. *)
Definition NeedResourceFor_first_loop (fuel : nat) (groupKind : GroupKind) (packages : list Package)
    : parserM Resource :=
  range_foldM (NeedResourceFor_metrics fuel groupKind) packages (NeedResourceFor_resource groupKind).

Definition NeedResourceFor (fuel : nat) (groupKind : GroupKind) : parserM unit :=
  p ← get;
  if bool_decide (is_Some (CustomResourceStates p !! groupKind)) then mret tt
  else
    let packages := NeedResourceFor_packages p groupKind in
    resource ← NeedResourceFor_first_loop fuel groupKind packages;
    resource ← range_foldM (NeedResourceFor_markers groupKind) packages resource;
    set_CustomResourceState groupKind resource.

(** Whether the first loop reaches its Version check on a package: the
    package declares the Kind and the type carries the gvk marker. *)
Definition declares_kind (p : parser) (groupKind : GroupKind) (pkg : Package) : bool :=
  match Types p !! ((Some pkg, groupKind.2) : TypeIdent) with
  | Some typeInfo => bool_decide (is_Some (MarkerValues_Get (Type_Markers typeInfo) GVKMarkerName))
  | None => false
  end.

(** ** Vocabulary of the properties *)

(** The parsed template is one selector chain of plain field names. *)
Definition single_chain (jp : Parser) (names : list string) : Prop :=
  Root_Nodes jp = [ListNode (FieldNode <$> names)].

(** Every expression of the marker resolves: ToGenerator will return. *)
Definition resolves (j : JSONPath) : Prop := ∃ path, Parse j = Done (Value path).

Definition labels_resolve (skip_self : bool) (m : gmap string JSONPath) : Prop :=
  ∀ k v, m !! k = Some v -> (skip_self = true ∧ v = ".") ∨ resolves v.

Definition gauge_resolves (g : GaugeMarker) : Prop :=
  resolves (GaugeMarker_JSONPath g)
  ∧ (∀ vf, GaugeMarker_ValueFrom g = Some vf -> resolves vf)
  ∧ labels_resolve true (GaugeMarker_LabelsFromPath g).

Definition info_resolves (i : InfoMarker) : Prop :=
  (InfoMarker_JSONPath i ≠ "" -> resolves (InfoMarker_JSONPath i))
  ∧ labels_resolve true (InfoMarker_LabelsFromPath i).

Definition stateset_resolves (s : StateSetMarker) : Prop :=
  (∀ jp, StateSetMarker_JSONPath s = Some jp -> resolves jp)
  ∧ labels_resolve false (StateSetMarker_LabelsFromPath s).

(** Tag and payload of the generator agree. *)
Definition well_formed (g : Generator) : Prop := is_Some (Generator_path g).

(** The computation returns well-formed generators and the parser it was
    given: nothing is written, the memo FlattenedMetrics included. *)
Definition pure_walk (m : parserM (list Generator)) : Prop :=
  ∀ p gens p', m p = Done (gens, p') -> p' = p ∧ Forall well_formed gens.

Definition le_walk {A} (m1 m2 : parserM A) : Prop :=
  ∀ p r, m1 p = Done r -> m2 p = Done r.

(** The Versions that the packages reaching the Version check would set, in
    the order of the loop. *)
Definition versions_of (p : parser) (groupKind : GroupKind) (packages : list Package) : list string :=
  (fun pkg => GV_Version (GroupVersions_lookup p pkg))
    <$> filter (fun pkg => declares_kind p groupKind pkg = true) packages.

(** The Version check on a run of Versions: [None] is the fatal exit. *)
Fixpoint set_versions (cur : string) (versions : list string) : option string :=
  match versions with
  | [] => Some cur
  | v :: versions' => if bool_decide (cur ≠ "") then None else set_versions v versions'
  end.




(** ** Vocabulary of the further properties *)

(** The expression under the pointers and package qualifiers of a type. *)
Fixpoint Expr_leaf (e : Expr) : Expr :=
  match e with
  | SelectorExpr X _ => Expr_leaf X
  | StarExpr X => Expr_leaf X
  | _ => e
  end.

(** The metric name of a marker value that is a generator marker. *)
Definition MarkerValue_metric (val : MarkerValue) : option string :=
  match val with
  | GaugeValue g => Some (GaugeMarker_Name g)
  | InfoValue i => Some (InfoMarker_Name i)
  | StateSetValue s => Some (StateSetMarker_Name s)
  | _ => None
  end.

(** The generator with the path under its tag emptied: what is left is
    everything of the generator but that path. *)
Definition Generator_clear_path (g : Generator) : Generator :=
  let each := Each g in
  match Type_ each with
  | MetricTypeGauge =>
      set_Each g {| Type_ := Type_ each;
                    Gauge := (fun m => {| Gauge_MetricMeta := set_Path (Gauge_MetricMeta m) [];
                                          Gauge_NilIsZero := Gauge_NilIsZero m;
                                          Gauge_LabelFromKey := Gauge_LabelFromKey m;
                                          Gauge_ValueFrom := Gauge_ValueFrom m |}) <$> Gauge each;
                    StateSet := StateSet each; Info := Info each |}
  | MetricTypeStateSet =>
      set_Each g {| Type_ := Type_ each; Gauge := Gauge each;
                    StateSet := (fun m => {| StateSet_MetricMeta := set_Path (StateSet_MetricMeta m) [];
                                             StateSet_List := StateSet_List m;
                                             StateSet_LabelName := StateSet_LabelName m;
                                             StateSet_ValueFrom := StateSet_ValueFrom m |}) <$> StateSet each;
                    Info := Info each |}
  | MetricTypeInfo =>
      set_Each g {| Type_ := Type_ each; Gauge := Gauge each; StateSet := StateSet each;
                    Info := (fun m => {| Info_MetricMeta := set_Path (Info_MetricMeta m) [];
                                         Info_LabelFromKey := Info_LabelFromKey m |}) <$> Info each |}
  | MetricTypeUnset => g
  end.

(** The external name of a field that is not skipped: the part of its json
    tag before the first comma. *)
Definition FieldInfo_name (f : FieldInfo) : option string :=
  match Tag_json f with
  | Some jsonTag => if bool_decide (jsonTag = "-") then None else strings_Split_comma jsonTag !! 0
  | None => None
  end.

(** The field is skipped by NeedMetricsGeneratorFor. *)
Definition FieldInfo_skipped (f : FieldInfo) : Prop :=
  Tag_json f = None ∨ Tag_json f = Some "-".

(** The label map of a resource, a nil map read as the empty one. *)
Definition Resource_labels (resource : Resource) : gmap string (list string) :=
  default ∅ (Resource_LabelsFromPath resource).

(** The resource with the prefix set. *)
Definition set_MetricNamePrefix (resource : Resource) (prefix : string) : Resource :=
  {| Resource_GroupVersionKind := Resource_GroupVersionKind resource;
     MetricNamePrefix := Some prefix;
     Resource_LabelsFromPath := Resource_LabelsFromPath resource;
     Metrics := Metrics resource |}.

(** The second parser is the first with errors added to PackageErrors. *)
Definition only_errors_added (p p' : parser) : Prop :=
  Types p' = Types p
  ∧ GroupVersions p' = GroupVersions p
  ∧ CustomResourceStates p' = CustomResourceStates p
  ∧ FlattenedMetrics p' = FlattenedMetrics p
  ∧ PackageErrors p `prefix_of` PackageErrors p'.

(** The computation returns the resource with the GroupVersionKind and the
    metrics it had, and a parser with nothing but errors added; or panics. *)
Definition markers_applied (resource : Resource) (p : parser) (o : outcome (Resource * parser)) : Prop :=
  match o with
  | Done (resource', p') =>
      Resource_GroupVersionKind resource' = Resource_GroupVersionKind resource
      ∧ Metrics resource' = Metrics resource
      ∧ only_errors_added p p'
  | Panic => True
  | _ => False
  end.

End Generator.

(** ** Generate: the order of the resources *)

(** [*p] *)
Definition deref {A} (p : option A) : outcome A :=
  match p with
  | Some a => Done a
  | None => Panic
  end.

Definition GroupVersionKind_string (gvk : GroupVersionKind) : string :=
  Group gvk +:+ "/" +:+ Version gvk +:+ "/" +:+ Kind gvk.

(** The less function handed to sort.Slice for metrics.Spec.Resources, on
    the two resources at the compared indices. *)
Definition Generate_less (ri rj : Resource) : outcome bool :=
  if bool_decide (MetricNamePrefix ri = None) && bool_decide (MetricNamePrefix rj = None) then
    let a := GroupVersionKind_string (Resource_GroupVersionKind ri) in
    let b := GroupVersionKind_string (Resource_GroupVersionKind rj) in
    Done (String.ltb a b)
  else
    a ← (if bool_decide (MetricNamePrefix ri = None) then deref (MetricNamePrefix ri) else Done "");
    b ← (if bool_decide (MetricNamePrefix rj ≠ None) then deref (MetricNamePrefix rj) else Done "");
    Done (String.ltb a b).

(** ** A reader for dotted field chains *)

(** The jsonpath library is outside the repository.  To run the definitions
    on concrete markers, [chain_reader] reads the fragment of its template
    language made of actions in braces holding dotted field names, the way
    the library does on that fragment: every action becomes one list node,
    every [.name] one field node (so the action [{.}] holds one field with
    the empty name, and [{}] holds none).  Anything else is an error. *)
Inductive chain_state :=
| InText
| InAction (fields : list Node)
| InField (fields : list Node) (name : string).

Fixpoint chain_scan (s : string) (st : chain_state) (root : list Node) : string + Parser :=
  match s, st with
  | EmptyString, InText => inr {| Root_Nodes := root |}
  | EmptyString, _ => inl "unclosed action"
  | String c s', InText =>
      if Ascii.eqb c "{" then chain_scan s' (InAction []) root
      else inl "text outside an action"
  | String c s', InAction fields =>
      if Ascii.eqb c "}" then chain_scan s' InText (root ++ [ListNode fields])
      else if Ascii.eqb c "." then chain_scan s' (InField fields "") root
      else inl "unrecognized character in action"
  | String c s', InField fields name =>
      if Ascii.eqb c "}" then chain_scan s' InText (root ++ [ListNode (fields ++ [FieldNode name])])
      else if Ascii.eqb c "." then chain_scan s' (InField (fields ++ [FieldNode name]) "") root
      else if Ascii.eqb c "[" then inl "unrecognized character in action"
      else chain_scan s' (InField fields (name +:+ String c "")) root
  end.

Definition chain_reader (name text : string) : string + Parser :=
  chain_scan text InText [].

(** ** Sample inputs *)

(** An insertion sort, standing for sort.Slice where the definitions are run. *)
Fixpoint insert_sorted (less : Generator -> Generator -> bool) (g : Generator) (l : list Generator)
    : list Generator :=
  match l with
  | [] => [g]
  | h :: t => if less g h then g :: l else h :: insert_sorted less g t
  end.

Definition insertion_sort (less : Generator -> Generator -> bool) (l : list Generator) : list Generator :=
  foldr (insert_sorted less) [] l.

Module Samples.

Definition gvk_marker : string := "Metrics:gvk".

Definition api_v1 : Package := "example.com/api/v1".

(** [type Node struct { Next *Node `json:"next"` }] *)
Definition next_field : FieldInfo :=
  {| Tag_json := Some "next"; Field_Markers := []; RawField_Type := StarExpr (Ident "Node") |}.

Definition Node_info : TypeInfo :=
  {| Type_Markers := []; Fields := [next_field] |}.

Definition replicas_gauge : GaugeMarker :=
  {| GaugeMarker_Name := "replicas"; GaugeMarker_Help := ""; GaugeMarker_JSONPath := "";
     GaugeMarker_LabelFromKey := ""; GaugeMarker_LabelsFromPath := ∅;
     GaugeMarker_NilIsZero := false; GaugeMarker_ValueFrom := None |}.

(** [type WidgetStatus struct { Replicas int32 `json:"replicas"` }] with a
    gauge marker on the field. *)
Definition WidgetStatus_info : TypeInfo :=
  {| Type_Markers := [];
     Fields := [ {| Tag_json := Some "replicas";
                    Field_Markers := [("Metrics:gauge", [GaugeValue replicas_gauge])];
                    RawField_Type := Ident "int32" |} ] |}.

(** [type Widget struct { Status WidgetStatus `json:"status"` }], a tracked kind. *)
Definition status_field : FieldInfo :=
  {| Tag_json := Some "status"; Field_Markers := []; RawField_Type := Ident "WidgetStatus" |}.

Definition Widget_info : TypeInfo :=
  {| Type_Markers := [(gvk_marker, [OtherValue])];
     Fields := [status_field] |}.

Definition TypeOf (pkg : Package) (ident : string) : GoType :=
  if bool_decide (ident = "Node") then Named pkg "Node"
  else if bool_decide (ident = "WidgetStatus") then Named pkg "WidgetStatus"
  else if bool_decide (ident = "int32") then Basic
  else Invalid.

Definition no_imports (pkg : Package) : gmap string Package := ∅.

(** newParser over one package of group example.com, version v1. *)
Definition one_package : parser :=
  {| Types := <[(Some api_v1, "Node") := Node_info]>
              (<[(Some api_v1, "WidgetStatus") := WidgetStatus_info]>
              (<[(Some api_v1, "Widget") := Widget_info]> ∅));
     GroupVersions := [(api_v1, {| GV_Group := "example.com"; GV_Version := "v1" |})];
     PackageErrors := [];
     CustomResourceStates := ∅;
     FlattenedMetrics := ∅ |}.


Definition NeedMetricsGeneratorFor' := NeedMetricsGeneratorFor chain_reader TypeOf no_imports.
Definition NeedResourceFor' := NeedResourceFor chain_reader TypeOf no_imports gvk_marker insertion_sort.

(** A stateset marker with a path expression. *)
Definition phase_stateset : StateSetMarker :=
  {| StateSetMarker_Name := "phase"; StateSetMarker_Help := "";
     StateSetMarker_LabelsFromPath := ∅; StateSetMarker_JSONPath := Some ".foo";
     StateSetMarker_LabelName := "phase"; StateSetMarker_List := ["Pending"; "Ready"] |}.

(** Markers of the three kinds with the one label entry [self -> "."]. *)
Definition self_gauge : GaugeMarker :=
  {| GaugeMarker_Name := "g"; GaugeMarker_Help := ""; GaugeMarker_JSONPath := "";
     GaugeMarker_LabelFromKey := ""; GaugeMarker_LabelsFromPath := {["self" := "."]};
     GaugeMarker_NilIsZero := false; GaugeMarker_ValueFrom := None |}.

Definition self_info : InfoMarker :=
  {| InfoMarker_Name := "i"; InfoMarker_Help := ""; InfoMarker_LabelsFromPath := {["self" := "."]};
     InfoMarker_JSONPath := ""; InfoMarker_LabelFromKey := "" |}.

Definition self_stateset : StateSetMarker :=
  {| StateSetMarker_Name := "s"; StateSetMarker_Help := "";
     StateSetMarker_LabelsFromPath := {["self" := "."]}; StateSetMarker_JSONPath := None;
     StateSetMarker_LabelName := ""; StateSetMarker_List := [] |}.

(** A reader that rejects the action [{.}] and reads everything else as
    [chain_reader] does: it tells whether a call parses the expression ".". *)
Definition rejects_self (name text : string) : string + Parser :=
  if bool_decide (text = "{.}") then inl "rejected" else chain_reader name text.

(** A resource with the given name prefix and Kind. *)
Definition prefixed (prefix kind : string) : Resource :=
  {| Resource_GroupVersionKind := {| Group := "example.com"; Version := "v1"; Kind := kind |};
     MetricNamePrefix := Some prefix;
     Resource_LabelsFromPath := None;
     Metrics := [] |}.

(** A resource that already has the label team -> [metadata; labels; team]. *)
Definition team_resource : Resource :=
  {| Resource_GroupVersionKind := {| Group := "example.com"; Version := "v1"; Kind := "Widget" |};
     MetricNamePrefix := Some "widget";
     Resource_LabelsFromPath := Some {["team" := ["metadata"; "labels"; "team"]]};
     Metrics := [] |}.

(** The gauge of the field spec.size of a Widget. *)
Definition size_gauge : GaugeMarker :=
  {| GaugeMarker_Name := "widget_size"; GaugeMarker_Help := ""; GaugeMarker_JSONPath := ".size";
     GaugeMarker_LabelFromKey := ""; GaugeMarker_LabelsFromPath := ∅;
     GaugeMarker_NilIsZero := false; GaugeMarker_ValueFrom := None |}.

Definition size_generator : Generator :=
  {| Name := "widget_size"; Help := "";
     Each := {| Type_ := MetricTypeGauge;
                Gauge := Some {| Gauge_MetricMeta := {| Path := ["spec"; "size"]; LabelsFromPath := ∅ |};
                                 Gauge_NilIsZero := false;
                                 Gauge_LabelFromKey := "";
                                 Gauge_ValueFrom := [] |};
                StateSet := None;
                Info := None |} |}.

(** The generator of the replicas gauge, seen from a Widget. *)
Definition replicas_generator : Generator :=
  {| Name := "replicas"; Help := "";
     Each := {| Type_ := MetricTypeGauge;
                Gauge := Some {| Gauge_MetricMeta := {| Path := ["status"; "replicas"]; LabelsFromPath := ∅ |};
                                 Gauge_NilIsZero := false;
                                 Gauge_LabelFromKey := "";
                                 Gauge_ValueFrom := [] |};
                StateSet := None;
                Info := None |} |}.

(** The same generator, seen from a WidgetStatus. *)
Definition replicas_nested : Generator :=
  {| Name := "replicas"; Help := "";
     Each := {| Type_ := MetricTypeGauge;
                Gauge := Some {| Gauge_MetricMeta := {| Path := ["replicas"]; LabelsFromPath := ∅ |};
                                 Gauge_NilIsZero := false;
                                 Gauge_LabelFromKey := "";
                                 Gauge_ValueFrom := [] |};
                StateSet := None;
                Info := None |} |}.

(** The parser [one_package] after NeedResourceFor on the kind Widget. *)
Definition one_package_done : parser :=
  {| Types := Types one_package;
     GroupVersions := GroupVersions one_package;
     PackageErrors := [];
     CustomResourceStates :=
       {[ ("example.com", "Widget") :=
            {| Resource_GroupVersionKind := {| Group := "example.com"; Version := "v1"; Kind := "Widget" |};
               MetricNamePrefix := None;
               Resource_LabelsFromPath := None;
               Metrics := [replicas_generator] |} ]};
     FlattenedMetrics := ∅ |}.

(** Two label markers for team: the path the resource has, and another one. *)
Definition team_same : LabelFromPathMarker :=
  {| LabelFromPathMarker_Name := "team"; LabelFromPathMarker_JSONPath := ".metadata.labels.team" |}.

Definition team_other : LabelFromPathMarker :=
  {| LabelFromPathMarker_Name := "team"; LabelFromPathMarker_JSONPath := ".spec.team" |}.

(** A label marker for env, a label that [team_resource] does not have. *)
Definition env_label : LabelFromPathMarker :=
  {| LabelFromPathMarker_Name := "env"; LabelFromPathMarker_JSONPath := ".metadata.labels.env" |}.

(** The generator of [self_gauge] under the empty base path. *)
Definition self_gauge_generator : Generator :=
  {| Name := "g"; Help := "";
     Each := {| Type_ := MetricTypeGauge;
                Gauge := Some {| Gauge_MetricMeta := {| Path := []; LabelsFromPath := {["self" := []]} |};
                                 Gauge_NilIsZero := false;
                                 Gauge_LabelFromKey := "";
                                 Gauge_ValueFrom := [] |};
                StateSet := None;
                Info := None |} |}.

(** A resource without label map, and the same resource once the label
    team has been added. *)
Definition unlabelled_resource : Resource := prefixed "widget" "Widget".

Definition team_added : Resource :=
  {| Resource_GroupVersionKind := {| Group := "example.com"; Version := "v1"; Kind := "Widget" |};
     MetricNamePrefix := Some "widget";
     Resource_LabelsFromPath := Some {["team" := ["metadata"; "labels"; "team"]]};
     Metrics := [] |}.

(** A generator tagged as a gauge whose gauge payload is nil. *)
Definition broken_generator : Generator :=
  {| Name := "broken"; Help := "";
     Each := {| Type_ := MetricTypeGauge; Gauge := None; StateSet := None; Info := None |} |}.

(** [Replicas int32 `json:"replicas"`] with its gauge marker, the field of
    WidgetStatus. *)
Definition replicas_field : FieldInfo :=
  {| Tag_json := Some "replicas";
     Field_Markers := [("Metrics:gauge", [GaugeValue replicas_gauge])];
     RawField_Type := Ident "int32" |}.

(** [Spec *struct{...} `json:"spec"`]: a field of an inline struct type. *)
Definition inline_field : FieldInfo :=
  {| Tag_json := Some "spec"; Field_Markers := []; RawField_Type := StarExpr StructType |}.

(** [Hidden struct{...} `json:"-"`] with a gauge marker: a skipped field. *)
Definition hidden_field : FieldInfo :=
  {| Tag_json := Some "-";
     Field_Markers := [("Metrics:gauge", [GaugeValue replicas_gauge])];
     RawField_Type := StructType |}.

(** [Owner other.Owner `json:"owner"`], and a type checker that places every
    identifier in a package that is not among the imports. *)
Definition owner_field : FieldInfo :=
  {| Tag_json := Some "owner"; Field_Markers := []; RawField_Type := Ident "Owner" |}.

Definition TypeOf_elsewhere (pkg : Package) (ident : string) : GoType :=
  Named "example.com/other" ident.

(** Two resources without prefix. *)
Definition unprefixed (kind : string) : Resource :=
  {| Resource_GroupVersionKind := {| Group := "example.com"; Version := "v1"; Kind := kind |};
     MetricNamePrefix := None;
     Resource_LabelsFromPath := None;
     Metrics := [] |}.



End Samples.

(** * Properties *)

(** Case analysis on the outcome bound first in a hypothesis. *)
Ltac bind_inv H :=
  match type of H with
  | context [mbind _ ?m] =>
      let E := fresh "E" in
      destruct m eqn:E; try discriminate H; simpl in H
  end.

Section Properties.

Variable jsonpath_Parse : string -> string -> string + Parser.

Local Abbreviation Parse := (Parse jsonpath_Parse).
Local Abbreviation Parse_orFatal := (Parse_orFatal jsonpath_Parse).
Local Abbreviation resolves := (resolves jsonpath_Parse).
Local Abbreviation labels_resolve := (labels_resolve jsonpath_Parse).
Local Abbreviation gauge_resolves := (gauge_resolves jsonpath_Parse).
Local Abbreviation info_resolves := (info_resolves jsonpath_Parse).
Local Abbreviation stateset_resolves := (stateset_resolves jsonpath_Parse).

(** ** JSONPath.Parse *)

Lemma Parse_range_fields (names ret : list string) :
  Parse_range (FieldNode <$> names) ret = Value (ret ++ names).
Proof.
  revert ret. induction names as [|v names IH]; intros ret; simpl.
  - by rewrite app_nil_r.
  - rewrite IH. by rewrite <- app_assoc.
Qed.

Lemma Parse_range_not_fields (nodes : list Node) (ret : list string) :
  (¬ ∃ names, nodes = FieldNode <$> names) ->
  ∃ e, Parse_range nodes ret = Error e.
Proof.
  revert ret. induction nodes as [|n nodes IH]; intros ret Hno.
  - exfalso. apply Hno. by exists [].
  - destruct n as [l|v|t]; simpl; eauto.
    apply IH. intros [names ->]. apply Hno. by exists (v :: names).
Qed.

(** C9: a path expression that the library reads as one chain of plain field
    names resolves to exactly those names, in order; and it resolves to an
    error when the library rejects it, and when the library's (non-empty)
    root is anything but one chain of plain field names. *)
Theorem Parse_single_chain (j : JSONPath) :
  (∀ jp names,
      jsonpath_Parse "foo" ("{" +:+ j +:+ "}") = inr jp ->
      single_chain jp names ->
      Parse j = Done (Value names))
  ∧ (∀ msg,
      jsonpath_Parse "foo" ("{" +:+ j +:+ "}") = inl msg ->
      ∃ e, Parse j = Done (Error e))
  ∧ (∀ jp,
      jsonpath_Parse "foo" ("{" +:+ j +:+ "}") = inr jp ->
      Root_Nodes jp ≠ [] ->
      (¬ ∃ names, single_chain jp names) ->
      ∃ e, Parse j = Done (Error e)).
Proof.
  unfold Parse, single_chain. repeat split.
  - intros jp names -> ->. simpl. by rewrite Parse_range_fields.
  - intros msg ->. eauto.
  - intros jp -> Hne Hno.
    destruct (Root_Nodes jp) as [|n0 [|n1 rest]] eqn:Hroot; [done| |].
    + simpl. destruct n0 as [nodes|v|t]; simpl.
      * destruct (Parse_range_not_fields nodes []) as [e ->]; [|by eauto].
        intros [names ->]. apply Hno. by exists names.
      * eauto.
      * destruct t; eauto.
    + rewrite bool_decide_eq_true_2; [eauto | simpl; lia].
Qed.

(** No error of Parse is the one of a duplicate label. *)
Lemma Parse_error_format (j : JSONPath) (e : error) :
  Parse j = Done (Error e) -> format e ≠ "duplicate definition for label %q".
Proof.
  unfold Parse.
  destruct (jsonpath_Parse _ _) as [msg|jp]; [by intros [= <-]|].
  case_bool_decide; [by intros [= <-]|].
  destruct (Root_Nodes jp !! 0) as [n0|]; [|done].
  destruct n0 as [nodes|v|t]; simpl.
  - generalize (@nil string). induction nodes as [|n nodes IH]; intros ret; simpl; [done|].
    destruct n; try by intros [= <-]. apply IH.
  - by intros [= <-].
  - destruct t; by intros [= <-].
Qed.

(** ** LabelFromPathMarker.ApplyToResource *)

Lemma path_differs_spec (elems jsonPath : list string) (i : nat) :
  length elems = i + length jsonPath ->
  path_differs elems i jsonPath = Done (bool_decide (drop i elems ≠ jsonPath)).
Proof.
  revert i. induction jsonPath as [|v rest IH]; intros i Hlen; simpl in *.
  - rewrite drop_ge by lia. by rewrite bool_decide_eq_false_2 by (intros H; by apply H).
  - destruct (elems !! i) as [w|] eqn:Hw.
    + rewrite (drop_S _ _ _ Hw). case_bool_decide as Hvw.
      * rewrite bool_decide_eq_true_2; [done | congruence].
      * subst w. rewrite IH by lia.
        f_equal. apply bool_decide_ext. split; [congruence|].
        intros H1 H2. apply H1. by rewrite H2.
    + apply lookup_ge_None in Hw. lia.
Qed.

Lemma set_LabelsFromPath_id (resource : Resource) (labels : gmap string (list string)) :
  Resource_LabelsFromPath resource = Some labels ->
  set_LabelsFromPath resource labels = resource.
Proof. destruct resource; simpl; intros ->; done. Qed.

(** The conflict check of ApplyToResource, once the path has been resolved. *)
Lemma ApplyToResource_resolved (n : LabelFromPathMarker) (resource : Resource) (new : list string) :
  Parse (LabelFromPathMarker_JSONPath n) = Done (Value new) ->
  let labels := default ∅ (Resource_LabelsFromPath resource) in
  LabelFromPathMarker_ApplyToResource jsonpath_Parse n resource =
    match labels !! LabelFromPathMarker_Name n with
    | Some existing =>
        if bool_decide (new = existing)
        then Done (set_LabelsFromPath resource (<[LabelFromPathMarker_Name n := new]> labels), None)
        else Done (set_LabelsFromPath resource labels,
                   Some (duplicate_definition (LabelFromPathMarker_Name n)))
    | None => Done (set_LabelsFromPath resource (<[LabelFromPathMarker_Name n := new]> labels), None)
    end.
Proof.
  intros Hparse labels. unfold LabelFromPathMarker_ApplyToResource.
  rewrite Hparse. simpl. fold labels.
  destruct (labels !! LabelFromPathMarker_Name n) as [existing|]; [|done].
  case_bool_decide as Hlen; simpl.
  - rewrite bool_decide_eq_false_2; [done | congruence].
  - rewrite path_differs_spec by (simpl; lia).
    rewrite drop_0. case_bool_decide as Hne; simpl.
    + by rewrite bool_decide_eq_false_2.
    + by rewrite bool_decide_eq_true_2.
Qed.

(** C6: with the path resolved, a label that is not yet in the map is
    inserted: the call returns without error, the label map of the resource
    is then the map it had (the empty map for a nil map) with the resolved
    path stored under the label, and the prefix, the metrics and the
    GroupVersionKind are as before.  For a label already in the map the
    call succeeds exactly when the new path equals the existing one;
    otherwise it returns the error "duplicate definition for label %q" of
    that label; in both cases the resource is what it was, with the one
    entry of the label holding the existing path. *)
Theorem ApplyToResource_label (n : LabelFromPathMarker) (resource : Resource) (new : list string) :
  Parse (LabelFromPathMarker_JSONPath n) = Done (Value new) ->
  let labels := default ∅ (Resource_LabelsFromPath resource) in
  (labels !! LabelFromPathMarker_Name n = None ->
     ∃ resource',
       LabelFromPathMarker_ApplyToResource jsonpath_Parse n resource = Done (resource', None)
       ∧ Resource_LabelsFromPath resource' = Some (<[LabelFromPathMarker_Name n := new]> labels)
       ∧ (Resource_LabelsFromPath resource' ≫= (.!! LabelFromPathMarker_Name n)) = Some new
       ∧ MetricNamePrefix resource' = MetricNamePrefix resource
       ∧ Metrics resource' = Metrics resource
       ∧ Resource_GroupVersionKind resource' = Resource_GroupVersionKind resource)
  ∧ (∀ existing, labels !! LabelFromPathMarker_Name n = Some existing ->
       ∃ resource' err,
         LabelFromPathMarker_ApplyToResource jsonpath_Parse n resource = Done (resource', err)
         ∧ (err = None ↔ new = existing)
         ∧ resource' = resource
         ∧ (Resource_LabelsFromPath resource' ≫= (.!! LabelFromPathMarker_Name n)) = Some existing
         ∧ (err ≠ None -> err = Some (Errorf "duplicate definition for label %q"
                                              [ArgStr (LabelFromPathMarker_Name n)]))).
Proof.
  intros Hparse labels.
  pose proof (ApplyToResource_resolved n resource new Hparse) as Happly.
  cbv zeta in Happly. fold labels in Happly. split.
  - intros Hnone. rewrite Hnone in Happly. eexists. split; [exact Happly|].
    simpl. rewrite lookup_insert_eq. by repeat split.
  - intros existing Hsome. rewrite Hsome in Happly. rewrite Happly.
    assert (Resource_LabelsFromPath resource = Some labels) as Hlabels.
    { subst labels. destruct (Resource_LabelsFromPath resource); [done|].
      simpl in Hsome. by rewrite lookup_empty in Hsome. }
    assert ((Resource_LabelsFromPath resource ≫= (.!! LabelFromPathMarker_Name n)) = Some existing)
      as Hentry by (by rewrite Hlabels).
    case_bool_decide as Heq.
    + subst new. rewrite insert_id by done.
      rewrite (set_LabelsFromPath_id _ _ Hlabels). exists resource, None.
      split; [done|]. split; [done|]. split; [done|]. split; [done|]. done.
    + rewrite (set_LabelsFromPath_id _ _ Hlabels).
      exists resource, (Some (duplicate_definition (LabelFromPathMarker_Name n))).
      split; [done|]. split; [by split|]. split; [done|]. split; [done|]. done.
Qed.

(** C10: when ApplyToResource returns the duplicate-definition error, the
    resource is left as it was: the label map, with the existing entry of
    the label, and the prefix, the metrics and the GroupVersionKind. *)
Theorem ApplyToResource_conflict_unchanged (n : LabelFromPathMarker) (resource resource' : Resource)
    (err : error) :
  LabelFromPathMarker_ApplyToResource jsonpath_Parse n resource = Done (resource', Some err) ->
  format err = "duplicate definition for label %q" ->
  resource' = resource
  ∧ (Resource_LabelsFromPath resource' ≫= (.!! LabelFromPathMarker_Name n)) =
      (Resource_LabelsFromPath resource ≫= (.!! LabelFromPathMarker_Name n))
  ∧ is_Some (Resource_LabelsFromPath resource ≫= (.!! LabelFromPathMarker_Name n))
  ∧ MetricNamePrefix resource' = MetricNamePrefix resource
  ∧ Metrics resource' = Metrics resource
  ∧ Resource_GroupVersionKind resource' = Resource_GroupVersionKind resource.
Proof.
  intros Happly Hformat.
  destruct (Parse (LabelFromPathMarker_JSONPath n)) as [[new|e]| | |] eqn:Hparse;
    try (unfold LabelFromPathMarker_ApplyToResource in Happly; rewrite Hparse in Happly; done).
  - rewrite (ApplyToResource_resolved n resource new Hparse) in Happly.
    destruct (Resource_LabelsFromPath resource) as [labels|] eqn:Hlabels; simpl in Happly.
    + destruct (labels !! LabelFromPathMarker_Name n) as [existing|] eqn:Hsome; [|done].
      case_bool_decide; [done|].
      rewrite (set_LabelsFromPath_id _ _ Hlabels) in Happly.
      injection Happly as <- _. rewrite Hlabels. simpl. rewrite Hsome. by repeat split.
    + by rewrite lookup_empty in Happly.
  - unfold LabelFromPathMarker_ApplyToResource in Happly. rewrite Hparse in Happly.
    simpl in Happly. injection Happly as _ ->.
    by apply Parse_error_format in Hparse.
Qed.

(** ** ToGenerator *)

Lemma Parse_orFatal_Done (j : JSONPath) (path : list string) :
  Parse_orFatal j = Done path ↔ Parse j = Done (Value path).
Proof.
  unfold Parse_orFatal. destruct (Parse j) as [[v|e]| | |]; simpl; split; congruence.
Qed.

Lemma range_fold_Done {A B} (body : B -> A -> outcome B) (f : B -> A -> B) (l : list A) (acc : B) :
  (∀ acc x, x ∈ l -> body acc x = Done (f acc x)) ->
  range_fold body l acc = Done (foldl f acc l).
Proof.
  revert acc. induction l as [|x l IH]; intros acc Hbody; simpl; [done|].
  rewrite Hbody by left. simpl. apply IH. intros acc' y Hy. apply Hbody. by right.
Qed.

Lemma range_fold_Done_inv {A B} (body : B -> A -> outcome B) (l : list A) (acc r : B) :
  range_fold body l acc = Done r ->
  ∀ x, x ∈ l -> ∃ acc' r', body acc' x = Done r'.
Proof.
  revert acc. induction l as [|y l IH]; intros acc Hrun x Hx; [by apply elem_of_nil in Hx|].
  simpl in Hrun. destruct (body acc y) as [acc'| | |] eqn:Hy; try done. simpl in Hrun.
  apply elem_of_cons in Hx as [->|Hx]; [eauto | by eapply IH].
Qed.

(** What a run of inserts leaves under a key, when no key occurs twice. *)
Lemma foldl_insert_lookup {V W} (f : V -> W) (l : list (string * V)) (acc : gmap string W) (k : string) :
  NoDup l.*1 ->
  let labels := foldl (fun acc kv => <[kv.1 := f kv.2]> acc) acc l in
  (∀ v, (k, v) ∈ l -> labels !! k = Some (f v)) ∧ (k ∉ l.*1 -> labels !! k = acc !! k).
Proof.
  revert acc. induction l as [|[k0 v0] l IH]; intros acc Hnodup; simpl.
  - split; [intros v Hv; by apply elem_of_nil in Hv | done].
  - apply NoDup_cons in Hnodup as [Hk0 Hnodup].
    destruct (IH (<[k0 := f v0]> acc) Hnodup) as [IHin IHout]. split.
    + intros v [[= -> ->]|Hv]%elem_of_cons; [|by apply IHin].
      rewrite IHout by done. apply lookup_insert_eq.
    + intros Hk. apply not_elem_of_cons in Hk as [Hne Hk].
      rewrite IHout by done. by apply lookup_insert_ne.
Qed.

(** The label loop returns when every entry resolves, and its map then holds
    under each key what the entry gave. *)
Lemma labelsFromPath_range_Done (entry : JSONPath -> outcome (list string)) (m : gmap string JSONPath) :
  (∀ k v, m !! k = Some v -> ∃ path, entry v = Done path) ->
  ∃ labels, labelsFromPath_range entry m = Done labels
            ∧ ∀ k v, m !! k = Some v -> ∃ path, entry v = Done path ∧ labels !! k = Some path.
Proof.
  intros Hentry. unfold labelsFromPath_range.
  set (f := fun v => match entry v with Done path => path | _ => [] end).
  eexists. split.
  - apply (range_fold_Done _ (fun acc kv => <[kv.1 := f kv.2]> acc)).
    intros acc [k v] Hkv. apply elem_of_map_to_list in Hkv.
    destruct (Hentry k v Hkv) as [path Hpath]. simpl. unfold f. by rewrite Hpath.
  - intros k v Hkv. destruct (Hentry k v Hkv) as [path Hpath]. exists path. split; [done|].
    destruct (foldl_insert_lookup f (map_to_list m) ∅ k (NoDup_fst_map_to_list m)) as [Hin _].
    rewrite (Hin v) by (by apply elem_of_map_to_list). unfold f. by rewrite Hpath.
Qed.

Lemma labelsFromPath_range_inv (entry : JSONPath -> outcome (list string)) (m : gmap string JSONPath)
    (labels : gmap string (list string)) :
  labelsFromPath_range entry m = Done labels ->
  ∀ k v, m !! k = Some v -> ∃ path, entry v = Done path ∧ labels !! k = Some path.
Proof.
  intros Hrun.
  assert (∀ k v, m !! k = Some v -> ∃ path, entry v = Done path) as Hentry.
  { intros k v Hkv. apply elem_of_map_to_list in Hkv.
    destruct (range_fold_Done_inv _ _ _ _ Hrun _ Hkv) as (acc' & r' & Hbody). simpl in Hbody.
    destruct (entry v) as [path| | |]; [eauto|done..]. }
  destruct (labelsFromPath_range_Done entry m Hentry) as (labels' & Hrun' & Hlabels).
  rewrite Hrun in Hrun'. by injection Hrun' as <-.
Qed.

Lemma labels_resolve_skip (m : gmap string JSONPath) :
  labels_resolve true m ->
  ∃ labels, labelsFromPath_range
              (fun v => if bool_decide (v ≠ ".") then Parse_orFatal v else mret []) m = Done labels.
Proof.
  intros Hm.
  destruct (labelsFromPath_range_Done
              (fun v => if bool_decide (v ≠ ".") then Parse_orFatal v else mret []) m)
    as (labels & Hrun & _); [|eauto].
  intros k v Hkv. case_bool_decide; [|by eexists].
  destruct (Hm k v Hkv) as [[_ ?]|[path Hpath]]; [done|].
  exists path. by apply Parse_orFatal_Done.
Qed.

Lemma labels_resolve_all (m : gmap string JSONPath) :
  labels_resolve false m ->
  ∃ labels, labelsFromPath_range (fun v => Parse_orFatal v) m = Done labels.
Proof.
  intros Hm.
  destruct (labelsFromPath_range_Done (fun v => Parse_orFatal v) m) as (labels & Hrun & _); [|eauto].
  intros k v Hkv. destruct (Hm k v Hkv) as [[? _]|[path Hpath]]; [done|].
  exists path. by apply Parse_orFatal_Done.
Qed.

Lemma GaugeMarker_ToGenerator_path (g : GaugeMarker) (basePath : list string) (gen : Generator) :
  GaugeMarker_ToGenerator jsonpath_Parse g basePath = Done gen ->
  ∃ add, Parse (GaugeMarker_JSONPath g) = Done (Value add)
         ∧ Generator_path gen = Some (basePath ++ add).
Proof.
  unfold GaugeMarker_ToGenerator. intros H.
  destruct (Parse_orFatal (GaugeMarker_JSONPath g)) as [add| | |] eqn:Hadd; try done.
  simpl in H. do 2 bind_inv H. injection H as <-.
  exists add. split; [by apply Parse_orFatal_Done | done].
Qed.

Lemma GaugeMarker_ToGenerator_returns (g : GaugeMarker) (basePath : list string) :
  gauge_resolves g -> ∃ gen, GaugeMarker_ToGenerator jsonpath_Parse g basePath = Done gen.
Proof.
  intros ([add Hadd] & Hvf & Hlabels). unfold GaugeMarker_ToGenerator.
  apply Parse_orFatal_Done in Hadd. rewrite Hadd. simpl.
  destruct (labels_resolve_skip _ Hlabels) as [labels Hrun].
  destruct (GaugeMarker_ValueFrom g) as [vf|].
  - destruct (Hvf vf eq_refl) as [valueFrom Hvalue]. apply Parse_orFatal_Done in Hvalue.
    rewrite Hvalue. simpl. rewrite Hrun. simpl. eauto.
  - simpl. rewrite Hrun. simpl. eauto.
Qed.

Lemma InfoMarker_ToGenerator_path (i : InfoMarker) (basePath : list string) (gen : Generator) :
  InfoMarker_ToGenerator jsonpath_Parse i basePath = Done gen ->
  if bool_decide (InfoMarker_JSONPath i = "") then Generator_path gen = Some basePath
  else ∃ add, Parse (InfoMarker_JSONPath i) = Done (Value add)
              ∧ Generator_path gen = Some (basePath ++ add).
Proof.
  unfold InfoMarker_ToGenerator. intros H.
  destruct (bool_decide (InfoMarker_JSONPath i = "")) eqn:Hempty.
  - apply bool_decide_eq_true_1 in Hempty.
    rewrite bool_decide_eq_false_2 in H by (intros Hne; by apply Hne).
    simpl in H. bind_inv H. by injection H as <-.
  - apply bool_decide_eq_false_1 in Hempty. rewrite bool_decide_eq_true_2 in H by done.
    destruct (Parse_orFatal (InfoMarker_JSONPath i)) as [add| | |] eqn:Hadd; try done.
    simpl in H. exists add. split; [by apply Parse_orFatal_Done|].
    case_bool_decide as Hlen; simpl in H; bind_inv H; injection H as <-; [done|].
    destruct add; [by rewrite app_nil_r | simpl in Hlen; lia].
Qed.

Lemma InfoMarker_ToGenerator_returns (i : InfoMarker) (basePath : list string) :
  info_resolves i -> ∃ gen, InfoMarker_ToGenerator jsonpath_Parse i basePath = Done gen.
Proof.
  intros (Hpath & Hlabels). unfold InfoMarker_ToGenerator.
  destruct (labels_resolve_skip _ Hlabels) as [labels Hrun].
  case_bool_decide as Hne.
  - destruct (Hpath Hne) as [add Hadd]. apply Parse_orFatal_Done in Hadd. rewrite Hadd. simpl.
    case_bool_decide; simpl; rewrite Hrun; simpl; eauto.
  - simpl. rewrite Hrun. simpl. eauto.
Qed.

Lemma StateSetMarker_ToGenerator_path (s : StateSetMarker) (basePath : list string) (gen : Generator) :
  StateSetMarker_ToGenerator jsonpath_Parse s basePath = Done gen ->
  Generator_path gen = Some basePath
  ∧ ∃ valueFrom, StateSet_ValueFrom <$> StateSet (Each gen) = Some valueFrom
                 ∧ match StateSetMarker_JSONPath s with
                   | Some jp => Parse jp = Done (Value valueFrom)
                   | None => valueFrom = []
                   end.
Proof.
  unfold StateSetMarker_ToGenerator. intros H.
  destruct (StateSetMarker_JSONPath s) as [jp|].
  - destruct (Parse_orFatal jp) as [valueFrom| | |] eqn:Hvalue; try done.
    simpl in H. bind_inv H. injection H as <-. split; [done|].
    exists valueFrom. split; [done | by apply Parse_orFatal_Done].
  - simpl in H. bind_inv H. injection H as <-. split; [done|]. by exists [].
Qed.

Lemma StateSetMarker_ToGenerator_returns (s : StateSetMarker) (basePath : list string) :
  stateset_resolves s -> ∃ gen, StateSetMarker_ToGenerator jsonpath_Parse s basePath = Done gen.
Proof.
  intros (Hpath & Hlabels). unfold StateSetMarker_ToGenerator.
  destruct (labels_resolve_all _ Hlabels) as [labels Hrun].
  destruct (StateSetMarker_JSONPath s) as [jp|].
  - destruct (Hpath jp eq_refl) as [valueFrom Hvalue]. apply Parse_orFatal_Done in Hvalue.
    rewrite Hvalue. simpl. rewrite Hrun. simpl. eauto.
  - simpl. rewrite Hrun. simpl. eauto.
Qed.

(** The label entries of the three kinds: Gauge and Info store the empty
    path for an entry ".", whatever the library would make of it; StateSet
    stores what Parse returns for the entry. *)
Lemma GaugeMarker_ToGenerator_label (g : GaugeMarker) (basePath : list string) (gen : Generator)
    (k : string) (v : JSONPath) :
  GaugeMarker_ToGenerator jsonpath_Parse g basePath = Done gen ->
  GaugeMarker_LabelsFromPath g !! k = Some v ->
  if bool_decide (v = ".") then Generator_label k gen = Some []
  else ∃ path, Parse v = Done (Value path) ∧ Generator_label k gen = Some path.
Proof.
  unfold GaugeMarker_ToGenerator. intros H Hk. do 3 bind_inv H. injection H as <-.
  destruct (labelsFromPath_range_inv _ _ _ E1 k v Hk) as (path & Hentry & Hlabel).
  unfold Generator_label. simpl. case_bool_decide as Hv.
  - rewrite bool_decide_eq_false_2 by done.
    exists path. split; [by apply Parse_orFatal_Done | done].
  - rewrite bool_decide_eq_true_2 by done. by injection Hentry as <-.
Qed.

Lemma InfoMarker_ToGenerator_label (i : InfoMarker) (basePath : list string) (gen : Generator)
    (k : string) (v : JSONPath) :
  InfoMarker_ToGenerator jsonpath_Parse i basePath = Done gen ->
  InfoMarker_LabelsFromPath i !! k = Some v ->
  if bool_decide (v = ".") then Generator_label k gen = Some []
  else ∃ path, Parse v = Done (Value path) ∧ Generator_label k gen = Some path.
Proof.
  unfold InfoMarker_ToGenerator. intros H Hk. do 2 bind_inv H. injection H as <-.
  destruct (labelsFromPath_range_inv _ _ _ E0 k v Hk) as (path & Hentry & Hlabel).
  unfold Generator_label. simpl. case_bool_decide as Hv.
  - rewrite bool_decide_eq_false_2 by done.
    exists path. split; [by apply Parse_orFatal_Done | done].
  - rewrite bool_decide_eq_true_2 by done. by injection Hentry as <-.
Qed.

Lemma StateSetMarker_ToGenerator_label (s : StateSetMarker) (basePath : list string) (gen : Generator)
    (k : string) (v : JSONPath) :
  StateSetMarker_ToGenerator jsonpath_Parse s basePath = Done gen ->
  StateSetMarker_LabelsFromPath s !! k = Some v ->
  ∃ path, Parse v = Done (Value path) ∧ Generator_label k gen = Some path.
Proof.
  unfold StateSetMarker_ToGenerator. intros H Hk. do 2 bind_inv H. injection H as <-.
  destruct (labelsFromPath_range_inv _ _ _ E0 k v Hk) as (path & Hentry & Hlabel).
  exists path. split; [by apply Parse_orFatal_Done | done].
Qed.

(** C4, as amended: when a marker's expressions resolve, ToGenerator returns
    a generator.  The path of a Gauge generator is the base path followed by
    the resolved path expression; the path of an Info generator is the base
    path when the marker has no path expression and the base path followed
    by the resolved one otherwise; the path of a StateSet generator is the
    base path in both cases, and its resolved path expression is stored as
    the generator's valueFrom. *)
Theorem ToGenerator_path (basePath : list string) :
  (∀ g : GaugeMarker,
      (gauge_resolves g -> ∃ gen, GaugeMarker_ToGenerator jsonpath_Parse g basePath = Done gen)
      ∧ ∀ gen, GaugeMarker_ToGenerator jsonpath_Parse g basePath = Done gen ->
          ∃ add, Parse (GaugeMarker_JSONPath g) = Done (Value add)
                 ∧ Generator_path gen = Some (basePath ++ add))
  ∧ (∀ i : InfoMarker,
      (info_resolves i -> ∃ gen, InfoMarker_ToGenerator jsonpath_Parse i basePath = Done gen)
      ∧ ∀ gen, InfoMarker_ToGenerator jsonpath_Parse i basePath = Done gen ->
          if bool_decide (InfoMarker_JSONPath i = "") then Generator_path gen = Some basePath
          else ∃ add, Parse (InfoMarker_JSONPath i) = Done (Value add)
                      ∧ Generator_path gen = Some (basePath ++ add))
  ∧ (∀ s : StateSetMarker,
      (stateset_resolves s -> ∃ gen, StateSetMarker_ToGenerator jsonpath_Parse s basePath = Done gen)
      ∧ ∀ gen, StateSetMarker_ToGenerator jsonpath_Parse s basePath = Done gen ->
          Generator_path gen = Some basePath
          ∧ ∃ valueFrom, StateSet_ValueFrom <$> StateSet (Each gen) = Some valueFrom
                         ∧ match StateSetMarker_JSONPath s with
                           | Some jp => Parse jp = Done (Value valueFrom)
                           | None => valueFrom = []
                           end).
Proof.
  split; [|split].
  - intros g. split; [apply GaugeMarker_ToGenerator_returns | apply GaugeMarker_ToGenerator_path].
  - intros i. split; [apply InfoMarker_ToGenerator_returns | apply InfoMarker_ToGenerator_path].
  - intros s. split; [apply StateSetMarker_ToGenerator_returns | apply StateSetMarker_ToGenerator_path].
Qed.

End Properties.

(** ** The walk over the type graph *)

Section WalkProperties.

Variable jsonpath_Parse : string -> string -> string + Parser.
Variable TypesInfo_TypeOf : Package -> string -> GoType.
Variable Imports : Package -> gmap string Package.

Local Abbreviation generatorsFromMarkers := (generatorsFromMarkers jsonpath_Parse).
Local Abbreviation generatorsFor := (generatorsFor TypesInfo_TypeOf Imports).
Local Abbreviation NeedMetricsGeneratorFor_field :=
  (NeedMetricsGeneratorFor_field jsonpath_Parse TypesInfo_TypeOf Imports).
Local Abbreviation NeedMetricsGeneratorFor :=
  (NeedMetricsGeneratorFor jsonpath_Parse TypesInfo_TypeOf Imports).

Lemma parserM_bind_Done {A B} (m : parserM A) (f : A -> parserM B) (p : parser) (r : B * parser) :
  (m ≫= f) p = Done r ↔ ∃ a p', m p = Done (a, p') ∧ f a p' = Done r.
Proof.
  unfold mbind, parserM_bind. destruct (m p) as [[a p']| | |]; split.
  - eauto.
  - by intros (? & ? & [= <- <-] & ?).
  - done.
  - by intros (? & ? & ? & ?).
  - done.
  - by intros (? & ? & ? & ?).
  - done.
  - by intros (? & ? & ? & ?).
Qed.

Lemma lift_Done {A} (o : outcome A) (p : parser) (r : A * parser) :
  lift o p = Done r ↔ o = Done r.1 ∧ r.2 = p.
Proof.
  unfold lift. destruct o; simpl; split; try done; try by intros [? _].
  - by intros [= <-].
  - destruct r. simpl. by intros [[= ->] ->].
Qed.

Lemma parserM_bind_run {A B} (m : parserM A) (f : A -> parserM B) (p p' : parser) (a : A) :
  m p = Done (a, p') -> (m ≫= f) p = f a p'.
Proof. unfold mbind, parserM_bind. by intros ->. Qed.

Lemma parserM_bind_OutOfFuel {A B} (m : parserM A) (f : A -> parserM B) (p : parser) :
  m p = OutOfFuel -> (m ≫= f) p = OutOfFuel.
Proof. unfold mbind, parserM_bind. by intros ->. Qed.

Lemma parserM_bind_Fatal {A B} (m : parserM A) (f : A -> parserM B) (p : parser) (e : error) :
  m p = Fatal e -> (m ≫= f) p = Fatal e.
Proof. unfold mbind, parserM_bind. by intros ->. Qed.

Lemma parserM_bind_Panic {A B} (m : parserM A) (f : A -> parserM B) (p : parser) :
  m p = Panic -> (m ≫= f) p = Panic.
Proof. unfold mbind, parserM_bind. by intros ->. Qed.

Lemma lift_run {A} (o : outcome A) (a : A) (p : parser) :
  o = Done a -> lift o p = Done (a, p).
Proof. by intros ->. Qed.

Lemma range_foldM_cons {A B} (body : B -> A -> parserM B) (x : A) (l : list A) (acc : B) :
  range_foldM body (x :: l) acc = (acc' ← body acc x; range_foldM body l acc').
Proof. reflexivity. Qed.

(** *** prependPathOnGenerator *)

Lemma prependPathOnGenerator_path (generator : Generator) (pathPrefix : string) (path : list string) :
  Generator_path generator = Some path ->
  ∃ g, prependPathOnGenerator generator pathPrefix = Done g
       ∧ Generator_path g = Some (pathPrefix :: path)
       ∧ Type_ (Each g) = Type_ (Each generator)
       ∧ Name g = Name generator
       ∧ Help g = Help generator.
Proof.
  unfold Generator_path, prependPathOnGenerator.
  destruct generator as [name help [[] gauge stateset info]]; simpl; try done.
  - destruct gauge as [g|]; [|done]. simpl. intros [= <-]. eexists. by repeat split.
  - destruct stateset as [s|]; [|done]. simpl. intros [= <-]. eexists. by repeat split.
  - destruct info as [i|]; [|done]. simpl. intros [= <-]. eexists. by repeat split.
Qed.

(** The loop that prepends the field name to the nested generators. *)
Lemma prepend_range (pathPrefix : string) (nested generators : list Generator) :
  Forall well_formed nested ->
  ∃ nested',
    range_fold (fun generators generator =>
        g ← prependPathOnGenerator generator pathPrefix; mret (generators ++ [g]))
      nested generators = Done (generators ++ nested')
    ∧ Forall2 (fun g g' => Generator_path g' = (cons pathPrefix) <$> Generator_path g
                           ∧ Type_ (Each g') = Type_ (Each g)
                           ∧ Name g' = Name g) nested nested'
    ∧ Forall well_formed nested'.
Proof.
  revert generators. induction nested as [|g nested IH]; intros generators Hwf.
  - exists []. simpl. rewrite app_nil_r. by repeat split.
  - apply Forall_cons in Hwf as [[path Hpath] Hwf].
    destruct (prependPathOnGenerator_path g pathPrefix path Hpath) as (g' & Hg' & Hp & Ht & Hn & _).
    destruct (IH (generators ++ [g']) Hwf) as (nested' & Hrun & Hall & Hwf').
    exists (g' :: nested'). simpl. rewrite Hg'. simpl. rewrite Hrun, <- app_assoc.
    split; [done|]. split.
    + constructor; [|done]. by rewrite Hp, Hpath.
    + constructor; [|done]. by exists (pathPrefix :: path).
Qed.

(** *** generatorsFromMarkers *)

Lemma asLocalGeneratorMarker_well_formed (val : MarkerValue) toGenerator
    (basePath : list string) (gen : Generator) :
  asLocalGeneratorMarker jsonpath_Parse val = Some toGenerator ->
  toGenerator basePath = Done gen ->
  well_formed gen.
Proof.
  destruct val as [g|i|s| | |]; simpl; try done; intros [= <-] Hgen.
  - apply GaugeMarker_ToGenerator_path in Hgen as (add & _ & Hpath). by eexists.
  - apply InfoMarker_ToGenerator_path in Hgen. case_bool_decide; [by eexists|].
    destruct Hgen as (add & _ & Hpath). by eexists.
  - apply StateSetMarker_ToGenerator_path in Hgen as [Hpath _]. by eexists.
Qed.

Lemma generatorsFromMarkers_vals_well_formed (basePath : list string) (vals : list MarkerValue)
    (acc generators : list Generator) :
  Forall well_formed acc ->
  range_fold (fun generators val =>
      match asLocalGeneratorMarker jsonpath_Parse val with
      | Some toGenerator => g ← toGenerator basePath; mret (generators ++ [g])
      | None => mret generators
      end) vals acc = Done generators ->
  Forall well_formed generators.
Proof.
  revert acc. induction vals as [|val vals IH]; intros acc Hacc; simpl.
  - by intros [= <-].
  - intros Hrun. bind_inv Hrun. eapply IH; [|exact Hrun].
    destruct (asLocalGeneratorMarker jsonpath_Parse val) as [toGenerator|] eqn:Hval.
    + bind_inv E. injection E as <-. apply Forall_app. split; [done|].
      constructor; [|done]. by eapply asLocalGeneratorMarker_well_formed.
    + by injection E as <-.
Qed.

Lemma generatorsFromMarkers_range_well_formed (basePath : list string) (m : MarkerValues)
    (acc generators : list Generator) :
  Forall well_formed acc ->
  range_fold (fun generators (markerVals : string * list MarkerValue) =>
      range_fold (fun generators val =>
          match asLocalGeneratorMarker jsonpath_Parse val with
          | Some toGenerator => g ← toGenerator basePath; mret (generators ++ [g])
          | None => mret generators
          end) markerVals.2 generators) m acc = Done generators ->
  Forall well_formed generators.
Proof.
  revert acc. induction m as [|[name vals] m IH]; intros acc Hacc; simpl.
  - by intros [= <-].
  - intros Hrun. bind_inv Hrun. eapply IH; [|exact Hrun].
    by eapply generatorsFromMarkers_vals_well_formed.
Qed.

Lemma generatorsFromMarkers_well_formed (m : MarkerValues) (basePath : list string)
    (generators : list Generator) :
  generatorsFromMarkers m basePath = Done generators -> Forall well_formed generators.
Proof.
  unfold generatorsFromMarkers.
  apply generatorsFromMarkers_range_well_formed. constructor.
Qed.

(** *** NeedMetricsGeneratorFor leaves the parser as it was *)

Lemma NeedMetricsGeneratorFor_S (fuel : nat) (typ : TypeIdent) :
  NeedMetricsGeneratorFor (S fuel) typ =
    (p ← get;
     if bool_decide (is_Some (FlattenedMetrics p !! typ)) then mret []
     else
       match Types p !! typ with
       | None => klog_Fatal expected_info
       | Some info =>
           generators ← lift (generatorsFromMarkers (Type_Markers info) []);
           range_foldM (NeedMetricsGeneratorFor_field (NeedMetricsGeneratorFor fuel) typ)
                       (Fields info) generators
       end).
Proof. reflexivity. Qed.

Lemma generatorsFor_pure (ctx : generatorContext) (rawType : Expr) :
  (∀ typ, pure_walk (generatorRequester ctx typ)) ->
  pure_walk (generatorsFor ctx rawType).
Proof.
  intros Hreq. induction rawType as [name|X IH Sel|Elt _|Key _ Val _|X IH| |]; simpl; try done.
  - unfold localNamedToGenerators. destruct (TypesInfo_TypeOf _ _) as [| |pkg tname|].
    + by intros p gens p' [= <- <-].
    + by intros p gens p' [= <- <-].
    + apply Hreq.
    + done.
  - by intros p gens p' [= <- <-].
  - by intros p gens p' [= <- <-].
Qed.

Lemma NeedMetricsGeneratorFor_field_pure (self : TypeIdent -> parserM (list Generator))
    (typ : TypeIdent) (generators : list Generator) (f : FieldInfo) :
  (∀ typ, pure_walk (self typ)) ->
  Forall well_formed generators ->
  pure_walk (NeedMetricsGeneratorFor_field self typ generators f).
Proof.
  intros Hself Hwf p gens p'. unfold NeedMetricsGeneratorFor_field.
  destruct (Tag_json f) as [jsonTag|]; [|by intros [= <- <-]].
  destruct (_ && _); [by intros [= <- <-]|].
  destruct (strings_Split_comma jsonTag !! 0) as [jsonOpts0|]; [|done].
  intros (fromMarkers & p1 & [Hmarkers Hp1]%lift_Done & Hrun)%parserM_bind_Done.
  simpl in Hmarkers, Hp1. subst p1.
  apply parserM_bind_Done in Hrun as (ctx & p2 & Hctx & Hrun).
  destruct typ as [[pkg|] tname]; simpl in Hctx; [|done]. injection Hctx as <- <-.
  apply parserM_bind_Done in Hrun as (nested & p3 & Hnested & [Hrun Hp3]%lift_Done).
  simpl in Hrun, Hp3. subst p'.
  apply generatorsFor_pure in Hnested as [-> Hnested]; [|done].
  split; [done|].
  destruct (prepend_range jsonOpts0 nested (generators ++ fromMarkers) Hnested)
    as (nested' & Hrun' & _ & Hwf').
  rewrite Hrun' in Hrun. injection Hrun as <-.
  repeat (apply Forall_app; split); try done.
  by eapply generatorsFromMarkers_well_formed.
Qed.

Lemma range_foldM_pure {A} (body : list Generator -> A -> parserM (list Generator)) (l : list A)
    (acc : list Generator) :
  (∀ acc x, Forall well_formed acc -> pure_walk (body acc x)) ->
  Forall well_formed acc ->
  pure_walk (range_foldM body l acc).
Proof.
  intros Hbody. revert acc. induction l as [|x l IH]; intros acc Hacc p gens p'; simpl.
  - by intros [= <- <-].
  - intros (acc' & p1 & Hx & Hrun)%parserM_bind_Done.
    apply Hbody in Hx as [-> Hacc']; [|done]. by eapply IH.
Qed.

Lemma NeedMetricsGeneratorFor_pure (fuel : nat) (typ : TypeIdent) :
  pure_walk (NeedMetricsGeneratorFor fuel typ).
Proof.
  revert typ. induction fuel as [|fuel IH]; intros typ p gens p'; [done|].
  rewrite NeedMetricsGeneratorFor_S.
  intros (p0 & p1 & [= <- <-] & Hrun)%parserM_bind_Done.
  destruct (bool_decide _); [by injection Hrun as <- <-|].
  destruct (Types p !! typ) as [info|]; [|done].
  apply parserM_bind_Done in Hrun as (generators & p1 & [Hmarkers Hp1]%lift_Done & Hrun).
  simpl in Hmarkers, Hp1. subst p1.
  eapply range_foldM_pure; [| |exact Hrun].
  - intros acc f Hacc. by apply NeedMetricsGeneratorFor_field_pure.
  - by eapply generatorsFromMarkers_well_formed.
Qed.

(** *** More fuel returns the same *)

Lemma le_walk_refl {A} (m : parserM A) : le_walk m m.
Proof. by intros p r. Qed.

Local Hint Resolve le_walk_refl : core.

Lemma le_walk_bind {A B} (m1 m2 : parserM A) (f1 f2 : A -> parserM B) :
  le_walk m1 m2 -> (∀ a, le_walk (f1 a) (f2 a)) -> le_walk (m1 ≫= f1) (m2 ≫= f2).
Proof.
  intros Hm Hf p r (a & p' & H1 & H2)%parserM_bind_Done.
  apply parserM_bind_Done. exists a, p'. split; [by apply Hm | by apply Hf].
Qed.

Lemma generatorsFor_mono (pkg : Package) (req1 req2 : TypeIdent -> parserM (list Generator))
    (rawType : Expr) :
  (∀ typ, le_walk (req1 typ) (req2 typ)) ->
  le_walk (generatorsFor {| ctx_pkg := pkg; generatorRequester := req1 |} rawType)
          (generatorsFor {| ctx_pkg := pkg; generatorRequester := req2 |} rawType).
Proof.
  intros Hreq. induction rawType as [name|X IH Sel|Elt _|Key _ Val _|X IH| |]; simpl; try done.
  unfold localNamedToGenerators. simpl.
  destruct (TypesInfo_TypeOf _ _) as [| |tpkg tname|]; [done..|apply Hreq|done].
Qed.

Lemma NeedMetricsGeneratorFor_field_mono (self1 self2 : TypeIdent -> parserM (list Generator))
    (typ : TypeIdent) (generators : list Generator) (f : FieldInfo) :
  (∀ typ, le_walk (self1 typ) (self2 typ)) ->
  le_walk (NeedMetricsGeneratorFor_field self1 typ generators f)
          (NeedMetricsGeneratorFor_field self2 typ generators f).
Proof.
  intros Hself. unfold NeedMetricsGeneratorFor_field.
  destruct (Tag_json f) as [jsonTag|]; [|done].
  destruct (_ && _); [done|].
  destruct (strings_Split_comma jsonTag !! 0) as [jsonOpts0|]; [|done].
  apply le_walk_bind; [done|]. intros fromMarkers.
  destruct typ as [[pkg|] tname]; simpl; [|done].
  intros p r (ctx & p1 & [= <- <-] & Hrun)%parserM_bind_Done.
  apply parserM_bind_Done. eexists _, p. split; [done|].
  revert p r Hrun. apply le_walk_bind; [|done]. by apply generatorsFor_mono.
Qed.

Lemma range_foldM_mono {A B} (body1 body2 : B -> A -> parserM B) (l : list A) (acc : B) :
  (∀ acc x, le_walk (body1 acc x) (body2 acc x)) ->
  le_walk (range_foldM body1 l acc) (range_foldM body2 l acc).
Proof.
  intros Hbody. revert acc. induction l as [|x l IH]; intros acc; simpl; [done|].
  by apply le_walk_bind.
Qed.

Lemma NeedMetricsGeneratorFor_mono (fuel : nat) (typ : TypeIdent) :
  le_walk (NeedMetricsGeneratorFor fuel typ) (NeedMetricsGeneratorFor (S fuel) typ).
Proof.
  revert typ. induction fuel as [|fuel IH]; intros typ; [done|].
  rewrite (NeedMetricsGeneratorFor_S (S fuel)), (NeedMetricsGeneratorFor_S fuel).
  apply le_walk_bind; [done|]. intros p.
  destruct (bool_decide _); [done|]. destruct (Types p !! typ) as [info|]; [|done].
  apply le_walk_bind; [done|]. intros generators.
  apply range_foldM_mono. intros acc f. by apply NeedMetricsGeneratorFor_field_mono.
Qed.

Lemma NeedMetricsGeneratorFor_fuel (fuel fuel' : nat) (typ : TypeIdent) :
  fuel <= fuel' ->
  le_walk (NeedMetricsGeneratorFor fuel typ) (NeedMetricsGeneratorFor fuel' typ).
Proof.
  induction 1 as [|fuel' _ IH]; [done|].
  intros p r Hrun. by apply NeedMetricsGeneratorFor_mono, IH.
Qed.

(** *** The json tag of a field *)

Lemma strings_Split_comma_nonempty (s : string) : strings_Split_comma s ≠ [].
Proof.
  destruct s as [|c s]; simpl; [done|].
  destruct (Ascii.eqb c ","); [done|]. by destruct (strings_Split_comma s).
Qed.

Lemma strings_Split_comma_empty (s : string) : strings_Split_comma s = [""] -> s = "".
Proof.
  destruct s as [|c s]; simpl; [done|].
  destruct (Ascii.eqb c ",").
  - intros [= H]. by apply strings_Split_comma_nonempty in H.
  - by destruct (strings_Split_comma s).
Qed.

Lemma strings_Split_comma_dash (s : string) : strings_Split_comma s = ["-"] -> s = "-".
Proof.
  destruct s as [|c s]; simpl; [done|].
  destruct (Ascii.eqb c ","); [done|].
  destruct (strings_Split_comma s) as [|h t] eqn:Hs; [by apply strings_Split_comma_nonempty in Hs|].
  intros [= -> -> ->]. by rewrite (strings_Split_comma_empty s Hs).
Qed.

Lemma field_not_skipped (jsonTag : string) :
  jsonTag ≠ "-" ->
  bool_decide (length (strings_Split_comma jsonTag) = 1)
    && bool_decide (strings_Split_comma jsonTag !! 0 = Some "-") = false.
Proof.
  intros Hne. destruct (strings_Split_comma jsonTag) as [|h [|h2 t]] eqn:Hs; simpl; try done.
  rewrite bool_decide_eq_false_2; [done|]. intros [= ->]. by apply strings_Split_comma_dash in Hs.
Qed.

(** *** Path accumulation *)

(** The step of NeedMetricsGeneratorFor on a field that is not skipped: the
    generators of the field's own markers, then those of the field's type,
    each with the field's name put in front of its path. *)
Lemma NeedMetricsGeneratorFor_field_prepends (fuel : nat) (typ : TypeIdent) (pkg : Package)
    (f : FieldInfo) (jsonTag n : string) (generators fromMarkers nested : list Generator)
    (p p' : parser) :
  typ.1 = Some pkg ->
  Tag_json f = Some jsonTag ->
  jsonTag ≠ "-" ->
  strings_Split_comma jsonTag !! 0 = Some n ->
  generatorsFromMarkers (Field_Markers f) [n] = Done fromMarkers ->
  generatorsFor {| ctx_pkg := pkg; generatorRequester := NeedMetricsGeneratorFor fuel |}
                (RawField_Type f) p = Done (nested, p') ->
  ∃ nested',
    NeedMetricsGeneratorFor_field (NeedMetricsGeneratorFor fuel) typ generators f p
      = Done (generators ++ fromMarkers ++ nested', p)
    ∧ Forall2 (fun g g' => ∃ path, Generator_path g = Some path
                                  ∧ Generator_path g' = Some (n :: path)
                                  ∧ Type_ (Each g') = Type_ (Each g)
                                  ∧ Name g' = Name g) nested nested'.
Proof.
  intros Htyp Htag Hne Hn Hmarkers Hnested.
  pose proof Hnested as Hpure.
  apply generatorsFor_pure in Hpure as [-> Hwf];
    [|intros typ'; apply NeedMetricsGeneratorFor_pure].
  destruct (prepend_range n nested (generators ++ fromMarkers) Hwf) as (nested' & Hrun & Hall & _).
  exists nested'. split.
  - unfold NeedMetricsGeneratorFor_field.
    rewrite Htag, (field_not_skipped _ Hne), Hn.
    unfold mbind, parserM_bind, lift. rewrite Hmarkers. simpl.
    rewrite Htyp. simpl. rewrite Hnested. unfold mbind in Hrun. rewrite Hrun.
    simpl. by rewrite <- app_assoc.
  - clear Hrun Hnested. revert Hwf.
    induction Hall as [|g g' l l' (Hp & Ht & Hname) _ IH]; intros Hwf; constructor.
    + apply Forall_cons in Hwf as [[path Hpath] _]. exists path.
      rewrite Hp, Hpath. by repeat split.
    + apply IH. by apply Forall_cons in Hwf as [_ ?].
Qed.

(** *** A type with a field of its own type *)

(** When the first field of a type that is not in FlattenedMetrics has the
    type itself behind a pointer, every call of NeedMetricsGeneratorFor on
    the type calls itself on the same type and the same parser: whatever
    the fuel, the call does not return. *)
Lemma self_reference_never_returns (p : parser) (pkg : Package) (name jsonTag n : string)
    (info : TypeInfo) (f : FieldInfo) (rest : list FieldInfo) (fromType fromField : list Generator) :
  FlattenedMetrics p !! ((Some pkg, name) : TypeIdent) = None ->
  Types p !! ((Some pkg, name) : TypeIdent) = Some info ->
  generatorsFromMarkers (Type_Markers info) [] = Done fromType ->
  Fields info = f :: rest ->
  Tag_json f = Some jsonTag ->
  jsonTag ≠ "-" ->
  strings_Split_comma jsonTag !! 0 = Some n ->
  generatorsFromMarkers (Field_Markers f) [n] = Done fromField ->
  RawField_Type f = StarExpr (Ident name) ->
  TypesInfo_TypeOf pkg name = Named pkg name ->
  ∀ fuel, NeedMetricsGeneratorFor fuel (Some pkg, name) p = OutOfFuel.
Proof.
  intros Hflat Htypes HfromType Hfields Htag Hne Hn HfromField Hraw Hnamed fuel.
  induction fuel as [|fuel IH]; [done|].
  rewrite NeedMetricsGeneratorFor_S.
  erewrite parserM_bind_run by reflexivity.
  rewrite Hflat, bool_decide_eq_false_2 by (by intros [? ?]).
  rewrite Htypes.
  erewrite parserM_bind_run by (by apply lift_run).
  rewrite Hfields, range_foldM_cons.
  apply parserM_bind_OutOfFuel.
  unfold NeedMetricsGeneratorFor_field.
  rewrite Htag, (field_not_skipped _ Hne), Hn.
  erewrite parserM_bind_run by (by apply lift_run).
  erewrite parserM_bind_run by reflexivity.
  apply parserM_bind_OutOfFuel.
  rewrite Hraw. simpl. unfold localNamedToGenerators. simpl. rewrite Hnamed.
  rewrite (bool_decide_eq_true_2 (pkg = pkg)) by done.
  rewrite bool_decide_eq_false_2 by (intros H; by apply H).
  exact IH.
Qed.

(** *** The Version of a resource *)

Variable GVKMarkerName : string.
Variable sort_Slice : (Generator -> Generator -> bool) -> list Generator -> list Generator.

Local Abbreviation declares_kind := (declares_kind GVKMarkerName).
Local Abbreviation NeedResourceFor_metrics :=
  (NeedResourceFor_metrics jsonpath_Parse TypesInfo_TypeOf Imports GVKMarkerName sort_Slice).
Local Abbreviation NeedResourceFor_first_loop :=
  (NeedResourceFor_first_loop jsonpath_Parse TypesInfo_TypeOf Imports GVKMarkerName sort_Slice).
Local Abbreviation NeedResourceFor :=
  (NeedResourceFor jsonpath_Parse TypesInfo_TypeOf Imports GVKMarkerName sort_Slice).
Local Abbreviation versions_of := (versions_of GVKMarkerName).



Lemma NeedResourceFor_first_loop_run (fuel : nat) (groupKind : GroupKind) (p : parser)
    (packages : list Package) (resource : Resource) :
  (∀ pkg, pkg ∈ packages -> declares_kind p groupKind pkg = true ->
     ∃ gens p', NeedMetricsGeneratorFor fuel (Some pkg, groupKind.2) p = Done (gens, p')) ->
  match set_versions (Version (Resource_GroupVersionKind resource))
                     (versions_of p groupKind packages) with
  | None => range_foldM (NeedResourceFor_metrics fuel groupKind) packages resource p
              = Fatal version_already_set
  | Some v => ∃ resource',
      range_foldM (NeedResourceFor_metrics fuel groupKind) packages resource p = Done (resource', p)
      ∧ Version (Resource_GroupVersionKind resource') = v
      ∧ Group (Resource_GroupVersionKind resource') = Group (Resource_GroupVersionKind resource)
      ∧ Kind (Resource_GroupVersionKind resource') = Kind (Resource_GroupVersionKind resource)
  end.
Proof.
  revert resource. induction packages as [|pkg packages IH]; intros resource Hgens.
  - simpl. by exists resource.
  - assert (∀ pkg', pkg' ∈ packages -> declares_kind p groupKind pkg' = true ->
              ∃ gens p', NeedMetricsGeneratorFor fuel (Some pkg', groupKind.2) p = Done (gens, p'))
      as Hgens' by (intros pkg' Hin; apply Hgens; by right).
    rewrite range_foldM_cons. unfold versions_of. rewrite filter_cons.
    destruct (decide (declares_kind p groupKind pkg = true)) as [Hdecl|Hdecl].
    + destruct (Hgens pkg) as (gens & p' & Hrun); [by left|done|].
      pose proof Hrun as Hpure. apply NeedMetricsGeneratorFor_pure in Hpure as [-> _].
      unfold declares_kind in Hdecl.
      destruct (Types p !! ((Some pkg, groupKind.2) : TypeIdent)) as [typeInfo|] eqn:Htypes; [|done].
      apply bool_decide_eq_true_1 in Hdecl as [marker Hmarker].
      simpl. case_bool_decide as Hcur.
      * apply parserM_bind_Fatal. unfold NeedResourceFor_metrics.
        erewrite parserM_bind_run by reflexivity. rewrite Htypes, Hmarker.
        erewrite parserM_bind_run by exact Hrun. simpl.
        by rewrite bool_decide_eq_true_2.
      * specialize (IH (set_Version
                          (set_Metrics resource
                             (sort_Slice (fun a b => String.ltb (Name a) (Name b)) gens))
                          (GV_Version (GroupVersions_lookup p pkg))) Hgens').
        simpl in IH. fold (versions_of p groupKind packages).
        assert (NeedResourceFor_metrics fuel groupKind resource pkg p =
                Done (set_Version
                        (set_Metrics resource
                           (sort_Slice (fun a b => String.ltb (Name a) (Name b)) gens))
                        (GV_Version (GroupVersions_lookup p pkg)), p)) as Hstep.
        { unfold NeedResourceFor_metrics.
          erewrite parserM_bind_run by reflexivity. rewrite Htypes, Hmarker.
          erewrite parserM_bind_run by exact Hrun. simpl.
          rewrite bool_decide_eq_false_2 by (intros H; by apply H).
          by erewrite parserM_bind_run by reflexivity. }
        destruct (set_versions _ _) as [v|].
        -- destruct IH as (resource' & Hloop & Hv & Hg & Hk). exists resource'.
           by erewrite parserM_bind_run by exact Hstep.
        -- by erewrite parserM_bind_run by exact Hstep.
    + assert (NeedResourceFor_metrics fuel groupKind resource pkg p = Done (resource, p)) as Hstep.
      { unfold NeedResourceFor_metrics, declares_kind in *.
        erewrite parserM_bind_run by reflexivity.
        destruct (Types p !! ((Some pkg, groupKind.2) : TypeIdent)) as [typeInfo|]; [|done].
        destruct (MarkerValues_Get _ _) as [marker|]; [|done].
        exfalso. apply Hdecl. by apply bool_decide_eq_true_2. }
      specialize (IH resource Hgens'). fold (versions_of p groupKind packages).
      destruct (set_versions _ _) as [v|].
      * destruct IH as (resource' & Hloop & Hv & Hg & Hk). exists resource'.
        by erewrite parserM_bind_run by exact Hstep.
      * by erewrite parserM_bind_run by exact Hstep.
Qed.

(** The second loop: the resource markers leave the GroupVersionKind alone. *)
Lemma Parse_returns_or_panics (j : JSONPath) :
  match Parse jsonpath_Parse j with
  | Done _ | Panic => True
  | _ => False
  end.
Proof.
  unfold Parse. destruct (jsonpath_Parse _ _) as [msg|jp]; [done|].
  case_bool_decide; [done|]. destruct (Root_Nodes jp !! 0) as [[nodes|v|t]|]; try done.
  by destruct t.
Qed.

Lemma path_differs_returns_or_panics (elems jsonPath : list string) (i : nat) :
  match path_differs elems i jsonPath with
  | Done _ | Panic => True
  | _ => False
  end.
Proof.
  revert i. induction jsonPath as [|v jsonPath IH]; intros i; simpl; [done|].
  destruct (elems !! i) as [w|]; [|done]. case_bool_decide; [done | apply IH].
Qed.

Lemma asResourceMarker_gvk_kept (val : MarkerValue) applyToResource (resource : Resource) :
  asResourceMarker jsonpath_Parse val = Some applyToResource ->
  match applyToResource resource with
  | Done (resource', _) => Resource_GroupVersionKind resource' = Resource_GroupVersionKind resource
  | Panic => True
  | _ => False
  end.
Proof.
  destruct val as [| | |n|l|]; simpl; try done; intros [= <-]; [done|].
  unfold ApplyToResource, LabelFromPathMarker_resource, LabelFromPathMarker_ApplyToResource.
  pose proof (Parse_returns_or_panics (LabelFromPathMarker_JSONPath l)) as Hparse.
  destruct (Parse jsonpath_Parse _) as [[new|err]| | |]; simpl; try done.
  destruct (default ∅ (Resource_LabelsFromPath resource) !! LabelFromPathMarker_Name l)
    as [existing|]; simpl; [|done].
  case_bool_decide; simpl; [done|].
  pose proof (path_differs_returns_or_panics new existing 0) as Hdiffers.
  destruct (path_differs new 0 existing) as [[]| | |]; simpl; done.
Qed.




End WalkProperties.

(** * The properties on the sample inputs *)

Import Samples.

(** ** The order of the resources *)

(** C1: for two resources without a prefix the comparison is the one of the
    strings Group/Version/Kind.  For two resources with a prefix the
    comparison does not look at the first prefix: it answers whether the
    second prefix is not empty, so that "z" comes before "a" and "a" before
    "z", where the ascending order of the prefixes puts "a" first. *)
Theorem Generate_less_prefix :
  (∀ gi gj li lj mi mj,
      Generate_less {| Resource_GroupVersionKind := gi; MetricNamePrefix := None;
                       Resource_LabelsFromPath := li; Metrics := mi |}
                    {| Resource_GroupVersionKind := gj; MetricNamePrefix := None;
                       Resource_LabelsFromPath := lj; Metrics := mj |}
      = Done (String.ltb (GroupVersionKind_string gi) (GroupVersionKind_string gj)))
  ∧ (∀ a b gi gj li lj mi mj,
      Generate_less {| Resource_GroupVersionKind := gi; MetricNamePrefix := Some a;
                       Resource_LabelsFromPath := li; Metrics := mi |}
                    {| Resource_GroupVersionKind := gj; MetricNamePrefix := Some b;
                       Resource_LabelsFromPath := lj; Metrics := mj |}
      = Done (String.ltb "" b))
  ∧ Generate_less (prefixed "z" "A") (prefixed "a" "B") = Done true
  ∧ Generate_less (prefixed "a" "B") (prefixed "z" "A") = Done true
  ∧ String.ltb "z" "a" = false.
Proof. repeat split. Qed.

(** ** The memo of NeedMetricsGeneratorFor *)

(** A call that returns has written nothing: the same call on the parser it
    leaves returns the same generators again. *)
Lemma NeedMetricsGeneratorFor_again jsonpath_Parse TypesInfo_TypeOf Imports
    (fuel : nat) (typ : TypeIdent) (p p' : parser) (gens : list Generator) :
  NeedMetricsGeneratorFor jsonpath_Parse TypesInfo_TypeOf Imports fuel typ p = Done (gens, p') ->
  NeedMetricsGeneratorFor jsonpath_Parse TypesInfo_TypeOf Imports fuel typ p' = Done (gens, p').
Proof.
  intros Hrun. pose proof Hrun as Hpure.
  apply NeedMetricsGeneratorFor_pure in Hpure as [-> _]. exact Hrun.
Qed.

Lemma Widget_generators (fuel : nat) :
  NeedMetricsGeneratorFor' (3 + fuel) (Some api_v1, "Widget") one_package
  = Done ([replicas_generator], one_package).
Proof.
  apply (NeedMetricsGeneratorFor_fuel chain_reader TypeOf no_imports 3 (3 + fuel)); [lia|].
  vm_compute. reflexivity.
Qed.

(** C2: on the parser made by newParser, a second call for the type Widget,
    after the first has returned, returns the generator of the replicas gauge
    again, not the empty sequence: the memo is read and never written. *)
Theorem NeedMetricsGeneratorFor_second_call (fuel : nat) :
  (first ← NeedMetricsGeneratorFor' (3 + fuel) (Some api_v1, "Widget");
   second ← NeedMetricsGeneratorFor' (3 + fuel) (Some api_v1, "Widget");
   mret (first, second)) one_package
  = Done (([replicas_generator], [replicas_generator]), one_package)
  ∧ FlattenedMetrics one_package = ∅.
Proof.
  split; [|reflexivity].
  erewrite parserM_bind_run by apply Widget_generators.
  erewrite parserM_bind_run by apply Widget_generators.
  reflexivity.
Qed.

(** C3: on the type Node, whose field next has the type *Node, the call of
    NeedMetricsGeneratorFor does not return, whatever the fuel: each call
    reaches the same call again, and the memo that would stop it is empty. *)
Theorem NeedMetricsGeneratorFor_self_reference (fuel : nat) :
  NeedMetricsGeneratorFor' fuel (Some api_v1, "Node") one_package = OutOfFuel.
Proof.
  apply (self_reference_never_returns chain_reader TypeOf no_imports one_package api_v1 "Node"
           "next" "next" Node_info next_field [] [] []); try reflexivity.
  intros [=].
Qed.

(** ** ToGenerator *)

(** C4, a counterexample: the stateset marker with the path expression
    ".foo", which resolves to [foo], gets under the base path [a] the path
    [a], not [a; foo]. *)
Lemma StateSet_path_counterexample :
  Parse chain_reader ".foo" = Done (Value ["foo"])
  ∧ StateSetMarker_JSONPath phase_stateset = Some ".foo"
  ∧ match StateSetMarker_ToGenerator chain_reader phase_stateset ["a"] with
    | Done gen => Generator_path gen = Some ["a"]
                  ∧ Generator_path gen ≠ Some (["a"] ++ ["foo"])
    | _ => False
    end.
Proof. vm_compute. repeat split. intros [=]. Qed.

(** The gauge of spec.size: base path [spec], path expression .size. *)
Lemma ToGenerator_path_witness :
  ∃ add, Parse chain_reader (GaugeMarker_JSONPath size_gauge) = Done (Value add)
         ∧ Generator_path size_generator = Some (["spec"] ++ add).
Proof.
  apply (proj2 (proj1 (ToGenerator_path chain_reader ["spec"]) size_gauge) size_generator).
  vm_compute. reflexivity.
Defined.

(** C5: the stateset marker with the label entry self -> "." hands the
    entry to Parse: with the reader of dotted chains the label gets the path
    of one empty field name, and with a reader that rejects the action the
    call exits fatally.  The gauge and info markers with the same entry
    store the empty path without a call of the reader. *)
Theorem StateSet_self_label :
  match StateSetMarker_ToGenerator chain_reader self_stateset [] with
  | Done gen => Generator_label "self" gen = Some [""]
  | _ => False
  end
  ∧ StateSetMarker_ToGenerator rejects_self self_stateset []
    = Fatal (Errorf "parse JSONPath: %w" [ArgErr "rejected"])
  ∧ match GaugeMarker_ToGenerator rejects_self self_gauge [] with
    | Done gen => Generator_label "self" gen = Some []
    | _ => False
    end
  ∧ match InfoMarker_ToGenerator rejects_self self_info [] with
    | Done gen => Generator_label "self" gen = Some []
    | _ => False
    end.
Proof. vm_compute. repeat split. Qed.

(** ** JSONPath.Parse and ApplyToResource *)

(** A chain of two names, an expression the reader rejects, and an
    expression that closes one action and opens a second. *)
Lemma Parse_single_chain_witness :
  Parse chain_reader ".status.replicas" = Done (Value ["status"; "replicas"])
  ∧ (∃ e, Parse chain_reader "[0]" = Done (Error e))
  ∧ (∃ e, Parse chain_reader ".a}{.b" = Done (Error e)).
Proof.
  split; [|split].
  - apply (proj1 (Parse_single_chain chain_reader ".status.replicas")
             {| Root_Nodes := [ListNode [FieldNode "status"; FieldNode "replicas"]] |});
      reflexivity.
  - apply (proj1 (proj2 (Parse_single_chain chain_reader "[0]"))
             "unrecognized character in action").
    reflexivity.
  - apply (proj2 (proj2 (Parse_single_chain chain_reader ".a}{.b"))
             {| Root_Nodes := [ListNode [FieldNode "a"]; ListNode [FieldNode "b"]] |}).
    + reflexivity.
    + intros [=].
    + intros [names [=]].
Defined.

(** The label env, new on a resource that has the label team; the label
    team on a resource without label map; and the label team, already on
    the resource, given again with the same path and with another path. *)
Lemma ApplyToResource_label_witness :
  (∃ resource',
      LabelFromPathMarker_ApplyToResource chain_reader env_label team_resource = Done (resource', None)
      ∧ Resource_LabelsFromPath resource'
        = Some (<["env" := ["metadata"; "labels"; "env"]]>
                  (default ∅ (Resource_LabelsFromPath team_resource)))
      ∧ (Resource_LabelsFromPath resource' ≫= (.!! "env")) = Some ["metadata"; "labels"; "env"]
      ∧ MetricNamePrefix resource' = MetricNamePrefix team_resource
      ∧ Metrics resource' = Metrics team_resource
      ∧ Resource_GroupVersionKind resource' = Resource_GroupVersionKind team_resource)
  ∧ (∃ resource',
      LabelFromPathMarker_ApplyToResource chain_reader team_same unlabelled_resource
        = Done (resource', None)
      ∧ Resource_LabelsFromPath resource'
        = Some (<["team" := ["metadata"; "labels"; "team"]]>
                  (default ∅ (Resource_LabelsFromPath unlabelled_resource)))
      ∧ (Resource_LabelsFromPath resource' ≫= (.!! "team")) = Some ["metadata"; "labels"; "team"]
      ∧ MetricNamePrefix resource' = MetricNamePrefix unlabelled_resource
      ∧ Metrics resource' = Metrics unlabelled_resource
      ∧ Resource_GroupVersionKind resource' = Resource_GroupVersionKind unlabelled_resource)
  ∧ (∃ resource' err,
      LabelFromPathMarker_ApplyToResource chain_reader team_same team_resource = Done (resource', err)
      ∧ (err = None ↔ ["metadata"; "labels"; "team"] = ["metadata"; "labels"; "team"])
      ∧ resource' = team_resource
      ∧ (Resource_LabelsFromPath resource' ≫= (.!! "team")) = Some ["metadata"; "labels"; "team"]
      ∧ (err ≠ None -> err = Some (Errorf "duplicate definition for label %q" [ArgStr "team"])))
  ∧ (∃ resource' err,
      LabelFromPathMarker_ApplyToResource chain_reader team_other team_resource = Done (resource', err)
      ∧ (err = None ↔ ["spec"; "team"] = ["metadata"; "labels"; "team"])
      ∧ resource' = team_resource
      ∧ (Resource_LabelsFromPath resource' ≫= (.!! "team")) = Some ["metadata"; "labels"; "team"]
      ∧ (err ≠ None -> err = Some (Errorf "duplicate definition for label %q" [ArgStr "team"]))).
Proof.
  split; [|split; [|split]].
  - apply (proj1 (ApplyToResource_label chain_reader env_label team_resource
                    ["metadata"; "labels"; "env"] eq_refl)).
    reflexivity.
  - apply (proj1 (ApplyToResource_label chain_reader team_same unlabelled_resource
                    ["metadata"; "labels"; "team"] eq_refl)).
    reflexivity.
  - apply (proj2 (ApplyToResource_label chain_reader team_same team_resource
                    ["metadata"; "labels"; "team"] eq_refl)).
    reflexivity.
  - apply (proj2 (ApplyToResource_label chain_reader team_other team_resource
                    ["spec"; "team"] eq_refl)).
    reflexivity.
Defined.

(** The label team given with another path: the resource stays as it was. *)
Lemma ApplyToResource_conflict_unchanged_witness :
  team_resource = team_resource
  ∧ (Resource_LabelsFromPath team_resource ≫= (.!! "team")) =
      (Resource_LabelsFromPath team_resource ≫= (.!! "team"))
  ∧ is_Some (Resource_LabelsFromPath team_resource ≫= (.!! "team"))
  ∧ MetricNamePrefix team_resource = MetricNamePrefix team_resource
  ∧ Metrics team_resource = Metrics team_resource
  ∧ Resource_GroupVersionKind team_resource = Resource_GroupVersionKind team_resource.
Proof.
  apply (ApplyToResource_conflict_unchanged chain_reader team_other team_resource team_resource
           (duplicate_definition "team")).
  - vm_compute. reflexivity.
  - reflexivity.
Defined.

(** ** Path accumulation *)

(** C7: prependPathOnGenerator puts the prefix in front of the path of a
    generator of any of the three kinds; the step of NeedMetricsGeneratorFor
    on a field with the external name n returns the generators of the
    field's type with n in front of each path; and the type Widget, with the
    field status whose type has the field replicas carrying a gauge marker
    without path expression, yields the one generator with the path
    [status; replicas]. *)
Theorem path_accumulation :
  (∀ generator pathPrefix path,
      Generator_path generator = Some path ->
      ∃ g, prependPathOnGenerator generator pathPrefix = Done g
           ∧ Generator_path g = Some (pathPrefix :: path)
           ∧ Type_ (Each g) = Type_ (Each generator))
  ∧ (∀ jsonpath_Parse TypesInfo_TypeOf Imports fuel (typ : TypeIdent) pkg f jsonTag n
       generators fromMarkers nested p p',
      typ.1 = Some pkg ->
      Tag_json f = Some jsonTag ->
      jsonTag ≠ "-" ->
      strings_Split_comma jsonTag !! 0 = Some n ->
      generatorsFromMarkers jsonpath_Parse (Field_Markers f) [n] = Done fromMarkers ->
      generatorsFor TypesInfo_TypeOf Imports
        {| ctx_pkg := pkg;
           generatorRequester := NeedMetricsGeneratorFor jsonpath_Parse TypesInfo_TypeOf Imports fuel |}
        (RawField_Type f) p = Done (nested, p') ->
      ∃ nested',
        NeedMetricsGeneratorFor_field jsonpath_Parse TypesInfo_TypeOf Imports
          (NeedMetricsGeneratorFor jsonpath_Parse TypesInfo_TypeOf Imports fuel) typ generators f p
        = Done (generators ++ fromMarkers ++ nested', p)
        ∧ Forall2 (fun g g' => ∃ path, Generator_path g = Some path
                                      ∧ Generator_path g' = Some (n :: path)
                                      ∧ Type_ (Each g') = Type_ (Each g)
                                      ∧ Name g' = Name g) nested nested')
  ∧ (∀ fuel, NeedMetricsGeneratorFor' (3 + fuel) (Some api_v1, "Widget") one_package
             = Done ([replicas_generator], one_package))
  ∧ Generator_path replicas_generator = Some ["status"; "replicas"].
Proof.
  split; [|split; [|split]].
  - intros generator pathPrefix path Hpath.
    destruct (prependPathOnGenerator_path generator pathPrefix path Hpath) as (g & ? & ? & ? & _).
    by exists g.
  - intros. by eapply NeedMetricsGeneratorFor_field_prepends.
  - apply Widget_generators.
  - reflexivity.
Qed.

(** The step on the field status of Widget. *)
Lemma path_accumulation_witness :
  ∃ nested',
    NeedMetricsGeneratorFor_field chain_reader TypeOf no_imports
      (NeedMetricsGeneratorFor chain_reader TypeOf no_imports 2)
      (Some api_v1, "Widget") [] status_field one_package
    = Done ([] ++ [] ++ nested', one_package)
    ∧ Forall2 (fun g g' => ∃ path, Generator_path g = Some path
                                  ∧ Generator_path g' = Some ("status" :: path)
                                  ∧ Type_ (Each g') = Type_ (Each g)
                                  ∧ Name g' = Name g) [replicas_nested] nested'.
Proof.
  apply (proj1 (proj2 path_accumulation) chain_reader TypeOf no_imports 2
           (Some api_v1, "Widget") api_v1 status_field "status" "status"
           [] [] [replicas_nested] one_package one_package).
  - reflexivity.
  - reflexivity.
  - intros [=].
  - reflexivity.
  - reflexivity.
  - vm_compute. reflexivity.
Defined.

(** ** The Version of a resource *)



(** * Further properties *)

(** ** JSONPath.Parse *)

Section MarkerFacts.

Variable jsonpath_Parse : string -> string -> string + Parser.

Local Abbreviation Parse := (Parse jsonpath_Parse).
Local Abbreviation Parse_orFatal := (Parse_orFatal jsonpath_Parse).
Local Abbreviation resolves := (resolves jsonpath_Parse).
Local Abbreviation labels_resolve := (labels_resolve jsonpath_Parse).
Local Abbreviation gauge_resolves := (gauge_resolves jsonpath_Parse).
Local Abbreviation info_resolves := (info_resolves jsonpath_Parse).
Local Abbreviation stateset_resolves := (stateset_resolves jsonpath_Parse).
Local Abbreviation LabelFromPathMarker_ApplyToResource :=
  (LabelFromPathMarker_ApplyToResource jsonpath_Parse).

Lemma Parse_range_Value (nodes : list Node) (ret names : list string) :
  Parse_range nodes ret = Value names ->
  ∃ more, nodes = FieldNode <$> more ∧ names = ret ++ more.
Proof.
  revert ret. induction nodes as [|n nodes IH]; intros ret; simpl.
  - intros [= <-]. exists []. by rewrite app_nil_r.
  - destruct n as [l|v|t]; try done. intros (more & -> & ->)%IH.
    exists (v :: more). by rewrite <- app_assoc.
Qed.

(** X1: Parse returns a sequence of names exactly when the library read the
    expression as one list node whose elements are all field nodes, and the
    names are those of the field nodes in order. *)
Theorem Parse_Value_iff (j : JSONPath) (names : list string) :
  Parse j = Done (Value names)
  ↔ ∃ jp, jsonpath_Parse "foo" ("{" +:+ j +:+ "}") = inr jp ∧ single_chain jp names.
Proof.
  unfold Parse, single_chain. split.
  - destruct (jsonpath_Parse _ _) as [msg|jp]; [done|].
    case_bool_decide as Hlen; [done|].
    destruct (Root_Nodes jp) as [|n0 [|n1 rest]] eqn:Hroot; simpl in *; [done| |lia].
    destruct n0 as [nodes|v|t]; simpl; [|done|by destruct t].
    intros [= (more & -> & ->)%Parse_range_Value]. by exists jp.
  - intros (jp & -> & ->). simpl. by rewrite Parse_range_fields.
Qed.

(** X2: Parse never exits through klog.Fatal; it panics exactly when the
    library returns a parser whose root has no node, where the code indexes
    the first node of the root without a test for the empty root. *)
Theorem Parse_Panic_iff (j : JSONPath) :
  (Parse j = Panic
   ↔ ∃ jp, jsonpath_Parse "foo" ("{" +:+ j +:+ "}") = inr jp ∧ Root_Nodes jp = [])
  ∧ (∀ e, Parse j ≠ Fatal e)
  ∧ Parse j ≠ OutOfFuel.
Proof.
  unfold Parse. destruct (jsonpath_Parse _ _) as [msg|jp].
  - repeat split; try done. by intros (jp & ? & _).
  - destruct (Root_Nodes jp) as [|n0 rest] eqn:Hroot.
    + simpl. repeat split; try done. intros _. by exists jp.
    + assert (∀ o : outcome (goresult (list string)),
                (∃ r, o = Done r) ->
                (o = Panic ↔ ∃ jp0, @inr string Parser jp = inr jp0 ∧ Root_Nodes jp0 = [])
                ∧ (∀ e, o ≠ Fatal e) ∧ o ≠ OutOfFuel) as Hdone.
      { intros o [r ->]. repeat split; try done.
        intros (jp0 & [= <-] & Hnil). by rewrite Hroot in Hnil. }
      apply Hdone. case_bool_decide; [by eexists|]. simpl.
      destruct n0 as [nodes|v|t]; simpl; [by eexists|by eexists|]. destruct t; by eexists.
Qed.

(** ** ToGenerator *)

Lemma labelsFromPath_range_keys (entry : JSONPath -> outcome (list string)) (m : gmap string JSONPath)
    (labels : gmap string (list string)) :
  labelsFromPath_range entry m = Done labels ->
  ∀ k, is_Some (labels !! k) ↔ is_Some (m !! k).
Proof.
  intros Hrun k. split.
  - intros Hsome. destruct (m !! k) as [v|] eqn:Hk; [by eexists|]. exfalso.
    set (f := fun v => match entry v with Done path => path | _ => [] end).
    assert (labelsFromPath_range entry m
            = Done (foldl (fun acc kv => <[kv.1 := f kv.2]> acc) ∅ (map_to_list m))) as Hfold.
    { unfold labelsFromPath_range.
      apply (range_fold_Done _ (fun acc kv => <[kv.1 := f kv.2]> acc)).
      intros acc [k' v'] Hkv. apply elem_of_map_to_list in Hkv.
      destruct (labelsFromPath_range_inv _ _ _ Hrun k' v' Hkv) as (path & Hpath & _).
      simpl. unfold f. by rewrite Hpath. }
    rewrite Hrun in Hfold. injection Hfold as ->.
    destruct (foldl_insert_lookup f (map_to_list m) ∅ k (NoDup_fst_map_to_list m)) as [_ Hout].
    rewrite Hout, lookup_empty in Hsome; [by destruct Hsome|].
    intros ([k' v'] & -> & Hkv%elem_of_map_to_list)%list_elem_of_fmap. simpl in Hk. congruence.
  - intros [v Hk]. destruct (labelsFromPath_range_inv _ _ _ Hrun k v Hk) as (path & _ & ->). by eexists.
Qed.

Lemma labels_resolve_skip_inv (m : gmap string JSONPath) (labels : gmap string (list string)) :
  labelsFromPath_range
    (fun v => if bool_decide (v ≠ ".") then Parse_orFatal v else mret []) m = Done labels ->
  labels_resolve true m.
Proof.
  intros Hrun k v Hk. destruct (labelsFromPath_range_inv _ _ _ Hrun k v Hk) as (path & Hpath & _).
  case_bool_decide as Hv; [|by left]. right. exists path. by apply Parse_orFatal_Done.
Qed.

Lemma labels_resolve_all_inv (m : gmap string JSONPath) (labels : gmap string (list string)) :
  labelsFromPath_range (fun v => Parse_orFatal v) m = Done labels ->
  labels_resolve false m.
Proof.
  intros Hrun k v Hk. destruct (labelsFromPath_range_inv _ _ _ Hrun k v Hk) as (path & Hpath & _).
  right. exists path. by apply Parse_orFatal_Done.
Qed.

(** X3: ToGenerator returns a generator exactly when every expression the
    marker makes it parse resolves: the path expression (for an Info marker
    only when it is not empty), valueFrom when present, and the label
    entries (for Gauge and Info all but the entries "."). *)
Theorem ToGenerator_returns_iff (basePath : list string) :
  (∀ g, (∃ gen, GaugeMarker_ToGenerator jsonpath_Parse g basePath = Done gen) ↔ gauge_resolves g)
  ∧ (∀ i, (∃ gen, InfoMarker_ToGenerator jsonpath_Parse i basePath = Done gen) ↔ info_resolves i)
  ∧ (∀ s, (∃ gen, StateSetMarker_ToGenerator jsonpath_Parse s basePath = Done gen)
          ↔ stateset_resolves s).
Proof.
  split; [|split].
  - intros g. split; [|apply GaugeMarker_ToGenerator_returns].
    intros [gen H]. unfold GaugeMarker_ToGenerator in H. do 3 bind_inv H.
    split; [|split].
    + eexists. by apply Parse_orFatal_Done.
    + intros vf Hvf. rewrite Hvf in E0. eexists. by apply Parse_orFatal_Done.
    + by eapply labels_resolve_skip_inv.
  - intros i. split; [|apply InfoMarker_ToGenerator_returns].
    intros [gen H]. unfold InfoMarker_ToGenerator in H. do 2 bind_inv H. split.
    + intros Hne. rewrite bool_decide_eq_true_2 in E by done. bind_inv E.
      eexists. by apply Parse_orFatal_Done.
    + by eapply labels_resolve_skip_inv.
  - intros s. split; [|apply StateSetMarker_ToGenerator_returns].
    intros [gen H]. unfold StateSetMarker_ToGenerator in H. do 2 bind_inv H. split.
    + intros jp Hjp. rewrite Hjp in E. eexists. by apply Parse_orFatal_Done.
    + by eapply labels_resolve_all_inv.
Qed.

(** X4: the label map of the generator has exactly the keys of the marker's
    LabelsFromPath, for the three kinds of marker. *)
Theorem ToGenerator_label_keys (basePath : list string) (k : string) :
  (∀ g gen, GaugeMarker_ToGenerator jsonpath_Parse g basePath = Done gen ->
      (is_Some (Generator_label k gen) ↔ is_Some (GaugeMarker_LabelsFromPath g !! k)))
  ∧ (∀ i gen, InfoMarker_ToGenerator jsonpath_Parse i basePath = Done gen ->
      (is_Some (Generator_label k gen) ↔ is_Some (InfoMarker_LabelsFromPath i !! k)))
  ∧ (∀ s gen, StateSetMarker_ToGenerator jsonpath_Parse s basePath = Done gen ->
      (is_Some (Generator_label k gen) ↔ is_Some (StateSetMarker_LabelsFromPath s !! k))).
Proof.
  split; [|split].
  - intros g gen H. unfold GaugeMarker_ToGenerator in H. do 3 bind_inv H. injection H as <-.
    unfold Generator_label. simpl. by eapply labelsFromPath_range_keys.
  - intros i gen H. unfold InfoMarker_ToGenerator in H. do 2 bind_inv H. injection H as <-.
    unfold Generator_label. simpl. by eapply labelsFromPath_range_keys.
  - intros s gen H. unfold StateSetMarker_ToGenerator in H. do 2 bind_inv H. injection H as <-.
    unfold Generator_label. simpl. by eapply labelsFromPath_range_keys.
Qed.

(** ** ApplyToResource *)

(** The ways in which LabelFromPathMarker.ApplyToResource returns. *)
Lemma ApplyToResource_label_inv (n : LabelFromPathMarker) (resource resource' : Resource)
    (err : option error) :
  LabelFromPathMarker_ApplyToResource n resource = Done (resource', err) ->
  let labels := Resource_labels resource in
  let name := LabelFromPathMarker_Name n in
  (∃ e, Parse (LabelFromPathMarker_JSONPath n) = Done (Error e)
        ∧ err = Some e ∧ resource' = set_LabelsFromPath resource labels)
  ∨ (∃ new, Parse (LabelFromPathMarker_JSONPath n) = Done (Value new)
        ∧ ((err = None ∧ resource' = set_LabelsFromPath resource (<[name := new]> labels)
            ∧ (labels !! name = None ∨ labels !! name = Some new))
           ∨ (err = Some (duplicate_definition name) ∧ resource' = set_LabelsFromPath resource labels
              ∧ ∃ existing, labels !! name = Some existing ∧ new ≠ existing))).
Proof.
  intros Happly labels name.
  destruct (Parse (LabelFromPathMarker_JSONPath n)) as [[new|e]| | |] eqn:Hparse;
    try (unfold LabelFromPathMarker_ApplyToResource in Happly; rewrite Hparse in Happly; done).
  - right. exists new. split; [done|].
    rewrite (ApplyToResource_resolved _ n resource new Hparse) in Happly.
    fold (Resource_labels resource) in Happly. fold labels name in Happly.
    destruct (labels !! name) as [existing|] eqn:Hname.
    + case_bool_decide as Heq; injection Happly as <- <-.
      * left. subst. split; [done|]. split; [done|]. by right.
      * right. split; [done|]. split; [done|]. by exists existing.
    + injection Happly as <- <-. left. split; [done|]. split; [done|]. by left.
  - left. exists e. unfold LabelFromPathMarker_ApplyToResource in Happly.
    rewrite Hparse in Happly. simpl in Happly. by injection Happly as <- <-.
Qed.

(** X5: whenever LabelFromPathMarker.ApplyToResource returns, with or
    without an error, the resource has a label map (a nil map has become a
    map, also when the path expression did not parse); the prefix, the
    metrics and the GroupVersionKind are as before; every label the
    resource had is still there with the path it had; and only the
    marker's own label can be new. *)
Theorem ApplyToResource_label_frame (n : LabelFromPathMarker) (resource resource' : Resource)
    (err : option error) :
  LabelFromPathMarker_ApplyToResource n resource = Done (resource', err) ->
  is_Some (Resource_LabelsFromPath resource')
  ∧ MetricNamePrefix resource' = MetricNamePrefix resource
  ∧ Metrics resource' = Metrics resource
  ∧ Resource_GroupVersionKind resource' = Resource_GroupVersionKind resource
  ∧ (∀ k path, Resource_labels resource !! k = Some path ->
               Resource_labels resource' !! k = Some path)
  ∧ (∀ k, k ≠ LabelFromPathMarker_Name n ->
          Resource_labels resource' !! k = Resource_labels resource !! k).
Proof.
  intros Happly.
  destruct (ApplyToResource_label_inv n resource resource' err Happly)
    as [(e & _ & _ & ->)|(new & _ & [(_ & -> & Hold)|(_ & -> & _)])];
    unfold Resource_labels; simpl; repeat split; try done.
  - intros k path Hk. destruct (decide (k = LabelFromPathMarker_Name n)) as [->|Hne].
    + rewrite lookup_insert_eq. unfold Resource_labels in Hold.
      destruct Hold as [Hold|Hold]; congruence.
    + by rewrite lookup_insert_ne.
  - intros k Hne. by rewrite lookup_insert_ne.
Qed.

(** X6: when LabelFromPathMarker.ApplyToResource returns without an error,
    the resource holds the resolved path under the marker's label, and
    applying the same marker once more returns without an error and leaves
    the resource as it is. *)
Theorem ApplyToResource_label_again (n : LabelFromPathMarker) (resource resource' : Resource) :
  LabelFromPathMarker_ApplyToResource n resource = Done (resource', None) ->
  (∃ new, Parse (LabelFromPathMarker_JSONPath n) = Done (Value new)
          ∧ Resource_labels resource' !! LabelFromPathMarker_Name n = Some new)
  ∧ LabelFromPathMarker_ApplyToResource n resource' = Done (resource', None).
Proof.
  intros Happly.
  destruct (ApplyToResource_label_inv n resource resource' None Happly)
    as [(e & _ & [=] & _)|(new & Hparse & [(_ & -> & _)|([=] & _)])].
  split.
  - exists new. split; [done|]. unfold Resource_labels. simpl. apply lookup_insert_eq.
  - rewrite (ApplyToResource_resolved _ n _ new Hparse). simpl.
    rewrite lookup_insert_eq, bool_decide_eq_true_2 by done.
    by rewrite insert_insert_eq.
Qed.

(** X7: NamePrefixMarker.ApplyToResource always returns without an error
    and with the marker's prefix, so that of two prefix markers the one
    applied last wins; and it commutes with a LabelFromPath marker: applied
    before or after it, the resulting resource and the label marker's error
    are the same. *)
Theorem ApplyToResource_prefix (n n' : NamePrefixMarker) (l : LabelFromPathMarker)
    (resource : Resource) :
  NamePrefixMarker_ApplyToResource n resource = Done (set_MetricNamePrefix resource n, None)
  ∧ set_MetricNamePrefix (set_MetricNamePrefix resource n') n = set_MetricNamePrefix resource n
  ∧ (r ← NamePrefixMarker_ApplyToResource n resource; LabelFromPathMarker_ApplyToResource l r.1)
    = (r ← LabelFromPathMarker_ApplyToResource l resource;
       r' ← NamePrefixMarker_ApplyToResource n r.1; mret (r'.1, r.2)).
Proof.
  split; [done|]. split; [done|]. simpl.
  unfold LabelFromPathMarker_ApplyToResource. simpl.
  destruct (Parse (LabelFromPathMarker_JSONPath l)) as [[new|e]| | |]; simpl; try done.
  destruct (default ∅ (Resource_LabelsFromPath resource) !! LabelFromPathMarker_Name l)
    as [existing|]; simpl; [|done].
  case_bool_decide; simpl; [done|].
  destruct (path_differs new 0 existing) as [[]| | |]; simpl; done.
Qed.

(** ** prependPathOnGenerator *)

(** X8: prependPathOnGenerator changes nothing of a generator but the path
    under its tag, and two calls compose: the prefix given last comes first. *)
Theorem prependPathOnGenerator_twice (generator : Generator) (a b : string) (path : list string) :
  Generator_path generator = Some path ->
  ∃ g1 g2,
    prependPathOnGenerator generator a = Done g1
    ∧ prependPathOnGenerator g1 b = Done g2
    ∧ Generator_path g2 = Some (b :: a :: path)
    ∧ Generator_clear_path g1 = Generator_clear_path generator
    ∧ Generator_clear_path g2 = Generator_clear_path generator.
Proof.
  unfold Generator_path, prependPathOnGenerator, Generator_clear_path.
  destruct generator as [name help [[] gauge stateset info]]; simpl; try done.
  - destruct gauge as [g|]; [|done]. simpl. intros [= <-]. eexists _, _. by repeat split.
  - destruct stateset as [s|]; [|done]. simpl. intros [= <-]. eexists _, _. by repeat split.
  - destruct info as [i|]; [|done]. simpl. intros [= <-]. eexists _, _. by repeat split.
Qed.

(** X9: prependPathOnGenerator panics exactly on a generator whose tag is
    one of the three kinds while the payload of that kind is nil; a
    generator with any other tag is returned as it is. *)
Theorem prependPathOnGenerator_Panic_iff (generator : Generator) (pathPrefix : string) :
  (prependPathOnGenerator generator pathPrefix = Panic
   ↔ Type_ (Each generator) ≠ MetricTypeUnset ∧ Generator_path generator = None)
  ∧ (Type_ (Each generator) = MetricTypeUnset ->
     prependPathOnGenerator generator pathPrefix = Done generator).
Proof.
  unfold Generator_path, prependPathOnGenerator.
  destruct generator as [name help [[] gauge stateset info]]; simpl.
  - destruct gauge; simpl; split; try done; split; try done; by intros [_ ?].
  - destruct stateset; simpl; split; try done; split; try done; by intros [_ ?].
  - destruct info; simpl; split; try done; split; try done; by intros [_ ?].
  - split; [|done]. split; [done|]. by intros [? _].
Qed.

(** ** generatorsFromMarkers *)

Lemma asLocalGeneratorMarker_gen (val : MarkerValue) toGenerator (basePath : list string)
    (gen : Generator) :
  asLocalGeneratorMarker jsonpath_Parse val = Some toGenerator ->
  toGenerator basePath = Done gen ->
  MarkerValue_metric val = Some (Name gen)
  ∧ ∃ more, Generator_path gen = Some (basePath ++ more).
Proof.
  destruct val as [g|i|s| | |]; simpl; try done; intros [= <-] Hgen.
  - pose proof Hgen as Hpath. apply GaugeMarker_ToGenerator_path in Hpath as (add & _ & Hpath).
    unfold ToGenerator, GaugeMarker_generator, GaugeMarker_ToGenerator in Hgen.
    do 3 bind_inv Hgen. injection Hgen as <-. split; [done|]. by exists add.
  - pose proof Hgen as Hpath. apply InfoMarker_ToGenerator_path in Hpath.
    unfold ToGenerator, InfoMarker_generator, InfoMarker_ToGenerator in Hgen.
    do 2 bind_inv Hgen. injection Hgen as <-. split; [done|].
    case_bool_decide; [exists []; by rewrite app_nil_r|].
    destruct Hpath as (add & _ & Hpath). by exists add.
  - pose proof Hgen as Hpath. apply StateSetMarker_ToGenerator_path in Hpath as [Hpath _].
    unfold ToGenerator, StateSetMarker_generator, StateSetMarker_ToGenerator in Hgen.
    do 2 bind_inv Hgen. injection Hgen as <-. split; [done|].
    exists []. by rewrite app_nil_r.
Qed.

Lemma generatorsFromMarkers_vals (basePath : list string) (vals : list MarkerValue)
    (acc generators : list Generator) :
  range_fold (fun generators val =>
      match asLocalGeneratorMarker jsonpath_Parse val with
      | Some toGenerator => g ← toGenerator basePath; mret (generators ++ [g])
      | None => mret generators
      end) vals acc = Done generators ->
  ∃ added, generators = acc ++ added
           ∧ Name <$> added = omap MarkerValue_metric vals
           ∧ Forall (fun g => ∃ more, Generator_path g = Some (basePath ++ more)) added.
Proof.
  revert acc. induction vals as [|val vals IH]; intros acc; simpl.
  - intros [= <-]. exists []. by rewrite app_nil_r.
  - intros Hrun. bind_inv Hrun.
    destruct (IH _ Hrun) as (added & -> & Hnames & Hpaths).
    destruct (asLocalGeneratorMarker jsonpath_Parse val) as [toGenerator|] eqn:Hval.
    + bind_inv E. injection E as <-.
      destruct (asLocalGeneratorMarker_gen val toGenerator basePath a0 Hval E0) as [-> Hpath].
      exists (a0 :: added). rewrite <- app_assoc. split; [done|]. split.
      * rewrite fmap_cons, Hnames. done.
      * by constructor.
    + injection E as <-. exists added.
      assert (MarkerValue_metric val = None) as Hnone by (by destruct val).
      split; [done|]. split; [by rewrite Hnone|done].
Qed.

Lemma generatorsFromMarkers_range (basePath : list string) (m : MarkerValues)
    (acc generators : list Generator) :
  range_fold (fun generators (markerVals : string * list MarkerValue) =>
      range_fold (fun generators val =>
          match asLocalGeneratorMarker jsonpath_Parse val with
          | Some toGenerator => g ← toGenerator basePath; mret (generators ++ [g])
          | None => mret generators
          end) markerVals.2 generators) m acc = Done generators ->
  ∃ added, generators = acc ++ added
           ∧ Name <$> added = omap MarkerValue_metric (mjoin (snd <$> m))
           ∧ Forall (fun g => ∃ more, Generator_path g = Some (basePath ++ more)) added.
Proof.
  revert acc. induction m as [|[name vals] m IH]; intros acc; simpl.
  - intros [= <-]. exists []. by rewrite app_nil_r.
  - intros Hrun. bind_inv Hrun.
    destruct (generatorsFromMarkers_vals _ _ _ _ E) as (added1 & -> & Hnames1 & Hpaths1).
    destruct (IH _ Hrun) as (added2 & -> & Hnames2 & Hpaths2).
    exists (added1 ++ added2). rewrite <- app_assoc, fmap_app, omap_app, Hnames1, Hnames2.
    repeat split. by apply Forall_app.
Qed.

(** X10: generatorsFromMarkers returns one generator for each gauge, info
    and stateset value of the markers, in the order in which the loops
    visit them and under the metric name of the marker; values of other
    markers give nothing; and the path of every generator starts with the
    base path. *)
Theorem generatorsFromMarkers_names (m : MarkerValues) (basePath : list string)
    (generators : list Generator) :
  generatorsFromMarkers jsonpath_Parse m basePath = Done generators ->
  Name <$> generators = omap MarkerValue_metric (mjoin (snd <$> m))
  ∧ Forall (fun g => ∃ more, Generator_path g = Some (basePath ++ more)) generators.
Proof.
  unfold generatorsFromMarkers. intros (added & -> & Hnames & Hpaths)%generatorsFromMarkers_range.
  done.
Qed.

End MarkerFacts.

(** ** The walk: fields and their types *)

Section WalkFacts.

Variable jsonpath_Parse : string -> string -> string + Parser.
Variable TypesInfo_TypeOf : Package -> string -> GoType.
Variable Imports : Package -> gmap string Package.

Local Abbreviation generatorsFromMarkers := (generatorsFromMarkers jsonpath_Parse).
Local Abbreviation generatorsFor := (generatorsFor TypesInfo_TypeOf Imports).
Local Abbreviation NeedMetricsGeneratorFor_field :=
  (NeedMetricsGeneratorFor_field jsonpath_Parse TypesInfo_TypeOf Imports).
Local Abbreviation NeedMetricsGeneratorFor :=
  (NeedMetricsGeneratorFor jsonpath_Parse TypesInfo_TypeOf Imports).

Lemma generatorsFor_leaf (ctx : generatorContext) (rawType : Expr) :
  generatorsFor ctx rawType = generatorsFor ctx (Expr_leaf rawType).
Proof. induction rawType; simpl; done. Qed.

Lemma FieldInfo_name_Some (f : FieldInfo) (n : string) :
  FieldInfo_name f = Some n ->
  ∃ jsonTag, Tag_json f = Some jsonTag ∧ jsonTag ≠ "-" ∧ strings_Split_comma jsonTag !! 0 = Some n.
Proof.
  unfold FieldInfo_name. destruct (Tag_json f) as [jsonTag|]; [|done].
  case_bool_decide; [done|]. intros Hn. by exists jsonTag.
Qed.

(** The step on a field that is not skipped, up to the call of generatorsFor. *)
Lemma NeedMetricsGeneratorFor_field_named (self : TypeIdent -> parserM (list Generator))
    (typ : TypeIdent) (pkg : Package) (generators fromMarkers : list Generator) (f : FieldInfo)
    (n : string) (p : parser) :
  FieldInfo_name f = Some n ->
  typ.1 = Some pkg ->
  generatorsFromMarkers (Field_Markers f) [n] = Done fromMarkers ->
  NeedMetricsGeneratorFor_field self typ generators f p =
    (nested ← generatorsFor {| ctx_pkg := pkg; generatorRequester := self |} (RawField_Type f);
     lift (range_fold (fun generators generator =>
               g ← prependPathOnGenerator generator n; mret (generators ++ [g]))
             nested (generators ++ fromMarkers))) p.
Proof.
  intros (jsonTag & Htag & Hne & Hn)%FieldInfo_name_Some Htyp Hmarkers.
  unfold NeedMetricsGeneratorFor_field. rewrite Htag, (field_not_skipped _ Hne), Hn.
  erewrite parserM_bind_run by (by apply lift_run).
  rewrite Htyp. simpl. by erewrite parserM_bind_run by reflexivity.
Qed.

(** X11: a field whose type, under pointers and package qualifiers, is an
    array, a map, or an identifier that the type checker cannot resolve or
    resolves to a basic type, contributes the generators of its own markers
    and nothing else; the generator requester is not called, whatever it is. *)
Theorem NeedMetricsGeneratorFor_field_flat (self : TypeIdent -> parserM (list Generator))
    (typ : TypeIdent) (pkg : Package) (generators fromMarkers : list Generator) (f : FieldInfo)
    (n : string) (p : parser) :
  FieldInfo_name f = Some n ->
  typ.1 = Some pkg ->
  generatorsFromMarkers (Field_Markers f) [n] = Done fromMarkers ->
  match Expr_leaf (RawField_Type f) with
  | ArrayType _ | MapType _ _ => True
  | Ident name => TypesInfo_TypeOf pkg name = Invalid ∨ TypesInfo_TypeOf pkg name = Basic
  | _ => False
  end ->
  NeedMetricsGeneratorFor_field self typ generators f p = Done (generators ++ fromMarkers, p).
Proof.
  intros Hname Htyp Hmarkers Hleaf.
  rewrite (NeedMetricsGeneratorFor_field_named self typ pkg generators fromMarkers f n p) by done.
  rewrite generatorsFor_leaf.
  destruct (Expr_leaf (RawField_Type f)) as [name| | | | | |]; simpl; try done.
  unfold localNamedToGenerators. simpl. by destruct Hleaf as [-> | ->].
Qed.

(** X12: a field that is not skipped and whose type, under pointers and
    package qualifiers, is an inline struct or any expression other than an
    identifier, an array or a map, makes the walk exit through klog.Fatal
    with the error of the unsupported AST kind, once the field's own markers
    have given their generators. *)
Theorem NeedMetricsGeneratorFor_field_unsupported (self : TypeIdent -> parserM (list Generator))
    (typ : TypeIdent) (pkg : Package) (generators fromMarkers : list Generator) (f : FieldInfo)
    (n : string) (p : parser) :
  FieldInfo_name f = Some n ->
  typ.1 = Some pkg ->
  generatorsFromMarkers (Field_Markers f) [n] = Done fromMarkers ->
  Expr_leaf (RawField_Type f) = StructType ∨ Expr_leaf (RawField_Type f) = OtherExpr ->
  NeedMetricsGeneratorFor_field self typ generators f p = Fatal unsupported_AST_kind.
Proof.
  intros Hname Htyp Hmarkers Hleaf.
  rewrite (NeedMetricsGeneratorFor_field_named self typ pkg generators fromMarkers f n p) by done.
  rewrite generatorsFor_leaf. by destruct Hleaf as [-> | ->].
Qed.

(** X13: a field that is not skipped and whose type is a named type makes
    the walk exit through klog.Fatal when the parser has no info for that
    type: the type is looked up in the field's own package when it is
    declared there, and otherwise in the package that the field's package
    imports under the path of the type's package, which is nil when there
    is no such import. *)
Theorem NeedMetricsGeneratorFor_field_no_info (fuel : nat) (typ : TypeIdent) (pkg tpkg : Package)
    (generators fromMarkers : list Generator) (f : FieldInfo) (n ident tname : string) (p : parser) :
  FieldInfo_name f = Some n ->
  typ.1 = Some pkg ->
  generatorsFromMarkers (Field_Markers f) [n] = Done fromMarkers ->
  Expr_leaf (RawField_Type f) = Ident ident ->
  TypesInfo_TypeOf pkg ident = Named tpkg tname ->
  let target : TypeIdent :=
    (if bool_decide (tpkg = pkg) then Some pkg
     else if bool_decide (tpkg = "") then Some pkg else Imports pkg !! tpkg, tname) in
  FlattenedMetrics p !! target = None ->
  Types p !! target = None ->
  NeedMetricsGeneratorFor_field (NeedMetricsGeneratorFor (S fuel)) typ generators f p
    = Fatal expected_info.
Proof.
  intros Hname Htyp Hmarkers Hleaf Hnamed target Hflat Htypes.
  rewrite (NeedMetricsGeneratorFor_field_named _ typ pkg generators fromMarkers f n p) by done.
  apply parserM_bind_Fatal. rewrite generatorsFor_leaf, Hleaf. simpl.
  unfold localNamedToGenerators. simpl. rewrite Hnamed.
  unfold requestGenerator. simpl.
  assert ((if bool_decide ((if bool_decide (tpkg = pkg) then "" else tpkg) ≠ "")
           then Imports pkg !! (if bool_decide (tpkg = pkg) then "" else tpkg)
           else Some pkg, tname) = target) as ->.
  { unfold target. repeat case_bool_decide; simplify_eq; done. }
  erewrite parserM_bind_run by reflexivity.
  rewrite Hflat, bool_decide_eq_false_2 by (by intros [? ?]). by rewrite Htypes.
Qed.

Lemma range_foldM_app {A B} (body : B -> A -> parserM B) (l1 l2 : list A) (acc : B) (p : parser) :
  range_foldM body (l1 ++ l2) acc p = (acc' ← range_foldM body l1 acc; range_foldM body l2 acc') p.
Proof.
  revert acc p. induction l1 as [|x l1 IH]; intros acc p; simpl; [done|].
  unfold mbind, parserM_bind. destruct (body acc x p) as [[acc' p']| | |]; done || apply IH.
Qed.

Lemma NeedMetricsGeneratorFor_field_skipped (self : TypeIdent -> parserM (list Generator))
    (typ : TypeIdent) (generators : list Generator) (f : FieldInfo) (p : parser) :
  FieldInfo_skipped f ->
  NeedMetricsGeneratorFor_field self typ generators f p = Done (generators, p).
Proof. unfold NeedMetricsGeneratorFor_field. by intros [-> | ->]. Qed.

(** X14: a field without json tag, or with the json tag "-", contributes
    nothing, whatever its markers and its type (also a type that would be
    fatal on another field): the loop over the fields gives the same with
    the field as without it. *)
Theorem NeedMetricsGeneratorFor_skips (self : TypeIdent -> parserM (list Generator))
    (typ : TypeIdent) (before after : list FieldInfo) (f : FieldInfo)
    (generators : list Generator) (p : parser) :
  FieldInfo_skipped f ->
  range_foldM (NeedMetricsGeneratorFor_field self typ) (before ++ f :: after) generators p
  = range_foldM (NeedMetricsGeneratorFor_field self typ) (before ++ after) generators p.
Proof.
  intros Hskip. rewrite !range_foldM_app. unfold mbind, parserM_bind.
  destruct (range_foldM _ before generators p) as [[acc p']| | |]; try done.
  rewrite range_foldM_cons. by erewrite parserM_bind_run by (by apply NeedMetricsGeneratorFor_field_skipped).
Qed.

(** What the step on a field adds: generators whose path starts with the
    external name of the field. *)
Lemma NeedMetricsGeneratorFor_field_adds (fuel : nat) (typ : TypeIdent) (generators gens : list Generator)
    (f : FieldInfo) (p p' : parser) :
  NeedMetricsGeneratorFor_field (NeedMetricsGeneratorFor fuel) typ generators f p = Done (gens, p') ->
  ∃ added, gens = generators ++ added
           ∧ Forall (fun g => ∃ n more, FieldInfo_name f = Some n
                                        ∧ Generator_path g = Some (n :: more)) added.
Proof.
  unfold NeedMetricsGeneratorFor_field, FieldInfo_name.
  destruct (Tag_json f) as [jsonTag|]; [|intros [= <- <-]; exists []; by rewrite app_nil_r].
  destruct (bool_decide (length _ = 1) && bool_decide (_ !! 0 = Some "-")) eqn:Hskip;
    [intros [= <- <-]; exists []; by rewrite app_nil_r|].
  assert (jsonTag ≠ "-") as Hne by (intros ->; done).
  rewrite bool_decide_eq_false_2 by done.
  destruct (strings_Split_comma jsonTag !! 0) as [n|]; [|done].
  intros (fromMarkers & p1 & [Hmarkers Hp1]%lift_Done & Hrun)%parserM_bind_Done.
  simpl in Hmarkers, Hp1. subst p1.
  apply parserM_bind_Done in Hrun as (ctx & p2 & Hctx & Hrun).
  destruct typ as [[pkg|] tname]; simpl in Hctx; [|done]. injection Hctx as <- <-.
  apply parserM_bind_Done in Hrun as (nested & p3 & Hnested & [Hrun Hp3]%lift_Done).
  simpl in Hrun, Hp3. subst p'.
  apply generatorsFor_pure in Hnested as [-> Hwf];
    [|intros typ'; apply NeedMetricsGeneratorFor_pure].
  destruct (prepend_range n nested (generators ++ fromMarkers) Hwf) as (nested' & Hrun' & Hall & _).
  rewrite Hrun' in Hrun. injection Hrun as <-.
  exists (fromMarkers ++ nested'). rewrite app_assoc. split; [done|].
  apply Forall_app. split.
  - apply generatorsFromMarkers_names in Hmarkers as [_ Hpaths].
    eapply Forall_impl; [exact Hpaths|]. intros g [more Hg]. by exists n, more.
  - clear Hrun'. revert Hwf. induction Hall as [|g g' l l' (Hp & _ & _) _ IH]; intros Hwf; [done|].
    apply Forall_cons in Hwf as [[path Hpath] Hwf]. constructor; [|by apply IH].
    exists n, path. by rewrite Hp, Hpath.
Qed.

(** X15: the generators that NeedMetricsGeneratorFor returns for a type
    begin with the generators of the type's own markers, made with the
    empty base path; every generator after them has a path that starts
    with the external name of one of the type's fields. *)
Theorem NeedMetricsGeneratorFor_shape (fuel : nat) (typ : TypeIdent) (p p' : parser)
    (gens : list Generator) :
  FlattenedMetrics p !! typ = None ->
  NeedMetricsGeneratorFor (S fuel) typ p = Done (gens, p') ->
  ∃ info fromType fromFields,
    Types p !! typ = Some info
    ∧ generatorsFromMarkers (Type_Markers info) [] = Done fromType
    ∧ gens = fromType ++ fromFields
    ∧ Forall (fun g => ∃ f n more, f ∈ Fields info ∧ FieldInfo_name f = Some n
                                   ∧ Generator_path g = Some (n :: more)) fromFields.
Proof.
  intros Hflat. rewrite NeedMetricsGeneratorFor_S.
  intros (p0 & p1 & [= <- <-] & Hrun)%parserM_bind_Done.
  rewrite Hflat, bool_decide_eq_false_2 in Hrun by (by intros [? ?]).
  destruct (Types p !! typ) as [info|]; [|done].
  apply parserM_bind_Done in Hrun as (fromType & p1 & [Hmarkers Hp1]%lift_Done & Hrun).
  simpl in Hmarkers, Hp1. subst p1. exists info, fromType.
  assert (∀ fields acc p1 p2 out,
            range_foldM (NeedMetricsGeneratorFor_field (NeedMetricsGeneratorFor fuel) typ)
                        fields acc p1 = Done (out, p2) ->
            ∃ added, out = acc ++ added
                     ∧ Forall (fun g => ∃ f n more, f ∈ fields ∧ FieldInfo_name f = Some n
                                                    ∧ Generator_path g = Some (n :: more)) added)
    as Hloop.
  { clear. induction fields as [|f fields IH]; intros acc p1 p2 out; simpl.
    - intros [= <- <-]. exists []. by rewrite app_nil_r.
    - intros (acc' & p3 & Hstep & Hrest)%parserM_bind_Done.
      apply NeedMetricsGeneratorFor_field_adds in Hstep as (added1 & -> & Hadded1).
      apply IH in Hrest as (added2 & -> & Hadded2).
      exists (added1 ++ added2). rewrite app_assoc. split; [done|].
      apply Forall_app. split.
      + eapply Forall_impl; [exact Hadded1|]. intros g (n & more & ? & ?).
        exists f, n, more. by repeat split; [left|..].
      + eapply Forall_impl; [exact Hadded2|]. intros g (f' & n & more & ? & ? & ?).
        exists f', n, more. by repeat split; [right|..]. }
  apply Hloop in Hrun as (fromFields & -> & Hfields). by exists fromFields.
Qed.

(** X16: a call of NeedMetricsGeneratorFor that returns has written nothing
    to the parser, and in every generator it returns the payload under the
    tag is there, so that prependPathOnGenerator does not panic on it. *)
Theorem NeedMetricsGeneratorFor_writes_nothing (fuel : nat) (typ : TypeIdent) (p p' : parser)
    (gens : list Generator) :
  NeedMetricsGeneratorFor fuel typ p = Done (gens, p') ->
  p' = p ∧ Forall (fun g => is_Some (Generator_path g)) gens.
Proof. apply NeedMetricsGeneratorFor_pure. Qed.

(** ** NeedResourceFor *)

Variable GVKMarkerName : string.
Variable sort_Slice : (Generator -> Generator -> bool) -> list Generator -> list Generator.

Local Abbreviation declares_kind := (declares_kind GVKMarkerName).
Local Abbreviation NeedResourceFor_metrics :=
  (NeedResourceFor_metrics jsonpath_Parse TypesInfo_TypeOf Imports GVKMarkerName sort_Slice).
Local Abbreviation NeedResourceFor_markers := (NeedResourceFor_markers jsonpath_Parse).
Local Abbreviation NeedResourceFor_first_loop :=
  (NeedResourceFor_first_loop jsonpath_Parse TypesInfo_TypeOf Imports GVKMarkerName sort_Slice).
Local Abbreviation NeedResourceFor :=
  (NeedResourceFor jsonpath_Parse TypesInfo_TypeOf Imports GVKMarkerName sort_Slice).

(** The step of the first loop, when it returns. *)
Lemma NeedResourceFor_metrics_inv (fuel : nat) (groupKind : GroupKind) (resource resource' : Resource)
    (pkg : Package) (p p' : parser) :
  NeedResourceFor_metrics fuel groupKind resource pkg p = Done (resource', p') ->
  p' = p
  ∧ ((declares_kind p groupKind pkg = false ∧ resource' = resource)
     ∨ (declares_kind p groupKind pkg = true
        ∧ ∃ gens, NeedMetricsGeneratorFor fuel (Some pkg, groupKind.2) p = Done (gens, p)
                  ∧ resource' = set_Version
                                  (set_Metrics resource
                                     (sort_Slice (fun a b => String.ltb (Name a) (Name b)) gens))
                                  (GV_Version (GroupVersions_lookup p pkg)))).
Proof.
  unfold NeedResourceFor_metrics, declares_kind.
  intros (p0 & p1 & [= <- <-] & Hrun)%parserM_bind_Done.
  destruct (Types p !! ((Some pkg, groupKind.2) : TypeIdent)) as [typeInfo|];
    [|injection Hrun as <- <-; split; [done|by left]].
  destruct (MarkerValues_Get _ _) as [marker|];
    [|injection Hrun as <- <-; split; [done|left; split; [|done]];
      apply bool_decide_eq_false_2; by intros [? ?]].
  apply parserM_bind_Done in Hrun as (gens & p1 & Hgens & Hrun).
  pose proof Hgens as Hpure. apply NeedMetricsGeneratorFor_pure in Hpure as [-> _].
  simpl in Hrun. case_bool_decide; [done|].
  apply parserM_bind_Done in Hrun as (p0 & p1 & [= <- <-] & [= <- <-]).
  split; [done|]. right. split; [by apply bool_decide_eq_true_2|]. by exists gens.
Qed.

(** The first loop, when it returns. *)
Lemma NeedResourceFor_first_loop_inv (fuel : nat) (groupKind : GroupKind) (packages : list Package)
    (resource resource' : Resource) (p p' : parser) :
  range_foldM (NeedResourceFor_metrics fuel groupKind) packages resource p = Done (resource', p') ->
  p' = p
  ∧ MetricNamePrefix resource' = MetricNamePrefix resource
  ∧ Resource_LabelsFromPath resource' = Resource_LabelsFromPath resource
  ∧ Group (Resource_GroupVersionKind resource') = Group (Resource_GroupVersionKind resource)
  ∧ Kind (Resource_GroupVersionKind resource') = Kind (Resource_GroupVersionKind resource)
  ∧ ∀ gens_of,
      (∀ pkg, pkg ∈ packages -> declares_kind p groupKind pkg = true ->
         NeedMetricsGeneratorFor fuel (Some pkg, groupKind.2) p = Done (gens_of pkg, p)) ->
      let last_pkg := last (filter (fun pkg => declares_kind p groupKind pkg = true) packages) in
      Metrics resource'
        = default (Metrics resource)
            ((fun pkg => sort_Slice (fun a b => String.ltb (Name a) (Name b)) (gens_of pkg))
               <$> last_pkg)
      ∧ Version (Resource_GroupVersionKind resource')
        = default (Version (Resource_GroupVersionKind resource))
            ((fun pkg => GV_Version (GroupVersions_lookup p pkg)) <$> last_pkg).
Proof.
  revert resource. induction packages as [|pkg packages IH]; intros resource; simpl.
  - intros [= <- <-]. by repeat split.
  - intros (resource1 & p1 & Hstep & Hrest)%parserM_bind_Done.
    apply NeedResourceFor_metrics_inv in Hstep as [-> Hstep].
    apply IH in Hrest as (-> & Hprefix & Hlabels & Hgroup & Hkind & Hmetrics).
    assert (MetricNamePrefix resource1 = MetricNamePrefix resource
            ∧ Resource_LabelsFromPath resource1 = Resource_LabelsFromPath resource
            ∧ Group (Resource_GroupVersionKind resource1) = Group (Resource_GroupVersionKind resource)
            ∧ Kind (Resource_GroupVersionKind resource1) = Kind (Resource_GroupVersionKind resource))
      as (Hprefix1 & Hlabels1 & Hgroup1 & Hkind1)
      by (destruct Hstep as [[_ ->]|(_ & gens & _ & ->)]; done).
    rewrite Hprefix, Hlabels, Hgroup, Hkind. do 5 (split; [done|]).
    intros gens_of Hgens.
    destruct (Hmetrics gens_of) as [HM HV]; [intros pkg' Hin; apply Hgens; by right|].
    rewrite HM, HV. rewrite filter_cons.
    destruct Hstep as [[Hdecl ->]|(Hdecl & gens & Hrun & ->)].
    + rewrite decide_False by congruence. done.
    + rewrite decide_True by done. rewrite last_cons.
      rewrite (Hgens pkg) in Hrun by (by left || done). injection Hrun as <-.
      by destruct (last (filter _ packages)).
Qed.

Lemma only_errors_added_refl (p : parser) : only_errors_added p p.
Proof. by repeat split. Qed.

Lemma only_errors_added_trans (p1 p2 p3 : parser) :
  only_errors_added p1 p2 -> only_errors_added p2 p3 -> only_errors_added p1 p3.
Proof.
  intros (H1 & H2 & H3 & H4 & H5) (K1 & K2 & K3 & K4 & K5).
  repeat split; try congruence. by etrans.
Qed.

Lemma markers_applied_ret (resource : Resource) (p : parser) :
  markers_applied resource p (Done (resource, p)).
Proof. split; [done|]. split; [done|]. apply only_errors_added_refl. Qed.

Lemma asResourceMarker_applied (val : MarkerValue) applyToResource (resource : Resource) :
  asResourceMarker jsonpath_Parse val = Some applyToResource ->
  match applyToResource resource with
  | Done (resource', _) =>
      Resource_GroupVersionKind resource' = Resource_GroupVersionKind resource
      ∧ Metrics resource' = Metrics resource
  | Panic => True
  | _ => False
  end.
Proof.
  intros Hval. pose proof (asResourceMarker_gvk_kept _ val applyToResource resource Hval) as Hkept.
  destruct (applyToResource resource) as [[resource' err]| | |] eqn:Happly; try done.
  split; [done|]. destruct val as [| | |n|l|]; simpl in Hval; try done; injection Hval as <-.
  - by injection Happly as <- <-.
  - apply ApplyToResource_label_inv in Happly
      as [(e & _ & _ & ->)|(new & _ & [(_ & -> & _)|(_ & -> & _)])]; done.
Qed.

Lemma range_foldM_markers_applied {A} (body : Resource -> A -> parserM Resource) (l : list A)
    (resource : Resource) (p : parser) :
  (∀ resource x p, markers_applied resource p (body resource x p)) ->
  markers_applied resource p (range_foldM body l resource p).
Proof.
  intros Hbody. revert resource p. induction l as [|x l IH]; intros resource p; simpl.
  - apply markers_applied_ret.
  - unfold mbind, parserM_bind. specialize (Hbody resource x p).
    destruct (body resource x p) as [[resource1 p1]| | |]; try done.
    specialize (IH resource1 p1). unfold markers_applied in *.
    destruct (range_foldM body l resource1 p1) as [[resource2 p2]| | |]; try done.
    destruct Hbody as (? & ? & ?), IH as (? & ? & ?).
    split; [congruence|]. split; [congruence|]. by eapply only_errors_added_trans.
Qed.

Lemma NeedResourceFor_markers_applied (groupKind : GroupKind) (resource : Resource)
    (pkg : Package) (p : parser) :
  markers_applied resource p (NeedResourceFor_markers groupKind resource pkg p).
Proof.
  unfold NeedResourceFor_markers. erewrite parserM_bind_run by reflexivity.
  destruct (Types p !! _) as [typeInfo|]; [|apply markers_applied_ret].
  apply range_foldM_markers_applied. clear resource p. intros resource markerVals p.
  apply range_foldM_markers_applied. clear resource p. intros resource val p.
  destruct (asResourceMarker jsonpath_Parse val) as [applyToResource|] eqn:Hval;
    [|apply markers_applied_ret].
  pose proof (asResourceMarker_applied val applyToResource resource Hval) as Happly.
  unfold mbind, parserM_bind, lift.
  destruct (applyToResource resource) as [[resource' [err|]]| | |]; simpl; try done.
  - destruct Happly. split; [done|]. split; [done|].
    repeat split; try done. simpl. by apply prefix_app_r.
  - destruct Happly. split; [done|]. split; [done|]. apply only_errors_added_refl.
Qed.

(** The ways in which NeedResourceFor returns for a pair not yet stored. *)
Lemma NeedResourceFor_inv (fuel : nat) (groupKind : GroupKind) (p p' : parser) :
  CustomResourceStates p !! groupKind = None ->
  NeedResourceFor fuel groupKind p = Done (tt, p') ->
  ∃ resource1 resource2 p2,
    range_foldM (NeedResourceFor_metrics fuel groupKind) (NeedResourceFor_packages p groupKind)
      (NeedResourceFor_resource groupKind) p = Done (resource1, p)
    ∧ Resource_GroupVersionKind resource2 = Resource_GroupVersionKind resource1
    ∧ Metrics resource2 = Metrics resource1
    ∧ only_errors_added p p2
    ∧ PackageErrors p' = PackageErrors p2
    ∧ CustomResourceStates p' = <[groupKind := resource2]> (CustomResourceStates p).
Proof.
  intros Hnew. unfold NeedResourceFor. erewrite parserM_bind_run by reflexivity.
  rewrite Hnew, bool_decide_eq_false_2 by (by intros [? ?]).
  intros (resource1 & p1 & Hfirst & Hrun)%parserM_bind_Done.
  unfold NeedResourceFor_first_loop in Hfirst.
  pose proof Hfirst as Hp1. apply NeedResourceFor_first_loop_inv in Hp1 as [-> _].
  apply parserM_bind_Done in Hrun as (resource2 & p2 & Hsecond & [= <-]).
  pose proof (range_foldM_markers_applied (NeedResourceFor_markers groupKind)
                (NeedResourceFor_packages p groupKind) resource1 p
                (NeedResourceFor_markers_applied groupKind)) as Happlied.
  rewrite Hsecond in Happlied. destruct Happlied as (Hgvk & Hmetrics & Hp2).
  exists resource1, resource2, p2. do 5 (split; [done|]).
  simpl. destruct Hp2 as (_ & _ & -> & _). done.
Qed.

(** X17: NeedResourceFor is memoized per group and kind: when a call
    returns, the pair has a resource in CustomResourceStates, and any
    further call for the pair returns at once and leaves the parser as it
    is, with whatever fuel. *)
Theorem NeedResourceFor_memoized (fuel fuel' : nat) (groupKind : GroupKind) (p p' : parser) :
  NeedResourceFor fuel groupKind p = Done (tt, p') ->
  is_Some (CustomResourceStates p' !! groupKind)
  ∧ NeedResourceFor fuel' groupKind p' = Done (tt, p').
Proof.
  intros Hrun.
  assert (is_Some (CustomResourceStates p' !! groupKind)) as Hsome.
  { destruct (CustomResourceStates p !! groupKind) as [resource|] eqn:Hnew.
    - unfold NeedResourceFor in Hrun. erewrite parserM_bind_run in Hrun by reflexivity.
      rewrite Hnew, bool_decide_eq_true_2 in Hrun by (by eexists).
      injection Hrun as <-. rewrite Hnew. by eexists.
    - apply NeedResourceFor_inv in Hrun as (r1 & r2 & p2 & _ & _ & _ & _ & _ & ->); [|done].
      rewrite lookup_insert_eq. by eexists. }
  split; [done|]. unfold NeedResourceFor. erewrite parserM_bind_run by reflexivity.
  by rewrite bool_decide_eq_true_2.
Qed.

(** X18: a call of NeedResourceFor that returns changes nothing of the
    parser but the resource stored for its own group and kind and the
    errors of the packages, to which it only adds: the types, the group
    versions, FlattenedMetrics and the resources of all other pairs are as
    before. *)
Theorem NeedResourceFor_frame (fuel : nat) (groupKind : GroupKind) (p p' : parser) :
  NeedResourceFor fuel groupKind p = Done (tt, p') ->
  Types p' = Types p
  ∧ GroupVersions p' = GroupVersions p
  ∧ FlattenedMetrics p' = FlattenedMetrics p
  ∧ PackageErrors p `prefix_of` PackageErrors p'
  ∧ ∀ other, other ≠ groupKind ->
      CustomResourceStates p' !! other = CustomResourceStates p !! other.
Proof.
  intros Hrun. destruct (CustomResourceStates p !! groupKind) as [resource|] eqn:Hnew.
  - unfold NeedResourceFor in Hrun. erewrite parserM_bind_run in Hrun by reflexivity.
    rewrite Hnew, bool_decide_eq_true_2 in Hrun by (by eexists).
    injection Hrun as <-. by repeat split.
  - unfold NeedResourceFor in Hrun. erewrite parserM_bind_run in Hrun by reflexivity.
    rewrite Hnew, bool_decide_eq_false_2 in Hrun by (by intros [? ?]).
    apply parserM_bind_Done in Hrun as (resource1 & p1 & Hfirst & Hrun).
    unfold NeedResourceFor_first_loop in Hfirst.
    apply NeedResourceFor_first_loop_inv in Hfirst as [-> _].
    apply parserM_bind_Done in Hrun as (resource2 & p2 & Hsecond & [= <-]).
    pose proof (range_foldM_markers_applied (NeedResourceFor_markers groupKind)
                  (NeedResourceFor_packages p groupKind) resource1 p
                  (NeedResourceFor_markers_applied groupKind)) as Happlied.
    rewrite Hsecond in Happlied. destruct Happlied as (_ & _ & H1 & H2 & H3 & H4 & H5).
    simpl. repeat split; try done.
    intros other Hne. rewrite H3. by apply lookup_insert_ne.
Qed.

(** X19: when no package of the group declares the kind with the gvk
    marker, NeedResourceFor needs no walk and does not exit through
    klog.Fatal: it returns or panics, with any fuel, and when it returns the
    stored resource has no metrics and the empty Version, whatever resource
    markers the types of that name carry. *)
Theorem NeedResourceFor_untracked (fuel : nat) (groupKind : GroupKind) (p : parser) :
  CustomResourceStates p !! groupKind = None ->
  (∀ pkg, pkg ∈ NeedResourceFor_packages p groupKind -> declares_kind p groupKind pkg = false) ->
  NeedResourceFor fuel groupKind p = Panic
  ∨ ∃ p' resource,
      NeedResourceFor fuel groupKind p = Done (tt, p')
      ∧ CustomResourceStates p' !! groupKind = Some resource
      ∧ Metrics resource = []
      ∧ Resource_GroupVersionKind resource
        = {| Group := groupKind.1; Version := ""; Kind := groupKind.2 |}.
Proof.
  intros Hnew Hnone.
  assert (versions_of GVKMarkerName p groupKind (NeedResourceFor_packages p groupKind) = [])
    as Hversions.
  { unfold versions_of. generalize (NeedResourceFor_packages p groupKind) Hnone.
    induction l as [|pkg l IH]; intros Hl; [done|]. rewrite filter_cons.
    rewrite decide_False by (rewrite Hl; [done|by left]).
    apply IH. intros pkg' Hin. apply Hl. by right. }
  pose proof (NeedResourceFor_first_loop_run jsonpath_Parse TypesInfo_TypeOf Imports GVKMarkerName
                sort_Slice fuel groupKind p (NeedResourceFor_packages p groupKind)
                (NeedResourceFor_resource groupKind)) as Hfirst.
  rewrite Hversions in Hfirst. simpl in Hfirst.
  destruct Hfirst as (resource1 & Hfirst & Hversion & Hgroup & Hkind).
  { intros pkg Hin Hdecl. rewrite Hnone in Hdecl; done. }
  pose proof Hfirst as Hmetrics.
  apply NeedResourceFor_first_loop_inv in Hmetrics as (_ & _ & _ & _ & _ & Hmetrics).
  destruct (Hmetrics (fun _ => [])) as [Hmetrics1 _].
  { intros pkg Hin Hdecl. rewrite Hnone in Hdecl; done. }
  assert (filter (fun pkg => declares_kind p groupKind pkg = true)
                 (NeedResourceFor_packages p groupKind) = []) as Hfilter.
  { generalize (NeedResourceFor_packages p groupKind) Hnone.
    induction l as [|pkg l IH]; intros Hl; [done|]. rewrite filter_cons.
    rewrite decide_False by (rewrite Hl; [done|by left]).
    apply IH. intros pkg' Hin. apply Hl. by right. }
  rewrite Hfilter in Hmetrics1. simpl in Hmetrics1.
  unfold NeedResourceFor. erewrite parserM_bind_run by reflexivity.
  rewrite Hnew, bool_decide_eq_false_2 by (by intros [? ?]).
  unfold NeedResourceFor_first_loop. erewrite parserM_bind_run by exact Hfirst.
  pose proof (range_foldM_markers_applied (NeedResourceFor_markers groupKind)
                (NeedResourceFor_packages p groupKind) resource1 p
                (NeedResourceFor_markers_applied groupKind)) as Happlied.
  destruct (range_foldM (NeedResourceFor_markers groupKind) _ resource1 p)
    as [[resource2 p2]| | |] eqn:Hsecond; try done.
  - right. erewrite parserM_bind_run by exact Hsecond.
    destruct Happlied as (Hgvk & Hmetrics2 & _).
    eexists _, resource2. split; [reflexivity|]. simpl. rewrite lookup_insert_eq.
    split; [done|]. split; [congruence|].
    rewrite Hgvk. destruct (Resource_GroupVersionKind resource1). simpl in *. by subst.
  - left. by apply parserM_bind_Panic.
Qed.

(** X20: when NeedResourceFor returns for a pair not yet stored, the
    metrics of the stored resource are the generators that
    NeedMetricsGeneratorFor gives for the type in the last package that
    declares the kind with the gvk marker, as sort.Slice orders them by
    name; the resource markers applied afterwards do not touch them. *)
Theorem NeedResourceFor_metrics_sorted (fuel : nat) (groupKind : GroupKind) (p p' : parser)
    (gens_of : Package -> list Generator) :
  CustomResourceStates p !! groupKind = None ->
  (∀ pkg, pkg ∈ NeedResourceFor_packages p groupKind -> declares_kind p groupKind pkg = true ->
     NeedMetricsGeneratorFor fuel (Some pkg, groupKind.2) p = Done (gens_of pkg, p)) ->
  NeedResourceFor fuel groupKind p = Done (tt, p') ->
  ∃ resource,
    CustomResourceStates p' !! groupKind = Some resource
    ∧ Metrics resource
      = default []
          ((fun pkg => sort_Slice (fun a b => String.ltb (Name a) (Name b)) (gens_of pkg))
             <$> last (filter (fun pkg => declares_kind p groupKind pkg = true)
                              (NeedResourceFor_packages p groupKind))).
Proof.
  intros Hnew Hgens Hrun.
  apply NeedResourceFor_inv in Hrun as (r1 & r2 & p2 & Hfirst & _ & Hmetrics & _ & _ & Hstates);
    [|done].
  apply NeedResourceFor_first_loop_inv in Hfirst as (_ & _ & _ & _ & _ & Hfirst).
  destruct (Hfirst gens_of Hgens) as [Hfirst1 _].
  exists r2. rewrite Hstates, lookup_insert_eq. split; [done|]. by rewrite Hmetrics, Hfirst1.
Qed.

End WalkFacts.

(** ** Generate: the comparison of the resources *)

(** X21: with a prefix on one resource only, the comparison panics when the
    first resource is the one without prefix (it dereferences its nil
    prefix), and answers false when the second is; and a resource whose
    prefix is not empty is less than itself. *)
Theorem Generate_less_mixed (a : string) (c : ascii) (gi gj : GroupVersionKind)
    (li lj : option (gmap string (list string))) (mi mj : list Generator) :
  Generate_less {| Resource_GroupVersionKind := gi; MetricNamePrefix := None;
                   Resource_LabelsFromPath := li; Metrics := mi |}
                {| Resource_GroupVersionKind := gj; MetricNamePrefix := Some a;
                   Resource_LabelsFromPath := lj; Metrics := mj |} = Panic
  ∧ Generate_less {| Resource_GroupVersionKind := gi; MetricNamePrefix := Some a;
                     Resource_LabelsFromPath := li; Metrics := mi |}
                  {| Resource_GroupVersionKind := gj; MetricNamePrefix := None;
                     Resource_LabelsFromPath := lj; Metrics := mj |} = Done false
  ∧ Generate_less {| Resource_GroupVersionKind := gi; MetricNamePrefix := Some (String c a);
                     Resource_LabelsFromPath := li; Metrics := mi |}
                  {| Resource_GroupVersionKind := gi; MetricNamePrefix := Some (String c a);
                     Resource_LabelsFromPath := li; Metrics := mi |} = Done true.
Proof. repeat split. Qed.

Lemma String_compare_refl (s : string) : String.compare s s = Eq.
Proof.
  pose proof (String.compare_antisym s s) as H. by destruct (String.compare s s).
Qed.

Lemma String_ltb_trans (a b c : string) :
  String.ltb a b = true -> String.ltb b c = true -> String.ltb a c = true.
Proof.
  unfold String.ltb. intros Hab Hbc.
  assert (OrderedTypeEx.String_as_OT.cmp a b = Lt) as Hab'
    by (unfold OrderedTypeEx.String_as_OT.cmp; by destruct (String.compare a b)).
  assert (OrderedTypeEx.String_as_OT.cmp b c = Lt) as Hbc'
    by (unfold OrderedTypeEx.String_as_OT.cmp; by destruct (String.compare b c)).
  apply OrderedTypeEx.String_as_OT.cmp_lt in Hab', Hbc'.
  pose proof (OrderedTypeEx.String_as_OT.lt_trans _ _ _ Hab' Hbc') as Hac.
  apply OrderedTypeEx.String_as_OT.cmp_lt in Hac.
  unfold OrderedTypeEx.String_as_OT.cmp in Hac. by rewrite Hac.
Qed.

(** X22: on resources without prefix the comparison always returns, and it
    is a strict order of the strings Group/Version/Kind: no resource is
    less than itself, two resources are not less than each other both ways,
    the comparison is transitive, and of two resources whose strings differ
    one is less than the other. *)
Theorem Generate_less_unprefixed (r1 r2 r3 : Resource) :
  MetricNamePrefix r1 = None -> MetricNamePrefix r2 = None -> MetricNamePrefix r3 = None ->
  Generate_less r1 r1 = Done false
  ∧ (Generate_less r1 r2 = Done true -> Generate_less r2 r1 = Done false)
  ∧ (Generate_less r1 r2 = Done true -> Generate_less r2 r3 = Done true ->
     Generate_less r1 r3 = Done true)
  ∧ (GroupVersionKind_string (Resource_GroupVersionKind r1)
       ≠ GroupVersionKind_string (Resource_GroupVersionKind r2) ->
     Generate_less r1 r2 = Done true ∨ Generate_less r2 r1 = Done true).
Proof.
  unfold Generate_less. intros -> -> ->. simpl.
  set (a := GroupVersionKind_string (Resource_GroupVersionKind r1)).
  set (b := GroupVersionKind_string (Resource_GroupVersionKind r2)).
  set (c := GroupVersionKind_string (Resource_GroupVersionKind r3)).
  split; [|split; [|split]].
  - unfold String.ltb. by rewrite String_compare_refl.
  - intros [= Hab]. f_equal. unfold String.ltb in *.
    rewrite (String.compare_antisym b a). by destruct (String.compare a b).
  - intros [= Hab] [= Hbc]. f_equal. by eapply String_ltb_trans.
  - intros Hne. unfold String.ltb. rewrite (String.compare_antisym b a).
    destruct (String.compare a b) eqn:Hcmp; simpl; [|by left|by right].
    by apply String.compare_eq_iff in Hcmp.
Qed.

(** ** The further properties on the sample inputs *)

(** The markers of the three kinds with the one label self: each generator
    has the label self, and the generator of the gauge has no label team. *)
Lemma ToGenerator_label_keys_witness :
  (is_Some (Generator_label "self" self_gauge_generator)
   ↔ is_Some (GaugeMarker_LabelsFromPath self_gauge !! "self"))
  ∧ is_Some (GaugeMarker_LabelsFromPath self_gauge !! "self")
  ∧ (is_Some (Generator_label "team" self_gauge_generator)
     ↔ is_Some (GaugeMarker_LabelsFromPath self_gauge !! "team"))
  ∧ GaugeMarker_LabelsFromPath self_gauge !! "team" = None
  ∧ (∃ gen, InfoMarker_ToGenerator chain_reader self_info [] = Done gen
       ∧ (is_Some (Generator_label "self" gen)
          ↔ is_Some (InfoMarker_LabelsFromPath self_info !! "self"))
       ∧ is_Some (InfoMarker_LabelsFromPath self_info !! "self"))
  ∧ (∃ gen, StateSetMarker_ToGenerator chain_reader self_stateset [] = Done gen
       ∧ (is_Some (Generator_label "self" gen)
          ↔ is_Some (StateSetMarker_LabelsFromPath self_stateset !! "self"))
       ∧ is_Some (StateSetMarker_LabelsFromPath self_stateset !! "self")).
Proof.
  split; [|split; [|split; [|split; [|split]]]].
  - apply (proj1 (ToGenerator_label_keys chain_reader [] "self") self_gauge self_gauge_generator).
    vm_compute. reflexivity.
  - vm_compute. by eexists.
  - apply (proj1 (ToGenerator_label_keys chain_reader [] "team") self_gauge self_gauge_generator).
    vm_compute. reflexivity.
  - vm_compute. reflexivity.
  - eexists. split; [vm_compute; reflexivity|]. split; [|vm_compute; by eexists].
    apply (proj1 (proj2 (ToGenerator_label_keys chain_reader [] "self")) self_info).
    vm_compute. reflexivity.
  - eexists. split; [vm_compute; reflexivity|]. split; [|vm_compute; by eexists].
    apply (proj2 (proj2 (ToGenerator_label_keys chain_reader [] "self")) self_stateset).
    vm_compute. reflexivity.
Defined.

(** The label team on a resource without label map. *)
Lemma ApplyToResource_label_frame_witness :
  is_Some (Resource_LabelsFromPath team_added)
  ∧ MetricNamePrefix team_added = MetricNamePrefix unlabelled_resource
  ∧ Metrics team_added = Metrics unlabelled_resource
  ∧ Resource_GroupVersionKind team_added = Resource_GroupVersionKind unlabelled_resource
  ∧ (∀ k path, Resource_labels unlabelled_resource !! k = Some path ->
               Resource_labels team_added !! k = Some path)
  ∧ (∀ k, k ≠ LabelFromPathMarker_Name team_same ->
          Resource_labels team_added !! k = Resource_labels unlabelled_resource !! k).
Proof.
  apply (ApplyToResource_label_frame chain_reader team_same unlabelled_resource team_added None).
  vm_compute. reflexivity.
Defined.

Lemma ApplyToResource_label_again_witness :
  (∃ new, Parse chain_reader (LabelFromPathMarker_JSONPath team_same) = Done (Value new)
          ∧ Resource_labels team_added !! LabelFromPathMarker_Name team_same = Some new)
  ∧ LabelFromPathMarker_ApplyToResource chain_reader team_same team_added = Done (team_added, None).
Proof.
  apply (ApplyToResource_label_again chain_reader team_same unlabelled_resource team_added).
  vm_compute. reflexivity.
Defined.

(** The replicas generator under status, then under spec. *)
Lemma prependPathOnGenerator_twice_witness :
  ∃ g1 g2,
    prependPathOnGenerator replicas_nested "status" = Done g1
    ∧ prependPathOnGenerator g1 "spec" = Done g2
    ∧ Generator_path g2 = Some ["spec"; "status"; "replicas"]
    ∧ Generator_clear_path g1 = Generator_clear_path replicas_nested
    ∧ Generator_clear_path g2 = Generator_clear_path replicas_nested.
Proof.
  apply (prependPathOnGenerator_twice replicas_nested "status" "spec" ["replicas"]).
  reflexivity.
Defined.

(** A gauge tag over a nil gauge. *)
Lemma prependPathOnGenerator_Panic_iff_witness :
  prependPathOnGenerator broken_generator "status" = Panic.
Proof.
  apply (proj2 (proj1 (prependPathOnGenerator_Panic_iff broken_generator "status"))).
  split; [intros [=] | reflexivity].
Defined.

(** The markers of the field replicas. *)
Lemma generatorsFromMarkers_names_witness :
  Name <$> [replicas_nested]
    = omap MarkerValue_metric (mjoin (snd <$> Field_Markers replicas_field))
  ∧ Forall (fun g => ∃ more, Generator_path g = Some (["replicas"] ++ more)) [replicas_nested].
Proof.
  apply (generatorsFromMarkers_names chain_reader (Field_Markers replicas_field) ["replicas"]).
  vm_compute. reflexivity.
Defined.

(** The field replicas, of the basic type int32. *)
Lemma NeedMetricsGeneratorFor_field_flat_witness :
  NeedMetricsGeneratorFor_field chain_reader TypeOf no_imports (NeedMetricsGeneratorFor' 0)
    (Some api_v1, "WidgetStatus") [] replicas_field one_package
  = Done ([] ++ [replicas_nested], one_package).
Proof.
  apply (NeedMetricsGeneratorFor_field_flat chain_reader TypeOf no_imports
           (NeedMetricsGeneratorFor' 0) (Some api_v1, "WidgetStatus") api_v1 []
           [replicas_nested] replicas_field "replicas" one_package).
  - reflexivity.
  - reflexivity.
  - vm_compute. reflexivity.
  - right. reflexivity.
Defined.

(** A field of an inline struct type behind a pointer. *)
Lemma NeedMetricsGeneratorFor_field_unsupported_witness :
  NeedMetricsGeneratorFor_field chain_reader TypeOf no_imports (NeedMetricsGeneratorFor' 0)
    (Some api_v1, "Widget") [] inline_field one_package
  = Fatal unsupported_AST_kind.
Proof.
  apply (NeedMetricsGeneratorFor_field_unsupported chain_reader TypeOf no_imports
           (NeedMetricsGeneratorFor' 0) (Some api_v1, "Widget") api_v1 [] [] inline_field
           "spec" one_package).
  - reflexivity.
  - reflexivity.
  - reflexivity.
  - left. reflexivity.
Defined.

(** A field of a type from a package that is not imported. *)
Lemma NeedMetricsGeneratorFor_field_no_info_witness :
  NeedMetricsGeneratorFor_field chain_reader TypeOf_elsewhere no_imports
    (NeedMetricsGeneratorFor chain_reader TypeOf_elsewhere no_imports 1)
    (Some api_v1, "Widget") [] owner_field one_package
  = Fatal expected_info.
Proof.
  apply (NeedMetricsGeneratorFor_field_no_info chain_reader TypeOf_elsewhere no_imports 0
           (Some api_v1, "Widget") api_v1 "example.com/other" [] [] owner_field
           "owner" "Owner" "Owner" one_package).
  - reflexivity.
  - reflexivity.
  - reflexivity.
  - reflexivity.
  - reflexivity.
  - vm_compute. reflexivity.
  - vm_compute. reflexivity.
Defined.

(** A skipped field with a gauge marker and an inline struct type, in front
    of the field status. *)
Lemma NeedMetricsGeneratorFor_skips_witness :
  range_foldM (NeedMetricsGeneratorFor_field chain_reader TypeOf no_imports
                 (NeedMetricsGeneratorFor' 2) (Some api_v1, "Widget"))
    ([] ++ hidden_field :: [status_field]) [] one_package
  = range_foldM (NeedMetricsGeneratorFor_field chain_reader TypeOf no_imports
                   (NeedMetricsGeneratorFor' 2) (Some api_v1, "Widget"))
      ([] ++ [status_field]) [] one_package.
Proof.
  apply (NeedMetricsGeneratorFor_skips chain_reader TypeOf no_imports (NeedMetricsGeneratorFor' 2)
           (Some api_v1, "Widget") [] [status_field] hidden_field [] one_package).
  right. reflexivity.
Defined.

(** The type Widget. *)
Lemma NeedMetricsGeneratorFor_shape_witness :
  ∃ info fromType fromFields,
    Types one_package !! ((Some api_v1, "Widget") : TypeIdent) = Some info
    ∧ generatorsFromMarkers chain_reader (Type_Markers info) [] = Done fromType
    ∧ [replicas_generator] = fromType ++ fromFields
    ∧ Forall (fun g => ∃ f n more, f ∈ Fields info ∧ FieldInfo_name f = Some n
                                   ∧ Generator_path g = Some (n :: more)) fromFields.
Proof.
  apply (NeedMetricsGeneratorFor_shape chain_reader TypeOf no_imports 2
           (Some api_v1, "Widget") one_package one_package [replicas_generator]).
  - reflexivity.
  - vm_compute. reflexivity.
Defined.

Lemma NeedMetricsGeneratorFor_writes_nothing_witness :
  one_package = one_package
  ∧ Forall (fun g => is_Some (Generator_path g)) [replicas_generator].
Proof.
  apply (NeedMetricsGeneratorFor_writes_nothing chain_reader TypeOf no_imports 3
           (Some api_v1, "Widget") one_package one_package [replicas_generator]).
  vm_compute. reflexivity.
Defined.

(** NeedResourceFor on the kind Widget, and once more without fuel. *)
Lemma NeedResourceFor_memoized_witness :
  is_Some (CustomResourceStates one_package_done !! (("example.com", "Widget") : GroupKind))
  ∧ NeedResourceFor' 0 ("example.com", "Widget") one_package_done = Done (tt, one_package_done).
Proof.
  apply (NeedResourceFor_memoized chain_reader TypeOf no_imports gvk_marker insertion_sort 3 0
           ("example.com", "Widget") one_package one_package_done).
  vm_compute. reflexivity.
Defined.

Lemma NeedResourceFor_frame_witness :
  Types one_package_done = Types one_package
  ∧ GroupVersions one_package_done = GroupVersions one_package
  ∧ FlattenedMetrics one_package_done = FlattenedMetrics one_package
  ∧ PackageErrors one_package `prefix_of` PackageErrors one_package_done
  ∧ ∀ other, other ≠ (("example.com", "Widget") : GroupKind) ->
      CustomResourceStates one_package_done !! other = CustomResourceStates one_package !! other.
Proof.
  apply (NeedResourceFor_frame chain_reader TypeOf no_imports gvk_marker insertion_sort 3
           ("example.com", "Widget") one_package one_package_done).
  vm_compute. reflexivity.
Defined.

(** The kind WidgetStatus, which no package declares with the gvk marker. *)
Lemma NeedResourceFor_untracked_witness :
  NeedResourceFor' 0 ("example.com", "WidgetStatus") one_package = Panic
  ∨ ∃ p' resource,
      NeedResourceFor' 0 ("example.com", "WidgetStatus") one_package = Done (tt, p')
      ∧ CustomResourceStates p' !! (("example.com", "WidgetStatus") : GroupKind) = Some resource
      ∧ Metrics resource = []
      ∧ Resource_GroupVersionKind resource
        = {| Group := "example.com"; Version := ""; Kind := "WidgetStatus" |}.
Proof.
  apply (NeedResourceFor_untracked chain_reader TypeOf no_imports gvk_marker insertion_sort 0
           ("example.com", "WidgetStatus") one_package).
  - reflexivity.
  - intros pkg Hin. change (pkg ∈ [api_v1]) in Hin.
    apply list_elem_of_singleton in Hin as ->. vm_compute. reflexivity.
Defined.

(** The metrics of the kind Widget. *)
Lemma NeedResourceFor_metrics_sorted_witness :
  ∃ resource,
    CustomResourceStates one_package_done !! (("example.com", "Widget") : GroupKind) = Some resource
    ∧ Metrics resource
      = default []
          ((fun pkg => insertion_sort (fun a b => String.ltb (Name a) (Name b)) [replicas_generator])
             <$> last (filter (fun pkg => declares_kind gvk_marker one_package
                                            ("example.com", "Widget") pkg = true)
                              (NeedResourceFor_packages one_package ("example.com", "Widget")))).
Proof.
  apply (NeedResourceFor_metrics_sorted chain_reader TypeOf no_imports gvk_marker insertion_sort 3
           ("example.com", "Widget") one_package one_package_done (fun _ => [replicas_generator])).
  - reflexivity.
  - intros pkg Hin _. change (pkg ∈ [api_v1]) in Hin.
    apply list_elem_of_singleton in Hin as ->. vm_compute. reflexivity.
  - vm_compute. reflexivity.
Defined.

(** Three resources without prefix, of the kinds A, B and C. *)
Lemma Generate_less_unprefixed_witness :
  Generate_less (unprefixed "A") (unprefixed "A") = Done false
  ∧ (Generate_less (unprefixed "A") (unprefixed "B") = Done true ->
     Generate_less (unprefixed "B") (unprefixed "A") = Done false)
  ∧ (Generate_less (unprefixed "A") (unprefixed "B") = Done true ->
     Generate_less (unprefixed "B") (unprefixed "C") = Done true ->
     Generate_less (unprefixed "A") (unprefixed "C") = Done true)
  ∧ (GroupVersionKind_string (Resource_GroupVersionKind (unprefixed "A"))
       ≠ GroupVersionKind_string (Resource_GroupVersionKind (unprefixed "B")) ->
     Generate_less (unprefixed "A") (unprefixed "B") = Done true
     ∨ Generate_less (unprefixed "B") (unprefixed "A") = Done true).
Proof.
  apply (Generate_less_unprefixed (unprefixed "A") (unprefixed "B") (unprefixed "C"));
    reflexivity.
Defined.
